(** * arb-bot: the cross-venue arbitrage cycle of [arbitrage_bot.py]

    A shallow embedding of the one source file of the repository and the
    properties its specification states about it.

    - Python [str] values are [string]s, read as ASCII text.
    - Python [float] arithmetic is reached through the interface [PyFloat];
      the cycle is written once over it. Two instances are given: exact
      rational arithmetic on [Q] (the "positive reals" of the specification)
      and IEEE binary64 on the primitive [float]s (what CPython computes).
    - Exceptions are values of [exn]; code that may raise lives in the monad
      [M], a state monad with exceptions in which the state survives a raise
      (a Python list that was appended to stays appended when a later
      statement of the same [try] block raises).
    - The network and the spreadsheet are the record [Env] (what the outside
      world answers during one run) and the fields of [State] (what the run
      has done to it). *)

From Stdlib Require Import ZArith QArith Qabs Lqa Floats Ascii String.
From Stdlib Require Qpower.
From stdpp Require Import gmap strings list.

Local Open Scope string_scope.
Local Open Scope list_scope.

(** ** Python strings *)

Module PyStr.

(** [str.isspace] on the ASCII range: tab, LF, VT, FF, CR, the four
    separators 0x1c-0x1f and the space. *)
Definition is_space (c : ascii) : bool :=
  let n := nat_of_ascii c in
  (((9 <=? n) && (n <=? 13)) || ((28 <=? n) && (n <=? 32)))%nat.

Fixpoint lstrip (s : string) : string :=
  match s with
  | String c s' => if is_space c then lstrip s' else s
  | EmptyString => EmptyString
  end.

(** [rstrip] keeps a character when it is not a space or when something
    survives to its right. *)
Fixpoint rstrip (s : string) : string :=
  match s with
  | String c s' =>
      match rstrip s' with
      | EmptyString => if is_space c then EmptyString else String c EmptyString
      | r => String c r
      end
  | EmptyString => EmptyString
  end.

(** [s.strip()] *)
Definition strip (s : string) : string := rstrip (lstrip s).

Definition upper_char (c : ascii) : ascii :=
  let n := nat_of_ascii c in
  if ((97 <=? n) && (n <=? 122))%nat then ascii_of_nat (n - 32) else c.

(** [s.upper()] *)
Fixpoint upper (s : string) : string :=
  match s with
  | String c s' => String (upper_char c) (upper s')
  | EmptyString => EmptyString
  end.

(** [s.split(sep)] for a one-character separator: every occurrence cuts,
    so the result has one more field than there are separators. *)
Fixpoint split (sep : ascii) (s : string) : list string :=
  match s with
  | EmptyString => [EmptyString]
  | String c s' =>
      if Ascii.eqb c sep then EmptyString :: split sep s'
      else match split sep s' with
           | f :: fs => String c f :: fs
           | [] => [String c EmptyString]
           end
  end.

(** Truth value of a string: non-empty. *)
Definition truthy (s : string) : bool :=
  match s with EmptyString => false | _ => true end.

(** [c in s] for a character. *)
Fixpoint contains (c : ascii) (s : string) : bool :=
  match s with
  | String a s' => Ascii.eqb a c || contains c s'
  | EmptyString => false
  end.

(** The double quote, code 34. *)
Definition dquote : ascii := ascii_of_nat 34.

Definition hex_digit (n : nat) : ascii :=
  if (n <? 10)%nat then ascii_of_nat (48 + n) else ascii_of_nat (87 + n).

(** One character inside [repr(s)] when the quote is [q]: the quote and
    the backslash take a backslash, tab, line feed and carriage return
    have their letters, the other control characters are written
    [\xNN]. *)
Definition escape (q c : ascii) : string :=
  let n := nat_of_ascii c in
  if Ascii.eqb c q || Ascii.eqb c "\" then String "\" (String c EmptyString)
  else if (n =? 9)%nat then "\t"
  else if (n =? 10)%nat then "\n"
  else if (n =? 13)%nat then "\r"
  else if ((n <? 32) || (n =? 127))%nat
       then String "\" (String "x" (String (hex_digit (n / 16))
                                          (String (hex_digit (n mod 16)) EmptyString)))
  else String c EmptyString.

Fixpoint escape_all (q : ascii) (s : string) : string :=
  match s with
  | String c s' => escape q c +:+ escape_all q s'
  | EmptyString => EmptyString
  end.

(** [repr(s)]: single quotes, unless the string has a single quote and no
    double quote. *)
Definition repr (s : string) : string :=
  let q := if contains "'" s && negb (contains dquote s) then dquote else "'"%char in
  String q (escape_all q s +:+ String q EmptyString).

End PyStr.

(** ** Reading a float literal

    The grammar [float(s)] accepts, between white space:
    [[sign] (floatnumber | "inf" | "infinity" | "nan")] with
    [floatnumber ::= ([digitpart] "." digitpart | digitpart ["."]) [exponent]],
    [digitpart ::= digit (["_"] digit)*] and
    [exponent ::= ("e"|"E") [sign] digitpart]. *)

Module FloatLiteral.

(** The white space [float] skips at both ends of its argument: tab, LF,
    VT, FF, CR and the space (C's [isspace]); the separators 0x1c-0x1f,
    which [str.strip] removes, are not skipped here. *)
Definition is_space (c : ascii) : bool :=
  let n := nat_of_ascii c in
  (((9 <=? n) && (n <=? 13)) || (n =? 32))%nat.

Fixpoint lstrip (s : string) : string :=
  match s with
  | String c s' => if is_space c then lstrip s' else s
  | EmptyString => EmptyString
  end.

Fixpoint rstrip (s : string) : string :=
  match s with
  | String c s' =>
      match rstrip s' with
      | EmptyString => if is_space c then EmptyString else String c EmptyString
      | r => String c r
      end
  | EmptyString => EmptyString
  end.

Definition strip (s : string) : string := rstrip (lstrip s).

Inductive t : Type :=
| Num (neg : bool) (digits : Z) (exp10 : Z)   (* (-1)^neg * digits * 10^exp10 *)
| Inf (neg : bool)
| Nan.

Definition digit_val (c : ascii) : option Z :=
  let n := nat_of_ascii c in
  if ((48 <=? n) && (n <=? 57))%nat then Some (Z.of_nat (n - 48)) else None.

(** The rest of a digitpart after its first digit: value so far, number of
    digits read, and the unread suffix. An underscore is consumed only
    when a digit follows it. *)
Fixpoint digitpart_tail (v : Z) (n : Z) (s : string) : Z * Z * string :=
  match s with
  | String c s' =>
      match digit_val c with
      | Some d => digitpart_tail (10 * v + d)%Z (n + 1)%Z s'
      | None =>
          if Ascii.eqb c "_" then
            match s' with
            | String c' s'' =>
                match digit_val c' with
                | Some d => digitpart_tail (10 * v + d)%Z (n + 1)%Z s''
                | None => (v, n, s)
                end
            | EmptyString => (v, n, s)
            end
          else (v, n, s)
      end
  | EmptyString => (v, n, s)
  end.

(** [digitpart v0 s]: a digitpart at the head of [s], continuing the
    value [v0]. *)
Definition digitpart (v0 : Z) (s : string) : option (Z * Z * string) :=
  match s with
  | String c s' =>
      match digit_val c with
      | Some d => Some (digitpart_tail (10 * v0 + d)%Z 1%Z s')
      | None => None
      end
  | EmptyString => None
  end.

Definition sign (s : string) : bool * string :=
  match s with
  | String "-" s' => (true, s')
  | String "+" s' => (false, s')
  | _ => (false, s)
  end.

(** [number]: the digits as one integer and the number of them that
    stand behind the point. *)
Definition number (s : string) : option (Z * Z * string) :=
  match digitpart 0%Z s with
  | Some (v, _, String "." s') =>
      match digitpart v s' with
      | Some (v', k, rest) => Some (v', k, rest)
      | None => Some (v, 0%Z, s')
      end
  | Some (v, _, rest) => Some (v, 0%Z, rest)
  | None =>
      match s with
      | String "." s' => match digitpart 0%Z s' with
                         | Some (v, k, rest) => Some (v, k, rest)
                         | None => None
                         end
      | _ => None
      end
  end.

(** [exponent]: absent, or a complete exponent up to the end of input. *)
Definition exponent (s : string) : option Z :=
  match s with
  | EmptyString => Some 0%Z
  | String c s' =>
      if Ascii.eqb c "e" || Ascii.eqb c "E" then
        let '(neg, s'') := sign s' in
        match digitpart 0%Z s'' with
        | Some (e, _, EmptyString) => Some (if neg then (- e)%Z else e)
        | _ => None
        end
      else None
  end.

Definition read (s : string) : option t :=
  let '(neg, body) := sign (strip s) in
  let low := PyStr.upper body in
  if String.eqb low "INF" || String.eqb low "INFINITY" then Some (Inf neg)
  else if String.eqb low "NAN" then Some Nan
  else
    match number body with
    | Some (v, k, rest) =>
        match exponent rest with
        | Some e => Some (Num neg v (e - k)%Z)
        | None => None
        end
    | None => None
    end.

End FloatLiteral.

(** ** The arithmetic of Python floats

    What the program needs from [float]: conversion from [int] (the mixed
    expressions [10000 * x] and [x / 2]), the value of a literal, the three
    total operations, the quotient, the test [x == 0.0] that decides whether
    [/] raises, and the comparison [>=]. *)

Class PyFloat (F : Type) : Type := {
  of_int : Z -> F;
  of_literal : FloatLiteral.t -> option F;
  fadd : F -> F -> F;
  fsub : F -> F -> F;
  fmul : F -> F -> F;
  fquot : F -> F -> F;
  fis_zero : F -> bool;
  fge : F -> F -> bool;
}.

(** Exact arithmetic. A literal denotes its decimal value; the rationals
    have no infinity and no NaN, so those two literals have no value here. *)
#[export] Instance Q_float : PyFloat Q := {
  of_int := inject_Z;
  of_literal l :=
    match l with
    | FloatLiteral.Num neg d e =>
        Some (Qred (inject_Z (if neg then - d else d) * Qpower (10 # 1) e))
    | _ => None
    end;
  fadd := Qplus;
  fsub := Qminus;
  fmul := Qmult;
  fquot := Qdiv;
  fis_zero x := Qeq_bool x 0;
  fge x y := Qle_bool y x;
}.

(** IEEE 754 binary64 with round-to-nearest-even, on Rocq's primitive
    floats. A literal is rounded once, from its exact decimal value. *)
Module Binary64.

Definition of_Z (z : Z) : spec_float := binary_normalize prec emax z 0 false.

Definition of_decimal (d e : Z) : spec_float :=
  if (0 <=? e)%Z then of_Z (d * 10 ^ e)
  else match d, (10 ^ (- e))%Z with
       | Zpos m, Zpos p => SFdiv prec emax (S754_finite false m 0) (S754_finite false p 0)
       | _, _ => S754_zero false
       end.

Definition of_literal (l : FloatLiteral.t) : float :=
  match l with
  | FloatLiteral.Num neg d e =>
      SF2Prim (if neg then SFopp (of_decimal d e) else of_decimal d e)
  | FloatLiteral.Inf neg => if neg then neg_infinity else infinity
  | FloatLiteral.Nan => nan
  end.

(** The rational a finite binary64 float denotes. *)
Definition to_Q (x : float) : option Q :=
  match Prim2SF x with
  | S754_zero _ => Some 0%Q
  | S754_finite s m e =>
      Some (inject_Z (if s then Z.neg m else Z.pos m) * Qpower (2 # 1) e)%Q
  | _ => None
  end.

(** [v] is the opposite of [u], or both are zeros (of any sign). *)
Definition opposite (u v : spec_float) : Prop :=
  v = SFopp u \/ ((exists s, u = S754_zero s) /\ (exists s, v = S754_zero s)).

End Binary64.

#[export] Instance binary64_float : PyFloat float := {
  of_int z := SF2Prim (Binary64.of_Z z);
  of_literal l := Some (Binary64.of_literal l);
  fadd := PrimFloat.add;
  fsub := PrimFloat.sub;
  fmul := PrimFloat.mul;
  fquot := PrimFloat.div;
  fis_zero x := PrimFloat.eqb x PrimFloat.zero;
  fge x y := PrimFloat.leb y x;
}.

(** ** Exceptions *)

Inductive exn : Type := Exn (cls : string) (msg : string).

(** [str(e)] *)
Definition str (e : exn) : string := let 'Exn _ msg := e in msg.

Definition RuntimeError (msg : string) : exn := Exn "RuntimeError" msg.
Definition ValueError (msg : string) : exn := Exn "ValueError" msg.
Definition TypeError (msg : string) : exn := Exn "TypeError" msg.
Definition KeyError (key : string) : exn := Exn "KeyError" ("'" +:+ key +:+ "'").
Definition ZeroDivisionError : exn := Exn "ZeroDivisionError" "float division by zero".

(** A computation without side effects that may raise. *)
Definition result (A : Type) : Type := exn + A.

#[export] Instance result_ret : MRet result := fun _ x => inr x.
#[export] Instance result_bind : MBind result :=
  fun _ _ f r => match r with inl e => inl e | inr x => f x end.

Section Values.

Context {F : Type} `{PyFloat F}.

(** [float(s)] for a string: [ValueError], with [repr(s)] in its text,
    when [s] is no literal. *)
Definition float_of_string (s : string) : result F :=
  match FloatLiteral.read s with
  | Some l =>
      match of_literal l with
      | Some x => inr x
      | None => inl (ValueError ("could not convert string to float: " +:+ PyStr.repr s))
      end
  | None => inl (ValueError ("could not convert string to float: " +:+ PyStr.repr s))
  end.

(** [x / y] on floats: raises when the divisor compares equal to zero. *)
Definition truediv (x y : F) : result F :=
  if fis_zero y then inl ZeroDivisionError else inr (fquot x y).

(** A decoded JSON document ([r.json()]). *)
#[warnings="-register-all"]
Inductive json : Type :=
| JNull
| JBool (b : bool)
| JNum (x : F)
| JStr (s : string)
| JList (l : list json)
| JDict (d : gmap string json).

(** [j[key]] with a string key. *)
Definition getitem (j : json) (key : string) : result json :=
  match j with
  | JDict d =>
      match d !! key with
      | Some v => inr v
      | None => inl (KeyError key)
      end
  | JList _ => inl (TypeError "list indices must be integers or slices, not str")
  | JStr _ => inl (TypeError "string indices must be integers, not 'str'")
  | JNull => inl (TypeError "'NoneType' object is not subscriptable")
  | JBool _ => inl (TypeError "'bool' object is not subscriptable")
  | JNum _ => inl (TypeError "'float' object is not subscriptable")
  end.

(** [float(j)] for a decoded JSON value. *)
Definition float_of_json (j : json) : result F :=
  match j with
  | JStr s => float_of_string s
  | JNum x => inr x
  | JBool b => inr (of_int (if b then 1 else 0))
  | JNull => inl (TypeError "float() argument must be a string or a real number, not 'NoneType'")
  | JList _ => inl (TypeError "float() argument must be a string or a real number, not 'list'")
  | JDict _ => inl (TypeError "float() argument must be a string or a real number, not 'dict'")
  end.

End Values.

Arguments json F : clear implicits.

(** ** The run-time world of [main] *)

Section Cycle.

Context {F : Type} `{PyFloat F}.

(** A spreadsheet cell handed to gspread: a string or a float. *)
Inductive cell : Type :=
| Text (s : string)
| Number (x : F).

Definition row : Type := list cell.

(** The tuple [(coin, side, spr, luno_usd, ku_price)] kept in [alerts]. *)
Definition alert : Type := string * string * F * F * F.

(** An f-string, as its literal parts and interpolated floats
    ([{x}] and [{x:.2f}]); strings are interpolated as they are. *)
Inductive piece : Type :=
| Lit (s : string)
| Val (x : F)
| Val2f (x : F).

(** What the program does to the outside world, in order. *)
Inductive event : Type :=
| XeGet (from_curr to_curr : string)
| Sleep (seconds : Z)
| KucoinGet (coin : string)
| LunoGet (coin : string)
| AppendRow (r : row)
| AppendRows (rs : list row)
| TelegramPost (token chat_id : string) (text : list piece).

(** The XE converter page, seen through the two searches made on it: the
    digits captured by ["<to_curr>"\s*:\s*(\d+\.\d+)] and by
    [(\d+\.\d+)<span class="faded-digits">], [None] when there is no
    match. *)
Record xe_page : Type := {
  labelled : option string;
  faded_digits : option string;
}.

(** What the outside world answers during one run. The two worksheets are
    taken as open and the calls on them as succeeding; an HTTP call
    answers or raises. *)
Record Env : Type := {
  setting_values : list (list string);      (* setting_ws.get_all_values() *)
  xe_get : string -> string -> result xe_page;
  kucoin_get : string -> result (json F);   (* requests.get(...).json() *)
  luno_get : string -> result (json F);
  telegram_post : string -> string -> list piece -> result unit;
  now : string;                             (* datetime.now().strftime(...) *)
}.

(** The state of a run: the Log worksheet, the calls made so far, and the
    two lists [main] fills. *)
Record State : Type := {
  log_ws : list row;
  trace : list event;
  rows : list row;
  alerts : list alert;
}.

(** Computations of a run. The state is returned on both outcomes. *)
Definition M (A : Type) : Type := State -> result A * State.

#[export] Instance M_ret : MRet M := fun _ x s => (inr x, s).
#[export] Instance M_bind : MBind M :=
  fun _ _ f m s => match m s with
                   | (inr x, s') => f x s'
                   | (inl e, s') => (inl e, s')
                   end.

Definition lift {A} (r : result A) : M A := fun s => (r, s).

Definition raise {A} (e : exn) : M A := fun s => (inl e, s).

(** [try: body  except Exception as e: handler(e)] *)
Definition try_except (body : M unit) (handler : exn -> M unit) : M unit :=
  fun s => match body s with
           | (inl e, s') => handler e s'
           | r => r
           end.

(** [for x in l: body(x)] *)
Fixpoint for_each {A} (l : list A) (body : A -> M unit) : M unit :=
  match l with
  | [] => mret tt
  | x :: l' => body x;; for_each l' body
  end.

Definition emit (e : event) : M unit :=
  fun s => (inr tt, {| log_ws := log_ws s; trace := trace s ++ [e];
                       rows := rows s; alerts := alerts s |}).

(** [rows.append(r)] *)
Definition rows_append (r : row) : M unit :=
  fun s => (inr tt, {| log_ws := log_ws s; trace := trace s;
                       rows := rows s ++ [r]; alerts := alerts s |}).

(** [alerts.append(a)] *)
Definition alerts_append (a : alert) : M unit :=
  fun s => (inr tt, {| log_ws := log_ws s; trace := trace s;
                       rows := rows s; alerts := alerts s ++ [a] |}).

(** [log_ws.append_row(r)] *)
Definition append_row (r : row) : M unit :=
  fun s => (inr tt, {| log_ws := log_ws s ++ [r]; trace := trace s ++ [AppendRow r];
                       rows := rows s; alerts := alerts s |}).

(** [log_ws.append_rows(rs, ...)] *)
Definition append_rows (rs : list row) : M unit :=
  fun s => (inr tt, {| log_ws := log_ws s ++ rs; trace := trace s ++ [AppendRows rs];
                       rows := rows s; alerts := alerts s |}).

(** ** The functions of [arbitrage_bot.py] *)

Definition get_xe_rate (env : Env) (from_curr to_curr : string) : M F :=
  emit (XeGet from_curr to_curr);;
  page ← lift (xe_get env from_curr to_curr);
  let m := labelled page in
  let m := match m with None => faded_digits page | Some _ => m end in
  match m with
  | None => raise (RuntimeError ("XE parse failed for " +:+ from_curr +:+ "->" +:+ to_curr))
  | Some group1 => lift (float_of_string group1)
  end.

Definition kucoin_prices (env : Env) (coin : string) : M (F * F) :=
  emit (KucoinGet coin);;
  j ← lift (kucoin_get env coin);
  lift (d ← getitem j "data"; b ← getitem d "bestBid"; bid ← float_of_json b;
        d ← getitem j "data"; a ← getitem d "bestAsk"; ask ← float_of_json a;
        mret (bid, ask)).

Definition luno_prices_myr (env : Env) (coin : string) : M (F * F) :=
  emit (LunoGet coin);;
  j ← lift (luno_get env coin);
  lift (b ← getitem j "bid"; bid ← float_of_json b;
        a ← getitem j "ask"; ask ← float_of_json a;
        mret (bid, ask)).

Definition send_telegram (env : Env) (token chat_id : string) (text : list piece) : M unit :=
  emit (TelegramPost token chat_id text);;
  lift (telegram_post env token chat_id text).

(** The dictionary [m] built by the loop of [load_settings]: a row counts
    when it has two cells and a non-blank first one; a later row
    overwrites an earlier one with the same key. *)
Definition settings_map (values : list (list string)) : gmap string string :=
  foldl (fun m r =>
           match r with
           | k :: v :: _ =>
               if PyStr.truthy (PyStr.strip k) then <[PyStr.strip k := PyStr.strip v]> m else m
           | _ => m
           end) ∅ values.

(** [m.get(key, dflt)] *)
Definition dict_get (m : gmap string string) (key dflt : string) : string :=
  default dflt (m !! key).

Definition load_settings (values : list (list string))
  : result (F * F * list string * string * string) :=
  let m := settings_map values in
  alert_bps ← float_of_string (dict_get m "ALERT_BPS" "200");
  cooldown_min ← float_of_string (dict_get m "COOLDOWN_MIN" "10");
  let coins := map (fun c => PyStr.upper (PyStr.strip c))
                   (List.filter (fun c => PyStr.truthy (PyStr.strip c))
                                (PyStr.split "," (dict_get m "COINS" "BTC,ETH"))) in
  let tg_token := dict_get m "TELEGRAM_BOT_TOKEN" "" in
  let tg_chat_id := dict_get m "TELEGRAM_CHAT_ID" "" in
  mret (alert_bps, cooldown_min, coins, tg_token, tg_chat_id).

Definition header : row :=
  [Text "Timestamp"; Text "Side"; Text "Coin";
   Text "Luno(MYR)"; Text "KuCoin(USDT)";
   Text "USD/MYR"; Text "USD/THB"; Text "MYR/THB";
   Text "Luno(USD)"; Text "Spread(bps)"; Text "Error"].

(** The first [if] of the function only passes; the second one appends
    the header when [get_all_values()] is empty. *)
Definition ensure_headers : M unit :=
  fun s => if (length (log_ws s) =? 0)%nat then append_row header s else (inr tt, s).

(** [10000 * ((x - y) / ((x + y) / 2))], the expression of lines 113
    and 120. *)
Definition spread_bps (x y : F) : result F :=
  mid ← truediv (fadd x y) (of_int 2);
  rel ← truediv (fsub x y) mid;
  mret (fmul (of_int 10000) rel).

(** The message of lines 134-145, without its emoji and line breaks. *)
Definition alert_text (coin side : string) (spr luno_usd ku_price usd_thb myr_thb usd_myr : F)
           (ts : string) : list piece :=
  [Lit "ARB ALERT"; Lit "Coin: "; Lit coin; Lit "Side: "; Lit side;
   Lit "Spread: "; Val2f spr; Lit " bps";
   Lit "Luno(USD): "; Val luno_usd;
   Lit "KuCoin(USDT): "; Val ku_price;
   Lit "USD/THB (XE): "; Val usd_thb;
   Lit "MYR/THB (XE): "; Val myr_thb;
   Lit "USD/MYR (derived): "; Val usd_myr;
   Lit "Time: "; Lit ts].

(** The [try] block of the loop over the coins (lines 108-123). *)
Definition main_try (env : Env) (ts : string) (alert_bps usd_myr usd_thb myr_thb : F)
           (coin : string) : M unit :=
  '(ku_bid, ku_ask) ← kucoin_prices env coin;
  '(lu_bid, lu_ask) ← luno_prices_myr env coin;
  luno_usd ← lift (truediv lu_bid usd_myr);
  spr ← lift (spread_bps luno_usd ku_ask);
  rows_append [Text ts; Text "Bid"; Text coin; Number lu_bid; Number ku_ask;
               Number usd_myr; Number usd_thb; Number myr_thb;
               Number luno_usd; Number spr; Text ""];;
  (if fge spr alert_bps
   then alerts_append (coin, "Bid", spr, luno_usd, ku_ask) else mret tt);;
  luno_usd ← lift (truediv lu_ask usd_myr);
  spr ← lift (spread_bps luno_usd ku_bid);
  rows_append [Text ts; Text "Ask"; Text coin; Number lu_ask; Number ku_bid;
               Number usd_myr; Number usd_thb; Number myr_thb;
               Number luno_usd; Number spr; Text ""];;
  (if fge spr alert_bps
   then alerts_append (coin, "Ask", spr, luno_usd, ku_bid) else mret tt).

(** The [except Exception as e] clause (line 126). *)
Definition main_except (ts : string) (usd_myr usd_thb myr_thb : F)
           (coin : string) (e : exn) : M unit :=
  rows_append [Text ts; Text "ERR"; Text coin; Text ""; Text "";
               Number usd_myr; Number usd_thb; Number myr_thb;
               Text ""; Text ""; Text (str e)].

(** One turn of the loop: the [try] statement of lines 107-126. *)
Definition main_coin (env : Env) (ts : string) (alert_bps usd_myr usd_thb myr_thb : F)
           (coin : string) : M unit :=
  try_except (main_try env ts alert_bps usd_myr usd_thb myr_thb coin)
             (main_except ts usd_myr usd_thb myr_thb coin).

(** One turn of the loop over [alerts] (lines 133-146). *)
Definition main_alert (env : Env) (tg_token tg_chat_id : string) (usd_myr usd_thb myr_thb : F)
           (ts : string) (a : alert) : M unit :=
  let '(coin, side, spr, luno_usd, ku_price) := a in
  send_telegram env tg_token tg_chat_id
    (alert_text coin side spr luno_usd ku_price usd_thb myr_thb usd_myr ts).

(** [rows = []] and [alerts = []] *)
Definition new_lists : M unit :=
  fun s => (inr tt, {| log_ws := log_ws s; trace := trace s; rows := []; alerts := [] |}).

Definition get_state : M State := fun s => (inr s, s).

Definition main (env : Env) : M unit :=
  ensure_headers;;
  '(alert_bps, cooldown_min, coins, tg_token, tg_chat_id) ←
    lift (load_settings (setting_values env));
  usd_thb ← get_xe_rate env "USD" "THB";
  emit (Sleep 2);;
  myr_thb ← get_xe_rate env "MYR" "THB";
  usd_myr ← lift (truediv usd_thb myr_thb);
  let ts := now env in
  new_lists;;
  for_each coins (main_coin env ts alert_bps usd_myr usd_thb myr_thb);;
  s ← get_state;
  append_rows (rows s);;
  if PyStr.truthy tg_token && PyStr.truthy tg_chat_id then
    for_each (alerts s) (main_alert env tg_token tg_chat_id usd_myr usd_thb myr_thb ts)
  else mret tt.

(** A run of the program on a Log worksheet holding [sheet]. *)
Definition start (sheet : list row) : State :=
  {| log_ws := sheet; trace := []; rows := []; alerts := [] |}.

Definition run (env : Env) (sheet : list row) : result unit * State :=
  main env (start sheet).

End Cycle.

Arguments cell F : clear implicits.
Arguments row F : clear implicits.
Arguments alert F : clear implicits.
Arguments piece F : clear implicits.
Arguments event F : clear implicits.
Arguments Env F : clear implicits.
Arguments State F : clear implicits.
Arguments M F A : clear implicits.

(** ** What a run does, summed up

    Apart from the header check and the two assignments [rows = []],
    [alerts = []], every step of a run only appends: to the worksheet, to
    the trace, to [rows], to [alerts]. The definitions below name what each
    part of [main] returns and appends; the lemmas of the next part prove
    that it does. *)

Section Summary.

Context {F : Type} `{PyFloat F}.

Local Abbreviation St := (State F).

(** [extend s d]: the state [s] with the lists of [d] appended. *)
Definition extend (s d : St) : St :=
  {| log_ws := log_ws s ++ log_ws d; trace := trace s ++ trace d;
     rows := rows s ++ rows d; alerts := alerts s ++ alerts d |}.

(** The value a computation returns when it is run on the empty state
    (for the computations below, on any state). *)
Definition value {A} (m : M F A) : result A := fst (m (start [])).

(** The increment of a computation that only calls out. *)
Definition calls (l : list (event F)) : St :=
  {| log_ws := []; trace := l; rows := []; alerts := [] |}.

(** The two statements that price one direction (lines 112-113 and
    119-120): the normalized price and the spread. *)
Definition side_quote (lu ku usd_myr : F) : result (F * F) :=
  luno_usd ← truediv lu usd_myr; spr ← spread_bps luno_usd ku; mret (luno_usd, spr).

(** The row appended for one direction. *)
Definition observation_row (ts side coin : string) (lu ku usd_myr usd_thb myr_thb luno_usd spr : F)
  : row F :=
  [Text ts; Text side; Text coin; Number lu; Number ku;
   Number usd_myr; Number usd_thb; Number myr_thb; Number luno_usd; Number spr; Text ""].

(** The row appended by the [except] clause. *)
Definition error_row (ts coin : string) (usd_myr usd_thb myr_thb : F) (e : exn) : row F :=
  [Text ts; Text "ERR"; Text coin; Text ""; Text "";
   Number usd_myr; Number usd_thb; Number myr_thb; Text ""; Text ""; Text (str e)].

(** The [if spr >= alert_bps: alerts.append(...)] of lines 115 and 122. *)
Definition evaluate (alert_bps : F) (a : alert F) : list (alert F) :=
  let '(_, _, spr, _, _) := a in if fge spr alert_bps then [a] else [].

(** What one turn of the loop appends: the rows and alerts of the [try]
    block up to the statement that raised, then the error row. *)
Definition failed (ts coin : string) (r r1 r2 : F) (tr : list (event F)) (rs : list (row F))
           (al : list (alert F)) (e : exn) : St :=
  {| log_ws := []; trace := tr; rows := rs ++ [error_row ts coin r r1 r2 e]; alerts := al |}.

Definition turn (env : Env F) (ts : string) (thr r r1 r2 : F) (coin : string) : St :=
  match value (kucoin_prices env coin) with
  | inl e => failed ts coin r r1 r2 [KucoinGet coin] [] [] e
  | inr (kb, ka) =>
      match value (luno_prices_myr env coin) with
      | inl e => failed ts coin r r1 r2 [KucoinGet coin; LunoGet coin] [] [] e
      | inr (lb, la) =>
          match side_quote lb ka r with
          | inl e => failed ts coin r r1 r2 [KucoinGet coin; LunoGet coin] [] [] e
          | inr (nb, sb) =>
              match side_quote la kb r with
              | inl e =>
                  failed ts coin r r1 r2 [KucoinGet coin; LunoGet coin]
                         [observation_row ts "Bid" coin lb ka r r1 r2 nb sb]
                         (evaluate thr (coin, "Bid", sb, nb, ka)) e
              | inr (na, sa) =>
                  {| log_ws := []; trace := [KucoinGet coin; LunoGet coin];
                     rows := [observation_row ts "Bid" coin lb ka r r1 r2 nb sb;
                              observation_row ts "Ask" coin la kb r r1 r2 na sa];
                     alerts := evaluate thr (coin, "Bid", sb, nb, ka)
                               ++ evaluate thr (coin, "Ask", sa, na, kb) |}
              end
          end
      end
  end.

(** What the whole loop appends. *)
Definition turns (env : Env F) (ts : string) (thr r r1 r2 : F) (coins : list string) : St :=
  foldr (fun coin d => extend (turn env ts thr r r1 r2 coin) d) (start []) coins.

Definition alert_message (usd_myr usd_thb myr_thb : F) (ts : string) (a : alert F)
  : list (piece F) :=
  let '(coin, side, spr, luno_usd, ku_price) := a in
  alert_text coin side spr luno_usd ku_price usd_thb myr_thb usd_myr ts.

(** The outcome of the loop over [alerts] and the posts it makes: it stops
    at the first post that raises. *)
Fixpoint notify (env : Env F) (tok chat : string) (r r1 r2 : F) (ts : string)
         (als : list (alert F)) : result unit * list (event F) :=
  match als with
  | [] => (inr tt, [])
  | a :: als' =>
      let post := TelegramPost tok chat (alert_message r r1 r2 ts a) in
      match telegram_post env tok chat (alert_message r r1 r2 ts a) with
      | inl e => (inl e, [post])
      | inr _ => let '(res, posts) := notify env tok chat r r1 r2 ts als' in (res, post :: posts)
      end
  end.

Definition is_post (e : event F) : bool :=
  match e with TelegramPost _ _ _ => true | _ => false end.

(** The worksheet and the trace after the header check. *)
Definition headed (sheet : list (row F)) : list (row F) :=
  match sheet with [] => [header] | _ => sheet end.

Definition header_calls (sheet : list (row F)) : list (event F) :=
  match sheet with [] => [AppendRow header] | _ => [] end.

Definition fx_calls : list (event F) := [XeGet "USD" "THB"; Sleep 2; XeGet "MYR" "THB"].

(** The outcome and final state of a run, by what the settings, the two
    rates and their quotient turn out to be. *)
Definition outcome (env : Env F) (sheet : list (row F))
           (settings : result (F * F * list string * string * string)) : result unit * St :=
  let s0 := {| log_ws := headed sheet; trace := header_calls sheet;
               rows := []; alerts := [] |} in
  match settings with
  | inl e => (inl e, s0)
  | inr (thr, cd, coins, tok, chat) =>
      match value (get_xe_rate env "USD" "THB") with
      | inl e => (inl e, extend s0 (calls [XeGet "USD" "THB"]))
      | inr r1 =>
          match value (get_xe_rate env "MYR" "THB") with
          | inl e => (inl e, extend s0 (calls fx_calls))
          | inr r2 =>
              match truediv r1 r2 with
              | inl e => (inl e, extend s0 (calls fx_calls))
              | inr r =>
                  let d := turns env (now env) thr r r1 r2 coins in
                  let n := if PyStr.truthy tok && PyStr.truthy chat
                           then notify env tok chat r r1 r2 (now env) (alerts d)
                           else (inr tt, []) in
                  (fst n,
                   {| log_ws := headed sheet ++ rows d;
                      trace := header_calls sheet ++ fx_calls ++ trace d
                               ++ [AppendRows (rows d)] ++ snd n;
                      rows := rows d; alerts := alerts d |})
              end
          end
      end
  end.

End Summary.

(** ** Runs, seen from outside *)

Section Observing.

Context {F : Type} `{PyFloat F}.

(** The same world with another Setting worksheet. *)
Definition with_settings (env : Env F) (values : list (list string)) : Env F :=
  {| setting_values := values; xe_get := xe_get env; kucoin_get := kucoin_get env;
     luno_get := luno_get env; telegram_post := telegram_post env; now := now env |}.

(** The runs of a worksheet's life: each run starts on the worksheet the
    run before it left, whether that run ended or raised. *)
Fixpoint lifetime (envs : list (Env F)) (sheet : list (row F)) : list (event F) :=
  match envs with
  | [] => []
  | env :: envs' =>
      let s := snd (run env sheet) in trace s ++ lifetime envs' (log_ws s)
  end.

Definition is_append_row (e : event F) : bool :=
  match e with AppendRow _ => true | _ => false end.

(** The calls of the FX phase. *)
Definition is_fx_call (e : event F) : bool :=
  match e with XeGet _ _ | Sleep _ => true | _ => false end.

(** The page has neither pattern. *)
Definition xe_unparsed (env : Env F) (from_curr to_curr : string) : Prop :=
  xe_get env from_curr to_curr = inr {| labelled := None; faded_digits := None |}.

(** The spread observation a row records: [(coin, side, spr, luno_usd,
    ku_price)] for a row with numbers in its price and spread columns,
    nothing for an error row. *)
Definition observation_of (r : row F) : list (alert F) :=
  match r with
  | [Text _; Text side; Text coin; Number _; Number ku; Number _; Number _; Number _;
     Number luno_usd; Number spr; Text _] => [(coin, side, spr, luno_usd, ku)]
  | _ => []
  end.

Definition observations (rs : list (row F)) : list (alert F) := flat_map observation_of rs.

(** The Coin and Side columns of a row. *)
Definition row_key (r : row F) : string * string :=
  match r with
  | _ :: Text side :: Text coin :: _ => (coin, side)
  | _ => ("", "")
  end.

(** The three rate columns of a row: USD/MYR, USD/THB, MYR/THB. *)
Definition rates_of (r : row F) : option (F * F * F) :=
  match r with
  | _ :: _ :: _ :: _ :: _ :: Number usd_myr :: Number usd_thb :: Number myr_thb :: _ =>
      Some (usd_myr, usd_thb, myr_thb)
  | _ => None
  end.

(** The exception a venue fetch of the [try] block raises. *)
Definition venue_fetch_fails (env : Env F) (coin : string) (e : exn) : Prop :=
  value (kucoin_prices env coin) = inl e
  \/ (exists q, value (kucoin_prices env coin) = inr q)
     /\ value (luno_prices_myr env coin) = inl e.

End Observing.

(** ** Sample worlds

    Concrete answers of the outside world, to run the program on. *)

Module Sample.

Local Open Scope Q_scope.

Definition kucoin_body (bid ask : string) : json Q :=
  JDict {[ "data" := JDict (<["bestBid" := JStr bid]> {[ "bestAsk" := JStr ask ]}) ]}.

Definition luno_body (bid ask : string) : json Q :=
  JDict (<["bid" := JStr bid]> {[ "ask" := JStr ask ]}).

(** Three coins, the second of which KuCoin does not answer for; the first
    rate is found by the labelled pattern, the second by the fallback. *)
Definition env : Env Q :=
  {| setting_values := [["ALERT_BPS"; "200"]; ["COINS"; "btc, xrp ,,eth"];
                        ["TELEGRAM_BOT_TOKEN"; "tok"]; ["TELEGRAM_CHAT_ID"; " 42 "]];
     xe_get from_curr _ :=
       inr (if String.eqb from_curr "USD"
            then {| labelled := Some "34.50"; faded_digits := None |}
            else {| labelled := None; faded_digits := Some "8.20" |});
     kucoin_get coin :=
       if String.eqb coin "XRP" then inl (Exn "ReadTimeout" "Read timed out.")
       else inr (kucoin_body "64900" "65000");
     luno_get _ := inr (luno_body "280000" "281000");
     telegram_post _ _ _ := inr tt;
     now := "2026-01-01 00:00:00" |}.

(** The same world when the converter page shows no rate. *)
Definition env_no_rate : Env Q :=
  {| setting_values := setting_values env;
     xe_get _ _ := inr {| labelled := None; faded_digits := None |};
     kucoin_get := kucoin_get env; luno_get := luno_get env;
     telegram_post := telegram_post env; now := now env |}.

(** Setting worksheets that differ from that of [env] in the cooldown
    only, and one without Telegram settings. *)
Definition values_cooldown (v : string) : list (list string) :=
  setting_values env ++ [["COOLDOWN_MIN"; v]].

Definition values_quiet : list (list string) :=
  [["ALERT_BPS"; "200"]; ["COINS"; "btc, xrp ,,eth"]; ["TELEGRAM_CHAT_ID"; "42"]].

End Sample.

(** ** More ways to look at a run *)

(** The text a capture group [(\d+\.\d+)] of the two searches of
    [get_xe_rate] can hold: digits, a point, digits. *)
Module Group.

Definition is_digit (c : ascii) : bool :=
  match FloatLiteral.digit_val c with Some _ => true | None => false end.

Fixpoint all_digits (s : string) : bool :=
  match s with
  | String c s' => is_digit c && all_digits s'
  | EmptyString => true
  end.

Fixpoint decimal (s : string) : bool :=
  match s with
  | String c s' =>
      is_digit c
      && match s' with
         | String "." s'' => PyStr.truthy s'' && all_digits s''
         | _ => decimal s'
         end
  | EmptyString => false
  end.

End Group.

(** The value a row of the Setting worksheet gives to the key [k]: that
    of its second cell, when its first cell is [k] up to white space and
    is not blank. *)
Definition setting_row (k : string) (r : list string) : option string :=
  match r with
  | k0 :: v0 :: _ =>
      if PyStr.truthy (PyStr.strip k0) && String.eqb (PyStr.strip k0) k
      then Some (PyStr.strip v0) else None
  | _ => None
  end.

Section Looking.

Context {F : Type} `{PyFloat F}.

Definition is_append_rows (e : event F) : bool :=
  match e with AppendRows _ => true | _ => false end.

Definition is_venue_call (e : event F) : bool :=
  match e with KucoinGet _ | LunoGet _ => true | _ => false end.

(** The venue calls of one turn of the loop: Luno is asked when KuCoin's
    quote was read. *)
Definition venue_calls (env : Env F) (coin : string) : list (event F) :=
  KucoinGet coin :: match value (kucoin_prices env coin) with
                    | inl _ => []
                    | inr _ => [LunoGet coin]
                    end.

(** The post [main] makes for an alert. *)
Definition post_of (tok chat : string) (usd_myr usd_thb myr_thb : F) (ts : string)
           (a : alert F) : event F :=
  TelegramPost tok chat (alert_message usd_myr usd_thb myr_thb ts a).

(** The Timestamp column of a row. *)
Definition timestamp_of (r : row F) : option string :=
  match r with
  | Text ts :: _ => Some ts
  | _ => None
  end.

(** The Error column of a row. *)
Definition error_of (r : row F) : option string :=
  match r !! 10%nat with
  | Some (Text msg) => Some msg
  | _ => None
  end.

End Looking.

(** ** More sample worlds *)

Module Edge.

Local Open Scope Q_scope.

(** The world of [Sample.env] with other answers of the converter. *)
Definition with_rates (usd_thb myr_thb : string) : Env Q :=
  {| setting_values := setting_values Sample.env;
     xe_get from_curr _ :=
       inr (if String.eqb from_curr "USD"
            then {| labelled := Some usd_thb; faded_digits := Some "1.00" |}
            else {| labelled := None; faded_digits := Some myr_thb |});
     kucoin_get := kucoin_get Sample.env; luno_get := luno_get Sample.env;
     telegram_post := telegram_post Sample.env; now := now Sample.env |}.

(** KuCoin answers with an error document, which has no ["data"]. *)
Definition env_no_data : Env Q :=
  {| setting_values := setting_values Sample.env;
     xe_get := xe_get Sample.env;
     kucoin_get _ := inr (JDict (<["code" := JStr "400100"]> {[ "msg" := JStr "symbol not exists" ]}));
     luno_get := luno_get Sample.env;
     telegram_post := telegram_post Sample.env; now := now Sample.env |}.

(** Luno answers with numbers, not strings, and lacks ["ask"]. *)
Definition env_no_ask : Env Q :=
  {| setting_values := setting_values Sample.env;
     xe_get := xe_get Sample.env;
     kucoin_get := kucoin_get Sample.env;
     luno_get _ := inr (JDict {[ "bid" := JNum 280000 ]});
     telegram_post := telegram_post Sample.env; now := now Sample.env |}.

(** KuCoin's bid and Luno's ask are both zero: the Bid direction can be
    priced, the Ask direction has a zero middle. *)
Definition env_zero_ask : Env Q :=
  {| setting_values := setting_values Sample.env;
     xe_get := xe_get Sample.env;
     kucoin_get _ := inr (Sample.kucoin_body "0" "65000");
     luno_get _ := inr (Sample.luno_body "280000" "0");
     telegram_post := telegram_post Sample.env; now := now Sample.env |}.

(** Telegram refuses every message about ETH. *)
Definition env_post_fails : Env Q :=
  {| setting_values := setting_values Sample.env;
     xe_get := xe_get Sample.env;
     kucoin_get := kucoin_get Sample.env; luno_get := luno_get Sample.env;
     telegram_post _ _ text :=
       match text with
       | _ :: _ :: Lit "ETH" :: _ => inl (Exn "ConnectionError" "Connection aborted.")
       | _ => inr tt
       end;
     now := now Sample.env |}.

(** Setting worksheets: an unreadable threshold, a blank COINS cell. *)
Definition values_bad_threshold : list (list string) :=
  [["ALERT_BPS"; " 2oo "]; ["COOLDOWN_MIN"; ""]].

Definition values_quoted_threshold : list (list string) :=
  [["ALERT_BPS"; "it's"]].

Definition values_blank_coins : list (list string) :=
  [["COINS"; "BTC"]; ["coins"; "ETH"]; ["COINS"; " , "; "BTC"]; ["COINS"]].

(** The sample world in binary64. *)
Definition kucoin_body64 (bid ask : string) : json float :=
  JDict {[ "data" := JDict (<["bestBid" := JStr bid]> {[ "bestAsk" := JStr ask ]}) ]}.

Definition luno_body64 (bid ask : string) : json float :=
  JDict (<["bid" := JStr bid]> {[ "ask" := JStr ask ]}).

(** The floats [float("34.50")] and [float("8.20")]. *)
Definition usd_thb64 : float := 34.5.
Definition myr_thb64 : float := 0x1.0666666666666p+3.

Definition env64 : Env float :=
  {| setting_values := setting_values Sample.env;
     xe_get from_curr _ :=
       inr (if String.eqb from_curr "USD"
            then {| labelled := Some "34.50"; faded_digits := None |}
            else {| labelled := None; faded_digits := Some "8.20" |});
     kucoin_get coin :=
       if String.eqb coin "XRP" then inl (Exn "ReadTimeout" "Read timed out.")
       else inr (kucoin_body64 "64900" "65000");
     luno_get _ := inr (luno_body64 "280000" "281000");
     telegram_post _ _ _ := inr tt;
     now := "2026-01-01 00:00:00" |}.

(** A binary64 world with quotes at the bottom of the float range: every
    price is the least positive float, and the derived rate is 4. *)
Definition env_tiny : Env float :=
  {| setting_values := [["COINS"; "BTC"]];
     xe_get from_curr _ :=
       inr (if String.eqb from_curr "USD"
            then {| labelled := Some "32.00"; faded_digits := None |}
            else {| labelled := Some "8.00"; faded_digits := None |});
     kucoin_get _ := inr (kucoin_body64 "5e-324" "5e-324");
     luno_get _ := inr (luno_body64 "5e-324" "5e-324");
     telegram_post _ _ _ := inr tt;
     now := "2026-01-01 00:00:00" |}.

(** A binary64 world whose threshold is not a number. *)
Definition env_nan : Env float :=
  {| setting_values := [["ALERT_BPS"; "nan"]; ["COINS"; "BTC"];
                        ["TELEGRAM_BOT_TOKEN"; "tok"]; ["TELEGRAM_CHAT_ID"; "42"]];
     xe_get from_curr _ :=
       inr (if String.eqb from_curr "USD"
            then {| labelled := Some "34.50"; faded_digits := None |}
            else {| labelled := None; faded_digits := Some "8.20" |});
     kucoin_get _ :=
       inr (JDict {[ "data" := JDict (<["bestBid" := JStr "64900"]> {[ "bestAsk" := JStr "65000" ]}) ]});
     luno_get _ := inr (JDict (<["bid" := JStr "280000"]> {[ "ask" := JStr "281000" ]}));
     telegram_post _ _ _ := inr tt;
     now := "2026-01-01 00:00:00" |}.

End Edge.

(** * Proofs *)

(** ** The reader of float literals, on a few strings *)

Example read_plain : FloatLiteral.read "200" = Some (FloatLiteral.Num false 200%Z 0%Z).
Proof. reflexivity. Qed.

Example read_point : FloatLiteral.read " 34.50 " = Some (FloatLiteral.Num false 3450%Z (-2)%Z).
Proof. reflexivity. Qed.

Example read_exp : FloatLiteral.read "-1_0.5e+3" = Some (FloatLiteral.Num true 105%Z 2%Z).
Proof. reflexivity. Qed.

Example read_empty : FloatLiteral.read "" = None.
Proof. reflexivity. Qed.

Example read_junk : FloatLiteral.read "1__0" = None /\ FloatLiteral.read "1.5x" = None
                    /\ FloatLiteral.read "." = None /\ FloatLiteral.read "e5" = None.
Proof. repeat split; reflexivity. Qed.

(** ** The sample world, run *)

Example settings_sample :
  load_settings (setting_values Sample.env)
  = inr (200%Q, 10%Q, ["BTC"; "XRP"; "ETH"], "tok", "42").
Proof. vm_compute. reflexivity. Qed.

Example settings_default :
  load_settings (F := Q) [["ALERT_BPS"]; [" "; "x"]]
  = inr (200%Q, 10%Q, ["BTC"; "ETH"], "", "").
Proof. vm_compute. reflexivity. Qed.

Example sample_keys :
  fst (run Sample.env []) = inr tt
  /\ map row_key (log_ws (snd (run Sample.env [])))
     = [("Coin", "Side"); ("BTC", "Bid"); ("BTC", "Ask"); ("XRP", "ERR");
        ("ETH", "Bid"); ("ETH", "Ask")]
  /\ map (fun a => fst (fst (fst a))) (alerts (snd (run Sample.env [])))
     = [("BTC", "Bid"); ("BTC", "Ask"); ("ETH", "Bid"); ("ETH", "Ask")].
Proof. vm_compute. repeat split. Qed.

(** The same quotes in binary64: the Bid spread of the sample is a little
    under 236 basis points and passes the threshold of 200. *)
Example sample_binary64 :
  exists r lb ka t200 n spr : float,
    (a ← float_of_string "34.50"; b ← float_of_string "8.20"; truediv a b) = inr r
    /\ float_of_string "280000" = inr lb
    /\ float_of_string "65000" = inr ka
    /\ float_of_string "200" = inr t200
    /\ side_quote lb ka r = inr (n, spr)
    /\ PrimFloat.ltb 235.5 spr = true
    /\ PrimFloat.ltb spr 236 = true
    /\ fge spr t200 = true.
Proof. do 6 eexists. repeat split; vm_compute; reflexivity. Qed.

(** Two states built by [extend] are equal when their lists are, up to
    the laws of [++]. *)
Ltac same_state :=
  unfold extend, calls; cbn [log_ws trace rows alerts];
  rewrite ?app_nil_r, <- ?app_assoc; cbn [app]; try reflexivity.

(** ** How computations act on the state *)

Section Appending.

Context {F : Type} `{PyFloat F}.

Local Abbreviation St := (State F).

Lemma extend_start_r (s : St) : extend s (start []) = s.
Proof. destruct s; unfold extend; simpl; rewrite !app_nil_r; reflexivity. Qed.

Lemma extend_assoc (s d d' : St) : extend (extend s d) d' = extend s (extend d d').
Proof. unfold extend; simpl; rewrite !app_assoc; reflexivity. Qed.

Lemma bind_run {A B} (m : M F A) (f : A -> M F B) (s : St) :
  (m ≫= f) s = match m s with
               | (inr x, s') => f x s'
               | (inl e, s') => (inl e, s')
               end.
Proof. reflexivity. Qed.

Lemma run_emit_lift {A} (ev : event F) (r : result A) (k : M F A) :
  (forall s, k s = (r, s)) ->
  forall s, (emit ev;; k) s = (r, extend s (calls [ev])).
Proof.
  intros Hk s. rewrite bind_run. unfold emit. rewrite Hk.
  unfold extend, calls; simpl. rewrite !app_nil_r. reflexivity.
Qed.

Lemma lift_bind_run {A B} (r : result A) (f : A -> M F B) (s : St) :
  (lift r ≫= f) s = match r with inl e => (inl e, s) | inr x => f x s end.
Proof. rewrite bind_run. unfold lift. destruct r; reflexivity. Qed.

Lemma lift_bind_lift {A B} (r : result A) (g : A -> result B) (s : St) :
  (lift r ≫= fun x => lift (g x)) s = (r ≫= g, s).
Proof. rewrite lift_bind_run. destruct r; reflexivity. Qed.

Lemma result_inr_bind {A B} (x : A) (f : A -> result B) : (inr x ≫= f) = f x.
Proof. reflexivity. Qed.

Lemma result_inl_bind {A B} (e : exn) (f : A -> result B) : (inl e ≫= f) = inl e.
Proof. reflexivity. Qed.

(** *** The three fetches *)

Lemma get_xe_rate_run (env : Env F) (from_curr to_curr : string) (s : St) :
  get_xe_rate env from_curr to_curr s
  = (value (get_xe_rate env from_curr to_curr), extend s (calls [XeGet from_curr to_curr])).
Proof.
  assert (Hrun : exists r, forall s', get_xe_rate env from_curr to_curr s'
                                 = (r, extend s' (calls [XeGet from_curr to_curr]))).
  { unfold get_xe_rate.
    destruct (xe_get env from_curr to_curr) as [e | page] eqn:Hget.
    - exists (inl e). apply run_emit_lift. intros s'. rewrite lift_bind_run. reflexivity.
    - destruct (labelled page) as [g |] eqn:Hl; [| destruct (faded_digits page) as [g |] eqn:Hf].
      + exists (float_of_string g). apply run_emit_lift. intros s'.
        rewrite lift_bind_run, Hl. reflexivity.
      + exists (float_of_string g). apply run_emit_lift. intros s'.
        rewrite lift_bind_run, Hl, Hf. reflexivity.
      + eexists. apply run_emit_lift. intros s'.
        rewrite lift_bind_run, Hl, Hf. reflexivity. }
  destruct Hrun as [r Hr]. unfold value. rewrite (Hr (start [])), (Hr s). reflexivity.
Qed.

Lemma kucoin_prices_run (env : Env F) (coin : string) (s : St) :
  kucoin_prices env coin s
  = (value (kucoin_prices env coin), extend s (calls [KucoinGet coin])).
Proof.
  assert (Hrun : exists r, forall s', kucoin_prices env coin s'
                                 = (r, extend s' (calls [KucoinGet coin]))).
  { unfold kucoin_prices. eexists. apply run_emit_lift. intros s'.
    apply lift_bind_lift. }
  destruct Hrun as [r Hr]. unfold value. rewrite (Hr (start [])), (Hr s). reflexivity.
Qed.

Lemma luno_prices_myr_run (env : Env F) (coin : string) (s : St) :
  luno_prices_myr env coin s
  = (value (luno_prices_myr env coin), extend s (calls [LunoGet coin])).
Proof.
  assert (Hrun : exists r, forall s', luno_prices_myr env coin s'
                                 = (r, extend s' (calls [LunoGet coin]))).
  { unfold luno_prices_myr. eexists. apply run_emit_lift. intros s'.
    apply lift_bind_lift. }
  destruct Hrun as [r Hr]. unfold value. rewrite (Hr (start [])), (Hr s). reflexivity.
Qed.

(** *** One turn of the loop *)

Lemma main_try_run (env : Env F) (ts : string) (thr r r1 r2 : F) (coin : string) (s : St) :
  main_try env ts thr r r1 r2 coin s
  = match value (kucoin_prices env coin) with
    | inl e => (inl e, extend s (calls [KucoinGet coin]))
    | inr (kb, ka) =>
        match value (luno_prices_myr env coin) with
        | inl e => (inl e, extend s (calls [KucoinGet coin; LunoGet coin]))
        | inr (lb, la) =>
            match side_quote lb ka r with
            | inl e => (inl e, extend s (calls [KucoinGet coin; LunoGet coin]))
            | inr (nb, sb) =>
                match side_quote la kb r with
                | inl e =>
                    (inl e,
                     extend s {| log_ws := []; trace := [KucoinGet coin; LunoGet coin];
                                 rows := [observation_row ts "Bid" coin lb ka r r1 r2 nb sb];
                                 alerts := evaluate thr (coin, "Bid", sb, nb, ka) |})
                | inr (na, sa) =>
                    (inr tt,
                     extend s {| log_ws := []; trace := [KucoinGet coin; LunoGet coin];
                                 rows := [observation_row ts "Bid" coin lb ka r r1 r2 nb sb;
                                          observation_row ts "Ask" coin la kb r r1 r2 na sa];
                                 alerts := evaluate thr (coin, "Bid", sb, nb, ka)
                                           ++ evaluate thr (coin, "Ask", sa, na, kb) |})
                end
            end
        end
    end.
Proof.
  unfold main_try. rewrite bind_run, kucoin_prices_run.
  destruct (value (kucoin_prices env coin)) as [e | [kb ka]]; [reflexivity |].
  rewrite bind_run, luno_prices_myr_run, extend_assoc.
  destruct (value (luno_prices_myr env coin)) as [e | [lb la]]; [reflexivity |].
  unfold side_quote.
  rewrite lift_bind_run. destruct (truediv lb r) as [e | nb];
    [rewrite result_inl_bind; reflexivity | rewrite result_inr_bind].
  rewrite lift_bind_run. destruct (spread_bps nb ka) as [e | sb];
    [rewrite result_inl_bind; reflexivity | rewrite result_inr_bind].
  cbn [mret result_ret].
  assert (Halert : forall (a : alert F) (s' : St),
             ((let '(_, _, spr, _, _) := a in
               if fge spr thr then alerts_append a else mret tt) : M F unit) s'
             = (inr tt, extend s' {| log_ws := []; trace := []; rows := [];
                                     alerts := evaluate thr a |})).
  { intros [[[[c sd] spr] n] k] s'. unfold evaluate, extend, alerts_append; simpl.
    destruct (fge spr thr); simpl; rewrite !app_nil_r; [reflexivity |].
    destruct s'; reflexivity. }
  rewrite bind_run. cbn [rows_append].
  rewrite bind_run.
  rewrite (Halert (coin, "Bid", sb, nb, ka)).
  rewrite lift_bind_run. destruct (truediv la r) as [e | na];
    [rewrite result_inl_bind | rewrite result_inr_bind].
  { f_equal. same_state. }
  rewrite lift_bind_run. destruct (spread_bps na kb) as [e | sa];
    [rewrite result_inl_bind | rewrite result_inr_bind].
  { f_equal. same_state. }
  rewrite bind_run. cbn [rows_append].
  rewrite (Halert (coin, "Ask", sa, na, kb)).
  f_equal. unfold observation_row. same_state.
Qed.

Lemma main_coin_run (env : Env F) (ts : string) (thr r r1 r2 : F) (coin : string) (s : St) :
  main_coin env ts thr r r1 r2 coin s = (inr tt, extend s (turn env ts thr r r1 r2 coin)).
Proof.
  unfold main_coin, try_except, turn. rewrite main_try_run.
  destruct (value (kucoin_prices env coin)) as [e | [kb ka]].
  { unfold main_except, rows_append, failed. f_equal. same_state. }
  destruct (value (luno_prices_myr env coin)) as [e | [lb la]].
  { unfold main_except, rows_append, failed. f_equal. same_state. }
  destruct (side_quote lb ka r) as [e | [nb sb]].
  { unfold main_except, rows_append, failed. f_equal. same_state. }
  destruct (side_quote la kb r) as [e | [na sa]].
  { unfold main_except, rows_append, failed. f_equal. same_state. }
  reflexivity.
Qed.

Lemma main_loop_run (env : Env F) (ts : string) (thr r r1 r2 : F) (coins : list string) (s : St) :
  for_each coins (main_coin env ts thr r r1 r2) s
  = (inr tt, extend s (turns env ts thr r r1 r2 coins)).
Proof.
  revert s; induction coins as [| c coins IH]; intros s; simpl.
  - rewrite extend_start_r. reflexivity.
  - rewrite bind_run, main_coin_run, IH, extend_assoc. reflexivity.
Qed.

Lemma turns_rows env ts thr r r1 r2 coins :
  rows (turns env ts thr r r1 r2 coins)
  = flat_map (fun c => rows (turn env ts thr r r1 r2 c)) coins.
Proof. induction coins as [| c coins IH]; simpl; [| rewrite IH]; reflexivity. Qed.

Lemma turns_alerts env ts thr r r1 r2 coins :
  alerts (turns env ts thr r r1 r2 coins)
  = flat_map (fun c => alerts (turn env ts thr r r1 r2 c)) coins.
Proof. induction coins as [| c coins IH]; simpl; [| rewrite IH]; reflexivity. Qed.

Lemma turns_trace env ts thr r r1 r2 coins :
  trace (turns env ts thr r r1 r2 coins)
  = flat_map (fun c => trace (turn env ts thr r r1 r2 c)) coins.
Proof. induction coins as [| c coins IH]; simpl; [| rewrite IH]; reflexivity. Qed.

Lemma turn_log_ws env ts thr r r1 r2 c : log_ws (turn env ts thr r r1 r2 c) = [].
Proof.
  unfold turn, failed.
  repeat match goal with
         | |- context [match ?x with _ => _ end] => destruct x
         end; reflexivity.
Qed.

Lemma turns_log_ws env ts thr r r1 r2 coins : log_ws (turns env ts thr r r1 r2 coins) = [].
Proof. induction coins as [| c coins IH]; simpl; [| rewrite turn_log_ws, IH]; reflexivity. Qed.

(** *** The notification loop *)

Lemma main_alert_run env tok chat r r1 r2 ts (a : alert F) (s : St) :
  main_alert env tok chat r r1 r2 ts a s
  = (telegram_post env tok chat (alert_message r r1 r2 ts a),
     extend s (calls [TelegramPost tok chat (alert_message r r1 r2 ts a)])).
Proof.
  destruct a as [[[[coin side] spr] n] k]. unfold main_alert, send_telegram, alert_message.
  apply run_emit_lift. reflexivity.
Qed.

Lemma main_notify_run env tok chat r r1 r2 ts (als : list (alert F)) (s : St) :
  for_each als (main_alert env tok chat r r1 r2 ts) s
  = (fst (notify env tok chat r r1 r2 ts als),
     extend s (calls (snd (notify env tok chat r r1 r2 ts als)))).
Proof.
  revert s; induction als as [| a als IH]; intros s; simpl.
  - rewrite extend_start_r. reflexivity.
  - rewrite bind_run, main_alert_run.
    destruct (telegram_post env tok chat (alert_message r r1 r2 ts a)) as [e | []]; simpl.
    + reflexivity.
    + rewrite IH. destruct (notify env tok chat r r1 r2 ts als) as [res posts]; simpl.
      f_equal. same_state.
Qed.

Lemma notify_posts env tok chat r r1 r2 ts (als : list (alert F)) :
  Forall (fun e => is_post e = true) (snd (notify env tok chat r r1 r2 ts als)).
Proof.
  induction als as [| a als IH]; simpl; [constructor |].
  destruct (telegram_post env tok chat (alert_message r r1 r2 ts a)) as [e | []]; simpl.
  - repeat constructor.
  - destruct (notify env tok chat r r1 r2 ts als) as [res posts]; simpl in *.
    constructor; [reflexivity | exact IH].
Qed.

(** *** The whole run *)

Lemma ensure_headers_start (sheet : list (row F)) :
  ensure_headers (start sheet)
  = (inr tt, {| log_ws := headed sheet; trace := header_calls sheet; rows := []; alerts := [] |}).
Proof. destruct sheet; reflexivity. Qed.

Lemma run_cases (env : Env F) (sheet : list (row F)) :
  run env sheet = outcome env sheet (load_settings (setting_values env)).
Proof.
  unfold run, main, outcome. rewrite bind_run, ensure_headers_start.
  rewrite lift_bind_run.
  destruct (load_settings (setting_values env)) as [e | [[[[thr cd] coins] tok] chat]];
    [reflexivity |].
  rewrite bind_run, get_xe_rate_run.
  destruct (value (get_xe_rate env "USD" "THB")) as [e | r1]; [reflexivity |].
  rewrite bind_run. unfold emit at 1. cbn [log_ws trace rows alerts extend calls].
  rewrite bind_run, get_xe_rate_run.
  destruct (value (get_xe_rate env "MYR" "THB")) as [e | r2].
  { cbn zeta. f_equal. unfold fx_calls. same_state. }
  rewrite lift_bind_run.
  destruct (truediv r1 r2) as [e | r].
  { cbn zeta. f_equal. unfold fx_calls. same_state. }
  rewrite bind_run. unfold new_lists at 1. cbn [log_ws trace rows alerts extend calls].
  rewrite bind_run, main_loop_run.
  rewrite bind_run. unfold get_state at 1.
  rewrite bind_run. unfold append_rows at 1. cbn [log_ws trace rows alerts extend calls].
  rewrite turns_log_ws. cbn zeta.
  destruct (PyStr.truthy tok && PyStr.truthy chat).
  - rewrite main_notify_run. cbn [app].
    f_equal. unfold fx_calls. same_state.
  - unfold mret, M_ret. cbn [fst snd]. f_equal. f_equal; unfold fx_calls;
      rewrite ?app_nil_r, <- ?app_assoc; reflexivity.
Qed.

End Appending.

(** ** Properties of every run *)

Section Runs.

Context {F : Type} `{PyFloat F}.

Lemma turn_trace_fetches (env : Env F) ts thr r r1 r2 c :
  trace (turn env ts thr r r1 r2 c) = [KucoinGet c]
  \/ trace (turn env ts thr r r1 r2 c) = [KucoinGet c; LunoGet c].
Proof.
  unfold turn, failed.
  repeat match goal with
         | |- context [match ?x with _ => _ end] => destruct x
         end; cbn [trace]; auto.
Qed.

Lemma turns_no_append_row (env : Env F) ts thr r r1 r2 coins :
  Forall (fun e => is_append_row e = false) (trace (turns env ts thr r r1 r2 coins)).
Proof.
  rewrite turns_trace. induction coins as [| c coins IH]; simpl; [constructor |].
  apply Forall_app; split; [| exact IH].
  destruct (turn_trace_fetches env ts thr r r1 r2 c) as [-> | ->]; repeat constructor.
Qed.

Lemma turns_no_post (env : Env F) ts thr r r1 r2 coins :
  Forall (fun e => is_post e = false) (trace (turns env ts thr r r1 r2 coins)).
Proof.
  rewrite turns_trace. induction coins as [| c coins IH]; simpl; [constructor |].
  apply Forall_app; split; [| exact IH].
  destruct (turn_trace_fetches env ts thr r r1 r2 c) as [-> | ->]; repeat constructor.
Qed.

(** Whatever happens, the worksheet after a run is the worksheet after the
    header check followed by the rows of the run. *)
Lemma run_log_ws (env : Env F) (sheet : list (row F)) :
  log_ws (snd (run env sheet)) = headed sheet ++ rows (snd (run env sheet)).
Proof.
  rewrite run_cases. unfold outcome. cbn zeta.
  repeat match goal with
         | |- context [match ?x with _ => _ end] => destruct x
         end; cbn [snd log_ws rows extend calls]; rewrite ?app_nil_r; reflexivity.
Qed.

(** The trace of a run: the header call when the worksheet was empty, then
    calls none of which appends a single row. *)
Lemma run_trace (env : Env F) (sheet : list (row F)) :
  exists rest, trace (snd (run env sheet)) = header_calls sheet ++ rest
               /\ Forall (fun e => is_append_row e = false) rest.
Proof.
  rewrite run_cases. unfold outcome. cbn zeta.
  destruct (load_settings (setting_values env)) as [e | [[[[thr cd] coins] tok] chat]].
  { exists []. rewrite app_nil_r. split; [reflexivity | constructor]. }
  destruct (value (get_xe_rate env "USD" "THB")) as [e | r1].
  { eexists. split; [reflexivity |]. repeat constructor. }
  destruct (value (get_xe_rate env "MYR" "THB")) as [e | r2].
  { eexists. split; [reflexivity |]. repeat constructor. }
  destruct (truediv r1 r2) as [e | r].
  { eexists. split; [reflexivity |]. repeat constructor. }
  eexists. split; [reflexivity |]. cbn [snd trace].
  apply Forall_app; split; [repeat constructor |].
  apply Forall_app; split; [apply turns_no_append_row |].
  apply Forall_app; split; [repeat constructor |].
  destruct (PyStr.truthy tok && PyStr.truthy chat); [| constructor].
  eapply Forall_impl; [apply notify_posts |].
  intros [] Hp; simpl in *; congruence.
Qed.

Lemma headed_not_empty (sheet : list (row F)) : exists r rs, headed sheet = r :: rs.
Proof. destruct sheet as [| r rs]; simpl; eauto. Qed.

Lemma run_log_ws_not_empty (env : Env F) (sheet : list (row F)) :
  exists r rs, log_ws (snd (run env sheet)) = r :: rs.
Proof.
  rewrite run_log_ws. destruct (headed_not_empty sheet) as (r & rs & ->). simpl. eauto.
Qed.

Lemma filter_none {A} (p : A -> bool) (l : list A) :
  Forall (fun x => p x = false) l -> List.filter p l = [].
Proof.
  induction 1 as [| x l Hx _ IH]; simpl; [reflexivity |]. rewrite Hx. exact IH.
Qed.

Lemma run_append_rows (env : Env F) (sheet : list (row F)) :
  List.filter is_append_row (trace (snd (run env sheet))) = header_calls sheet.
Proof.
  destruct (run_trace env sheet) as (rest & -> & Hrest).
  rewrite List.filter_app, (filter_none _ _ Hrest), app_nil_r.
  destruct sheet; reflexivity.
Qed.

Lemma lifetime_headed (envs : list (Env F)) (r : row F) (sheet : list (row F)) :
  List.filter is_append_row (lifetime envs (r :: sheet)) = [].
Proof.
  revert r sheet; induction envs as [| env envs IH]; intros r sheet; simpl; [reflexivity |].
  rewrite List.filter_app, run_append_rows. simpl.
  destruct (run_log_ws_not_empty env (r :: sheet)) as (r' & rs' & ->). apply IH.
Qed.

Lemma turn_rates (env : Env F) ts thr r r1 r2 c :
  Forall (fun row => rates_of row = Some (r, r1, r2)) (rows (turn env ts thr r r1 r2 c)).
Proof.
  unfold turn, failed.
  repeat match goal with
         | |- context [match ?x with inl _ => _ | inr _ => _ end] => destruct x
         | |- context [let '(_, _) := ?x in _] => destruct x
         end; cbn [rows app]; repeat constructor.
Qed.

Lemma turns_rates (env : Env F) ts thr r r1 r2 coins :
  Forall (fun row => rates_of row = Some (r, r1, r2)) (rows (turns env ts thr r r1 r2 coins)).
Proof.
  rewrite turns_rows. induction coins as [| c coins IH]; simpl; [constructor |].
  apply Forall_app; split; [apply turn_rates | exact IH].
Qed.

(** Every row of a run carries the quotient of the two fetched rates, and
    the two rates. *)
Lemma run_rates (env : Env F) (sheet : list (row F)) (r1 r2 r : F) :
  value (get_xe_rate env "USD" "THB") = inr r1 ->
  value (get_xe_rate env "MYR" "THB") = inr r2 ->
  truediv r1 r2 = inr r ->
  Forall (fun row => rates_of row = Some (r, r1, r2)) (rows (snd (run env sheet))).
Proof.
  intros H1 H2 Hr. rewrite run_cases. unfold outcome.
  destruct (load_settings (setting_values env)) as [e | [[[[thr cd] coins] tok] chat]];
    [constructor |].
  rewrite H1, H2, Hr. cbn [snd rows]. apply turns_rates.
Qed.

Lemma turn_rows_width (env : Env F) ts thr r r1 r2 c :
  Forall (fun row => length row = 11) (rows (turn env ts thr r r1 r2 c)).
Proof.
  unfold turn, failed.
  repeat match goal with
         | |- context [match ?x with inl _ => _ | inr _ => _ end] => destruct x
         | |- context [let '(_, _) := ?x in _] => destruct x
         end; cbn [rows app]; repeat constructor.
Qed.

(** Every row of a run has the eleven cells of the header. *)
Lemma run_rows_width (env : Env F) (sheet : list (row F)) :
  Forall (fun row => length row = 11) (rows (snd (run env sheet))).
Proof.
  rewrite run_cases. unfold outcome.
  repeat match goal with
         | |- context [match ?x with inl _ => _ | inr _ => _ end] => destruct x
         | |- context [let '(_, _) := ?x in _] => destruct x
         end; cbn [snd rows extend calls app]; try constructor.
  rewrite turns_rows.
  match goal with |- Forall _ (flat_map _ ?l) => induction l as [| c coins IH] end;
    simpl; [constructor |].
  apply Forall_app; split; [apply turn_rows_width | exact IH].
Qed.

(** C9. The header is the fixed row of eleven column names, and every row
    of a run has eleven cells; the header check appends the header exactly
    when the worksheet is empty and otherwise leaves the state alone; in
    every run it is the first call made (so it precedes the FX fetches)
    and the only single-row append; and over any sequence of runs that
    starts on an empty worksheet it is appended exactly once, while no run
    on a non-empty worksheet appends it. *)
Theorem header_inserted_once (env : Env F) (envs : list (Env F))
        (r : row F) (sheet any : list (row F)) :
  (header (F := F)
   = [Text "Timestamp"; Text "Side"; Text "Coin"; Text "Luno(MYR)"; Text "KuCoin(USDT)";
      Text "USD/MYR"; Text "USD/THB"; Text "MYR/THB"; Text "Luno(USD)"; Text "Spread(bps)";
      Text "Error"]
   /\ length (header (F := F)) = 11
   /\ Forall (fun row => length row = 11) (rows (snd (run env any))))
  /\ ensure_headers (start (F := F) [])
     = (inr tt, {| log_ws := [header]; trace := [AppendRow header];
                   rows := []; alerts := [] |})
  /\ ensure_headers (start (r :: sheet)) = (inr tt, start (r :: sheet))
  /\ (exists rest, trace (snd (run env [])) = AppendRow header :: rest
                   /\ Forall (fun e => is_append_row e = false) rest)
  /\ List.filter is_append_row (trace (snd (run env (r :: sheet)))) = []
  /\ List.filter is_append_row (lifetime (env :: envs) []) = [AppendRow header]
  /\ List.filter is_append_row (lifetime envs (r :: sheet)) = [].
Proof.
  split; [split; [reflexivity | split; [reflexivity | apply run_rows_width]] |].
  split; [reflexivity |].
  split; [reflexivity |].
  split; [exact (run_trace env []) |].
  split; [exact (run_append_rows env (r :: sheet)) |].
  split; [| apply lifetime_headed].
  simpl. rewrite List.filter_app, run_append_rows.
  destruct (run_log_ws_not_empty env []) as (r' & rs' & ->).
  rewrite lifetime_headed. reflexivity.
Qed.

(** *** The FX phase *)

Lemma get_xe_rate_unparsed (env : Env F) (from_curr to_curr : string) :
  xe_unparsed env from_curr to_curr ->
  value (get_xe_rate env from_curr to_curr)
  = inl (RuntimeError ("XE parse failed for " +:+ from_curr +:+ "->" +:+ to_curr)).
Proof.
  intros Hpage. unfold value, get_xe_rate. rewrite bind_run. unfold emit.
  rewrite lift_bind_run, Hpage. reflexivity.
Qed.

(** A run whose first or second rate fetch raises [e]. *)
Lemma run_fx_raises (env : Env F) (sheet : list (row F)) st (e : exn) :
  load_settings (setting_values env) = inr st ->
  value (get_xe_rate env "USD" "THB") = inl e
  \/ (exists r1, value (get_xe_rate env "USD" "THB") = inr r1)
     /\ value (get_xe_rate env "MYR" "THB") = inl e ->
  exists fx, run env sheet
             = (inl e, {| log_ws := headed sheet; trace := header_calls sheet ++ fx;
                          rows := []; alerts := [] |})
             /\ Forall (fun ev => is_fx_call ev = true) fx.
Proof.
  intros Hst Hfx. rewrite run_cases, Hst. unfold outcome.
  destruct st as [[[[thr cd] coins] tok] chat].
  destruct Hfx as [-> | [[r1 ->] ->]].
  - exists [XeGet "USD" "THB"]. split; [| repeat constructor].
    unfold extend, calls; cbn [log_ws trace rows alerts]. rewrite !app_nil_r. reflexivity.
  - exists fx_calls. split; [| repeat constructor].
    unfold extend, calls; cbn [log_ws trace rows alerts]. rewrite !app_nil_r. reflexivity.
Qed.

(** C4, amended. When the page of the first or of the second rate has
    neither pattern, the run raises: the parse error of that fetch, unless
    [load_settings] had raised before any fetch. It has no rows and no
    alerts, it made no call but the header call and FX calls (no venue
    fetch, no batch append, no post), and the worksheet is as the header
    check left it: unchanged when it had rows, holding the header alone
    when it was empty. *)
Theorem fx_failure_aborts (env : Env F) (sheet : list (row F)) :
  xe_unparsed env "USD" "THB"
  \/ (exists r1, value (get_xe_rate env "USD" "THB") = inr r1)
     /\ xe_unparsed env "MYR" "THB" ->
  exists e fx,
    fst (run env sheet) = inl e
    /\ (e = RuntimeError "XE parse failed for USD->THB"
        \/ e = RuntimeError "XE parse failed for MYR->THB"
        \/ load_settings (setting_values env) = inl e)
    /\ rows (snd (run env sheet)) = []
    /\ alerts (snd (run env sheet)) = []
    /\ log_ws (snd (run env sheet)) = match sheet with [] => [header] | _ => sheet end
    /\ trace (snd (run env sheet))
       = match sheet with [] => [AppendRow header] | _ => [] end ++ fx
    /\ Forall (fun ev => is_fx_call ev = true) fx.
Proof.
  intros Hfx.
  destruct (load_settings (setting_values env)) as [e0 | st] eqn:Hst.
  { exists e0, []. rewrite run_cases, Hst. unfold outcome. cbn [fst snd log_ws trace rows alerts].
    rewrite app_nil_r. repeat split; auto. }
  assert (Hraise : exists e,
             (e = RuntimeError "XE parse failed for USD->THB"
              \/ e = RuntimeError "XE parse failed for MYR->THB")
             /\ (value (get_xe_rate env "USD" "THB") = inl e
                 \/ (exists r1, value (get_xe_rate env "USD" "THB") = inr r1)
                    /\ value (get_xe_rate env "MYR" "THB") = inl e)).
  { destruct Hfx as [Hu | [Hr Hm]].
    - eexists; split; [left; reflexivity |]. left. exact (get_xe_rate_unparsed _ _ _ Hu).
    - eexists; split; [right; reflexivity |]. right. split; [exact Hr |].
      exact (get_xe_rate_unparsed _ _ _ Hm). }
  destruct Hraise as (e & He & Hcase).
  destruct (run_fx_raises env sheet st e Hst Hcase) as (fx & Hrun & Hfxs).
  exists e, fx. rewrite Hrun. cbn [fst snd log_ws trace rows alerts].
  repeat split; try assumption; try reflexivity.
  destruct He as [-> | ->]; auto.
Qed.

(** *** The settings *)

(** [load_settings] reads five entries of the dictionary. *)
Lemma load_settings_eq (values : list (list string)) :
  load_settings (F := F) values
  = let m := settings_map values in
    match float_of_string (dict_get m "ALERT_BPS" "200") with
    | inl e => inl e
    | inr thr =>
        match float_of_string (dict_get m "COOLDOWN_MIN" "10") with
        | inl e => inl e
        | inr cd =>
            inr (thr, cd,
                 map (fun c => PyStr.upper (PyStr.strip c))
                     (List.filter (fun c => PyStr.truthy (PyStr.strip c))
                                  (PyStr.split "," (dict_get m "COINS" "BTC,ETH"))),
                 dict_get m "TELEGRAM_BOT_TOKEN" "", dict_get m "TELEGRAM_CHAT_ID" "")
        end
    end.
Proof. reflexivity. Qed.

Lemma dict_get_delete (m m' : gmap string string) (k k' dflt : string) :
  delete k m = delete k m' -> k <> k' -> dict_get m k' dflt = dict_get m' k' dflt.
Proof.
  intros Hd Hne. unfold dict_get.
  rewrite <- (lookup_delete_ne m k k'), <- (lookup_delete_ne m' k k'), Hd by exact Hne.
  reflexivity.
Qed.

(** The outcome of a run does not read the Setting worksheet again. *)
Lemma notify_with_settings (env : Env F) (values : list (list string)) tok chat r r1 r2 ts
      (als : list (alert F)) :
  notify (with_settings env values) tok chat r r1 r2 ts als = notify env tok chat r r1 r2 ts als.
Proof.
  induction als as [| a als IH]; [reflexivity |].
  cbn [notify]. rewrite IH. reflexivity.
Qed.

Lemma outcome_with_settings (env : Env F) (values : list (list string)) (sheet : list (row F)) st :
  outcome (with_settings env values) sheet st = outcome env sheet st.
Proof.
  unfold outcome. cbn [now with_settings].
  destruct st as [e | [[[[thr cd] coins] tok] chat]]; [reflexivity |].
  change (value (get_xe_rate (with_settings env values) "USD" "THB"))
    with (value (get_xe_rate env "USD" "THB")).
  destruct (value (get_xe_rate env "USD" "THB")) as [e | r1]; [reflexivity |].
  change (value (get_xe_rate (with_settings env values) "MYR" "THB"))
    with (value (get_xe_rate env "MYR" "THB")).
  destruct (value (get_xe_rate env "MYR" "THB")) as [e | r2]; [reflexivity |].
  destruct (truediv r1 r2) as [e | r]; [reflexivity |].
  change (turns (with_settings env values) (now env) thr r r1 r2 coins)
    with (turns env (now env) thr r r1 r2 coins).
  rewrite notify_with_settings. reflexivity.
Qed.

(** The posts of a run. *)
Lemma outcome_no_post (env : Env F) (sheet : list (row F)) st :
  match st with
  | inr (_, _, _, tok, chat) => PyStr.truthy tok && PyStr.truthy chat = false
  | inl _ => True
  end ->
  List.filter is_post (trace (snd (outcome env sheet st))) = [].
Proof.
  intros Hst. apply filter_none. unfold outcome.
  assert (Hh : Forall (fun e : event F => is_post e = false) (header_calls sheet))
    by (destruct sheet; repeat constructor).
  destruct st as [e | [[[[thr cd] coins] tok] chat]]; [exact Hh |].
  destruct (value (get_xe_rate env "USD" "THB")) as [e | r1].
  { cbn [snd trace extend calls]. apply Forall_app; split; [exact Hh | repeat constructor]. }
  destruct (value (get_xe_rate env "MYR" "THB")) as [e | r2].
  { cbn [snd trace extend calls]. apply Forall_app; split; [exact Hh | repeat constructor]. }
  destruct (truediv r1 r2) as [e | r].
  { cbn [snd trace extend calls]. apply Forall_app; split; [exact Hh | repeat constructor]. }
  rewrite Hst. cbn [snd trace].
  apply Forall_app; split; [exact Hh |].
  apply Forall_app; split; [repeat constructor |].
  apply Forall_app; split; [apply turns_no_post | repeat constructor].
Qed.

(** The worksheet, the rows and the alerts of a run do not depend on the
    two Telegram settings, nor on the cooldown. *)
Lemma outcome_records (env : Env F) (sheet : list (row F)) thr cd cd' coins tok chat tok' chat' :
  let s := snd (outcome env sheet (inr (thr, cd, coins, tok, chat))) in
  let s' := snd (outcome env sheet (inr (thr, cd', coins, tok', chat'))) in
  log_ws s' = log_ws s /\ rows s' = rows s /\ alerts s' = alerts s.
Proof.
  unfold outcome.
  repeat match goal with
         | |- context [match ?x with inl _ => _ | inr _ => _ end] => destruct x
         end; cbn; auto.
Qed.

Lemma dict_get_delete2 (m m' : gmap string string) (k1 k2 k dflt : string) :
  delete k1 (delete k2 m) = delete k1 (delete k2 m') -> k1 <> k -> k2 <> k ->
  dict_get m k dflt = dict_get m' k dflt.
Proof.
  intros Hd Hne1 Hne2.
  rewrite <- (dict_get_delete (delete k2 m) m k2 k dflt), <- (dict_get_delete (delete k2 m') m' k2 k dflt);
    [apply dict_get_delete with k1; assumption | | | | ]; try assumption;
    rewrite delete_delete_eq; reflexivity.
Qed.

(** C10. When the token or the chat id of the settings is the empty string
    (the value [m.get] gives for an absent key too), the run posts nothing;
    the worksheet still receives the rows of the run after the header
    check; and worksheet, rows and alerts are those of the run under any
    other pair of Telegram settings. *)
Theorem no_credentials_no_post (env : Env F) (sheet : list (row F)) :
  dict_get (settings_map (setting_values env)) "TELEGRAM_BOT_TOKEN" "" = ""
  \/ dict_get (settings_map (setting_values env)) "TELEGRAM_CHAT_ID" "" = "" ->
  List.filter is_post (trace (snd (run env sheet))) = []
  /\ log_ws (snd (run env sheet))
     = match sheet with [] => [header] | _ => sheet end ++ rows (snd (run env sheet))
  /\ forall values' : list (list string),
      delete "TELEGRAM_BOT_TOKEN" (delete "TELEGRAM_CHAT_ID" (settings_map values'))
      = delete "TELEGRAM_BOT_TOKEN"
               (delete "TELEGRAM_CHAT_ID" (settings_map (setting_values env))) ->
      log_ws (snd (run (with_settings env values') sheet)) = log_ws (snd (run env sheet))
      /\ rows (snd (run (with_settings env values') sheet)) = rows (snd (run env sheet))
      /\ alerts (snd (run (with_settings env values') sheet)) = alerts (snd (run env sheet)).
Proof.
  intros Hempty. split; [| split].
  - rewrite run_cases. apply outcome_no_post. rewrite load_settings_eq. cbn zeta.
    destruct (float_of_string _) as [e | thr]; [exact I |].
    destruct (float_of_string _) as [e | cd]; [exact I |].
    destruct Hempty as [-> | ->]; [reflexivity | apply andb_false_r].
  - apply run_log_ws.
  - intros values' Hother.
    rewrite !run_cases, outcome_with_settings. cbn [setting_values with_settings].
    rewrite !load_settings_eq. cbn zeta.
    rewrite (dict_get_delete2 _ _ _ _ "ALERT_BPS" "200" Hother) by discriminate.
    rewrite (dict_get_delete2 _ _ _ _ "COOLDOWN_MIN" "10" Hother) by discriminate.
    rewrite (dict_get_delete2 _ _ _ _ "COINS" "BTC,ETH" Hother) by discriminate.
    destruct (float_of_string _) as [e | thr]; [auto |].
    destruct (float_of_string _) as [e | cd]; [auto |].
    apply outcome_records.
Qed.

(** C8, amended. The cooldown is read, with ["10"] for an absent key, and
    converted. Two runs whose Setting worksheets give the same dictionary
    apart from [COOLDOWN_MIN], and in both of which that entry converts to
    a float, end alike in every respect: outcome, worksheet, calls, rows
    and alerts. *)
Theorem cooldown_not_applied (env : Env F) (values' : list (list string))
        (sheet : list (row F)) (c c' : F) :
  delete "COOLDOWN_MIN" (settings_map values')
  = delete "COOLDOWN_MIN" (settings_map (setting_values env)) ->
  float_of_string (dict_get (settings_map (setting_values env)) "COOLDOWN_MIN" "10") = inr c ->
  float_of_string (dict_get (settings_map values') "COOLDOWN_MIN" "10") = inr c' ->
  run (with_settings env values') sheet = run env sheet
  /\ (forall thr cd coins tok chat,
        load_settings (setting_values env) = inr (thr, cd, coins, tok, chat) -> cd = c)
  /\ (settings_map (setting_values env) !! "COOLDOWN_MIN" = None ->
      float_of_string "10" = inr c).
Proof.
  intros Hother Hc Hc'. split; [| split].
  - rewrite !run_cases, outcome_with_settings. cbn [setting_values with_settings].
    rewrite !load_settings_eq. cbn zeta. rewrite Hc, Hc'.
    rewrite (dict_get_delete _ _ _ "ALERT_BPS" "200" Hother) by discriminate.
    rewrite (dict_get_delete _ _ _ "COINS" "BTC,ETH" Hother) by discriminate.
    rewrite (dict_get_delete _ _ _ "TELEGRAM_BOT_TOKEN" "" Hother) by discriminate.
    rewrite (dict_get_delete _ _ _ "TELEGRAM_CHAT_ID" "" Hother) by discriminate.
    destruct (float_of_string (dict_get (settings_map (setting_values env)) "ALERT_BPS" "200"))
      as [e | thr]; reflexivity.
  - intros thr cd coins tok chat. rewrite load_settings_eq. cbn zeta. rewrite Hc.
    destruct (float_of_string (dict_get (settings_map (setting_values env)) "ALERT_BPS" "200"))
      as [e | thr0]; [discriminate |]. congruence.
  - intros Hnone. unfold dict_get in Hc. rewrite Hnone in Hc. exact Hc.
Qed.

(** *** The loop over the coins *)

(** C7. When the [try] block of a coin raises [e], the turn ends normally
    and has appended one more row than the block had: time, ["ERR"], the
    coin, the three rates in their columns and [str(e)] in the last one;
    its two price cells, its normalized price and its spread are empty
    strings, and an empty string is no number cell, zero or other. *)
Theorem error_record (env : Env F) (ts : string) (thr r r1 r2 : F) (coin : string)
        (s : State F) (e : exn) :
  fst (main_try env ts thr r r1 r2 coin s) = inl e ->
  fst (main_coin env ts thr r r1 r2 coin s) = inr tt
  /\ rows (snd (main_coin env ts thr r r1 r2 coin s))
     = rows (snd (main_try env ts thr r r1 r2 coin s))
       ++ [[Text ts; Text "ERR"; Text coin; Text ""; Text "";
            Number r; Number r1; Number r2; Text ""; Text ""; Text (str e)]]
  /\ alerts (snd (main_coin env ts thr r r1 r2 coin s))
     = alerts (snd (main_try env ts thr r r1 r2 coin s))
  /\ log_ws (snd (main_coin env ts thr r r1 r2 coin s)) = log_ws s
  /\ forall z : F, Text "" <> Number z.
Proof.
  intros Hraise.
  assert (Hlog : log_ws (snd (main_coin env ts thr r r1 r2 coin s)) = log_ws s).
  { rewrite main_coin_run. cbn [snd extend log_ws]. rewrite turn_log_ws. apply app_nil_r. }
  unfold main_coin, try_except in *.
  destruct (main_try env ts thr r r1 r2 coin s) as [[e' | []] s']; cbn [fst snd] in *;
    [| discriminate].
  injection Hraise as ->.
  repeat split; try reflexivity; try exact Hlog. discriminate.
Qed.

Lemma value_main_try (env : Env F) ts thr r r1 r2 c :
  value (main_try env ts thr r r1 r2 c)
  = match value (kucoin_prices env c) with
    | inl e => inl e
    | inr (kb, ka) =>
        match value (luno_prices_myr env c) with
        | inl e => inl e
        | inr (lb, la) =>
            match side_quote lb ka r with
            | inl e => inl e
            | inr _ => match side_quote la kb r with inl e => inl e | inr _ => inr tt end
            end
        end
    end.
Proof.
  unfold value at 1. rewrite main_try_run.
  repeat match goal with
         | |- context [match ?x with _ => _ end] => destruct x
         end; reflexivity.
Qed.

(** A coin whose [try] block ends normally leaves its two rows. *)
Lemma turn_returns (env : Env F) ts thr r r1 r2 c :
  value (main_try env ts thr r r1 r2 c) = inr tt ->
  map row_key (rows (turn env ts thr r r1 r2 c)) = [(c, "Bid"); (c, "Ask")].
Proof.
  rewrite value_main_try. unfold turn.
  repeat match goal with
         | |- context [match ?x with _ => _ end] => destruct x
         end; intros Hv; try discriminate; reflexivity.
Qed.

(** A coin whose venue fetch raises leaves its error row alone. *)
Lemma turn_fetch_fails (env : Env F) ts thr r r1 r2 c e :
  venue_fetch_fails env c e ->
  rows (turn env ts thr r r1 r2 c) = [error_row ts c r r1 r2 e].
Proof.
  unfold turn. intros [-> | [[[kb ka] ->] ->]]; reflexivity.
Qed.

Lemma turns_returns (env : Env F) ts thr r r1 r2 coins :
  Forall (fun c => value (main_try env ts thr r r1 r2 c) = inr tt) coins ->
  map row_key (rows (turns env ts thr r r1 r2 coins))
  = flat_map (fun c => [(c, "Bid"); (c, "Ask")]) coins.
Proof.
  rewrite turns_rows. induction 1 as [| c coins Hc _ IH]; [reflexivity |].
  cbn [flat_map]. rewrite map_app, IH, (turn_returns _ _ _ _ _ _ _ Hc). reflexivity.
Qed.

(** A run that gets as far as the loop. *)
Lemma run_loop (env : Env F) (sheet : list (row F)) thr cd coins tok chat r1 r2 r :
  load_settings (setting_values env) = inr (thr, cd, coins, tok, chat) ->
  value (get_xe_rate env "USD" "THB") = inr r1 ->
  value (get_xe_rate env "MYR" "THB") = inr r2 ->
  truediv r1 r2 = inr r ->
  rows (snd (run env sheet)) = rows (turns env (now env) thr r r1 r2 coins)
  /\ alerts (snd (run env sheet)) = alerts (turns env (now env) thr r r1 r2 coins).
Proof.
  intros Hst H1 H2 Hr. rewrite run_cases, Hst. unfold outcome. rewrite H1, H2, Hr.
  split; reflexivity.
Qed.

(** C5. In a run that reaches the loop with the coins [before ++ c :: after],
    where a venue fetch of [c] raises and the [try] block of every other
    coin ends normally, the rows are, in order: a Bid row and an Ask row for
    each coin of [before], one error row for [c] carrying the exception of
    its fetch, and a Bid row and an Ask row for each coin of [after]. That
    is one error row and two rows for each of the other coins, and they are
    what the worksheet receives. *)
Theorem one_failure_one_error_row (env : Env F) (sheet : list (row F))
        (thr cd : F) (before after : list string) (c tok chat : string)
        (r1 r2 r : F) (e : exn) :
  load_settings (setting_values env) = inr (thr, cd, before ++ c :: after, tok, chat) ->
  value (get_xe_rate env "USD" "THB") = inr r1 ->
  value (get_xe_rate env "MYR" "THB") = inr r2 ->
  truediv r1 r2 = inr r ->
  venue_fetch_fails env c e ->
  Forall (fun c' => value (main_try env (now env) thr r r1 r2 c') = inr tt) (before ++ after) ->
  map row_key (rows (snd (run env sheet)))
  = flat_map (fun c' => [(c', "Bid"); (c', "Ask")]) before
    ++ [(c, "ERR")]
    ++ flat_map (fun c' => [(c', "Bid"); (c', "Ask")]) after
  /\ length (rows (snd (run env sheet))) = 2 * (length (before ++ c :: after) - 1) + 1
  /\ rows (snd (run env sheet)) !! (2 * length before)
     = Some [Text (now env); Text "ERR"; Text c; Text ""; Text "";
             Number r; Number r1; Number r2; Text ""; Text ""; Text (str e)]
  /\ log_ws (snd (run env sheet))
     = match sheet with [] => [header] | _ => sheet end ++ rows (snd (run env sheet)).
Proof.
  intros Hst H1 H2 Hr Hfail Hok.
  apply Forall_app in Hok as [Hbefore Hafter].
  destruct (run_loop env sheet _ _ _ _ _ _ _ _ Hst H1 H2 Hr) as [Hrows _].
  assert (Hsplit : rows (snd (run env sheet))
                   = rows (turns env (now env) thr r r1 r2 before)
                     ++ [error_row (now env) c r r1 r2 e]
                     ++ rows (turns env (now env) thr r r1 r2 after)).
  { rewrite Hrows, !turns_rows, flat_map_app. cbn [flat_map].
    rewrite (turn_fetch_fails _ _ _ _ _ _ _ _ Hfail). reflexivity. }
  assert (Hkeys : forall l, Forall (fun c' => value (main_try env (now env) thr r r1 r2 c') = inr tt) l ->
                            length (rows (turns env (now env) thr r r1 r2 l)) = 2 * length l).
  { intros l Hl. rewrite <- (length_map row_key), (turns_returns _ _ _ _ _ _ _ Hl).
    clear Hl. induction l as [| x l IH]; simpl in *; lia. }
  split; [| split; [| split]].
  - rewrite Hsplit, !map_app, (turns_returns _ _ _ _ _ _ _ Hbefore),
      (turns_returns _ _ _ _ _ _ _ Hafter). reflexivity.
  - rewrite Hsplit, !length_app, (Hkeys _ Hbefore), (Hkeys _ Hafter). simpl. lia.
  - rewrite Hsplit, <- (Hkeys _ Hbefore).
    rewrite lookup_app_r by exact (le_n _). rewrite Nat.sub_diag. reflexivity.
  - apply run_log_ws.
Qed.

(** *** The alert policy *)

Lemma observations_app (rs rs' : list (row F)) :
  observations (rs ++ rs') = observations rs ++ observations rs'.
Proof. apply flat_map_app. Qed.

Lemma turn_alerts_observed (env : Env F) ts thr r r1 r2 c :
  alerts (turn env ts thr r r1 r2 c)
  = flat_map (evaluate thr) (observations (rows (turn env ts thr r r1 r2 c))).
Proof.
  unfold turn, failed.
  repeat match goal with
         | |- context [match ?x with inl _ => _ | inr _ => _ end] => destruct x
         | |- context [let '(_, _) := ?x in _] => destruct x
         end; cbn [alerts rows observations observation_of observation_row error_row
                   flat_map app]; rewrite ?app_nil_r; reflexivity.
Qed.

Lemma turns_alerts_observed (env : Env F) ts thr r r1 r2 coins :
  alerts (turns env ts thr r r1 r2 coins)
  = flat_map (evaluate thr) (observations (rows (turns env ts thr r r1 r2 coins))).
Proof.
  rewrite turns_alerts, turns_rows.
  induction coins as [| c coins IH]; [reflexivity |].
  cbn [flat_map]. rewrite observations_app, flat_map_app, <- IH, <- turn_alerts_observed.
  reflexivity.
Qed.

Lemma evaluate_length (thr : F) (a : alert F) : length (evaluate thr a) <= 1.
Proof.
  destruct a as [[[[c sd] spr] n] k]. unfold evaluate. destruct (fge spr thr); simpl; lia.
Qed.

Lemma turn_alerts_length (env : Env F) ts thr r r1 r2 c :
  length (alerts (turn env ts thr r r1 r2 c)) <= 2.
Proof.
  unfold turn, failed.
  repeat match goal with
         | |- context [match ?x with inl _ => _ | inr _ => _ end] => destruct x
         | |- context [let '(_, _) := ?x in _] => destruct x
         end; cbn [alerts length]; try lia.
  - match goal with |- context [evaluate ?t ?a] => pose proof (evaluate_length t a) end. lia.
  - rewrite length_app.
    repeat match goal with
           | |- context [evaluate ?t ?a] =>
               lazymatch goal with
               | _ : length (evaluate t a) <= 1 |- _ => fail
               | _ => pose proof (evaluate_length t a)
               end
           end. lia.
Qed.

Lemma turns_alerts_length (env : Env F) ts thr r r1 r2 coins :
  length (alerts (turns env ts thr r r1 r2 coins)) <= 2 * length coins.
Proof.
  rewrite turns_alerts. induction coins as [| c coins IH]; simpl; [lia |].
  rewrite length_app. pose proof (turn_alerts_length env ts thr r r1 r2 c). lia.
Qed.

(** The alerts of a run are its observations that pass the threshold test,
    in order; there are at most two for each coin. *)
Lemma run_alerts (env : Env F) (sheet : list (row F)) thr cd coins tok chat :
  load_settings (setting_values env) = inr (thr, cd, coins, tok, chat) ->
  alerts (snd (run env sheet))
  = flat_map (evaluate thr) (observations (rows (snd (run env sheet))))
  /\ length (alerts (snd (run env sheet))) <= 2 * length coins.
Proof.
  intros Hst. rewrite run_cases, Hst. unfold outcome.
  destruct (value (get_xe_rate env "USD" "THB")) as [e | r1]; [split; [reflexivity | simpl; lia] |].
  destruct (value (get_xe_rate env "MYR" "THB")) as [e | r2]; [split; [reflexivity | simpl; lia] |].
  destruct (truediv r1 r2) as [e | r]; [split; [reflexivity | simpl; lia] |].
  cbn [snd alerts rows]. split; [apply turns_alerts_observed | apply turns_alerts_length].
Qed.

(** *** The loop, as [main] runs it *)

Lemma turns_rows_min (env : Env F) ts thr r r1 r2 coins :
  length coins <= length (rows (turns env ts thr r r1 r2 coins)).
Proof.
  rewrite turns_rows. induction coins as [| c coins IH]; simpl; [lia |].
  rewrite length_app.
  assert (1 <= length (rows (turn env ts thr r r1 r2 c))); [| lia].
  unfold turn, failed.
  repeat match goal with
         | |- context [match ?x with inl _ => _ | inr _ => _ end] => destruct x
         | |- context [let '(_, _) := ?x in _] => destruct x
         end; cbn [rows app length]; lia.
Qed.

Lemma loop_from_start (env : Env F) ts thr r r1 r2 coins :
  snd (for_each coins (main_coin env ts thr r r1 r2) (start []))
  = turns env ts thr r r1 r2 coins.
Proof.
  rewrite main_loop_run. cbn [snd]. destruct (turns env ts thr r r1 r2 coins).
  reflexivity.
Qed.

End Runs.

(** ** The two arithmetics *)

Section Exact.

Local Open Scope Q_scope.

Lemma Q_truediv (x y : Q) : 0 < y -> truediv x y = inr (x / y).
Proof.
  intros Hy. unfold truediv. cbn [fis_zero fquot Q_float].
  destruct (Qeq_bool y 0) eqn:Hz; [| reflexivity].
  apply Qeq_bool_iff in Hz. rewrite Hz in Hy. exfalso. exact (Qlt_irrefl 0 Hy).
Qed.

Lemma Q_half_pos (x y : Q) : 0 <= x -> 0 < y -> 0 < (x + y) / 2.
Proof. intros Hx Hy. apply Qlt_shift_div_l; [reflexivity | lra]. Qed.

Lemma Q_spread_bps (x y : Q) :
  0 <= x -> 0 < y ->
  spread_bps x y = inr (10000 * ((x - y) / ((x + y) / 2))).
Proof.
  intros Hx Hy. unfold spread_bps.
  change (fadd x y) with (x + y). change (fsub x y) with (x - y).
  change (of_int 2) with 2. change (of_int 10000) with 10000.
  rewrite (Q_truediv (x + y) 2) by reflexivity. rewrite result_inr_bind.
  rewrite (Q_truediv (x - y) ((x + y) / 2)) by (apply Q_half_pos; assumption).
  reflexivity.
Qed.

Lemma Q_div_pos (x y : Q) : 0 < x -> 0 < y -> 0 < x / y.
Proof. intros Hx Hy. apply Qlt_shift_div_l; [exact Hy | lra]. Qed.

Lemma Q_side_quote (lu ku r : Q) :
  0 < lu -> 0 < ku -> 0 < r ->
  side_quote lu ku r
  = inr (lu / r, 10000 * ((lu / r - ku) / ((lu / r + ku) / 2))).
Proof.
  intros Hlu Hku Hr. unfold side_quote.
  rewrite (Q_truediv lu r Hr), result_inr_bind.
  rewrite Q_spread_bps by (try apply Qlt_le_weak; try apply Q_div_pos; assumption).
  reflexivity.
Qed.

(** The code multiplies after dividing; the formula of the specification
    reads the other way round. *)
Lemma Q_spread_formula (x y : Q) :
  0 <= x -> 0 < y ->
  10000 * ((x - y) / ((x + y) / 2)) == 10000 * (x - y) / ((x + y) / 2).
Proof.
  intros Hx Hy. pose proof (Q_half_pos x y Hx Hy) as Hm.
  field. intros Hz. lra.
Qed.

(** In binary64 a float above zero does not compare equal to zero, so
    dividing by it does not raise. *)
Lemma binary64_pos_nonzero (x : float) :
  PrimFloat.ltb PrimFloat.zero x = true -> PrimFloat.eqb x PrimFloat.zero = false.
Proof.
  rewrite FloatAxioms.ltb_spec, FloatAxioms.eqb_spec.
  change (Prim2SF PrimFloat.zero) with (S754_zero false).
  destruct (Prim2SF x) as [s | s | | s m e]; simpl; try discriminate.
  - destruct s; [discriminate | reflexivity].
  - destruct s; [discriminate | reflexivity].
Qed.

(** In binary64 a float below zero is not at or above a float that is at
    or above zero. *)
Lemma binary64_negative_below (t s : float) :
  PrimFloat.leb PrimFloat.zero t = true -> PrimFloat.ltb s PrimFloat.zero = true ->
  PrimFloat.leb t s = false.
Proof.
  rewrite FloatAxioms.ltb_spec, !FloatAxioms.leb_spec.
  change (Prim2SF PrimFloat.zero) with (S754_zero false).
  destruct (Prim2SF t) as [st | st | | st mt et], (Prim2SF s) as [ss | ss | | ss ms es];
    simpl; try discriminate; try reflexivity;
    destruct st, ss; simpl; try discriminate; reflexivity.
Qed.

Lemma binary64_truediv (x y : float) :
  PrimFloat.ltb PrimFloat.zero y = true -> truediv x y = inr (PrimFloat.div x y).
Proof.
  intros Hy. unfold truediv. cbn [fis_zero fquot binary64_float].
  rewrite (binary64_pos_nonzero y Hy). reflexivity.
Qed.

End Exact.

(** ** Signs in binary64

    Rounding to nearest even does not look at the sign, so the operations
    of the spread commute with negation. *)

Section Signs.

Local Abbreviation prec := FloatOps.prec.
Local Abbreviation emax := FloatOps.emax.
Local Abbreviation opposite := Binary64.opposite.

Lemma round_aux_opp (s : bool) (m e : Z) (l : location) :
  binary_round_aux prec emax (negb s) m e l = SFopp (binary_round_aux prec emax s m e l).
Proof.
  unfold binary_round_aux.
  destruct (shr_fexp prec emax m e l) as [mrs' e'].
  destruct (shr_fexp prec emax _ e' loc_Exact) as [mrs'' e''].
  destruct (shr_m mrs''); [reflexivity | | reflexivity].
  destruct (Z.leb e'' (emax - prec)); reflexivity.
Qed.

Lemma normalize_opp (m e : Z) :
  binary_normalize prec emax (- m) e false = SFopp (binary_normalize prec emax m e false)
  \/ m = 0%Z.
Proof.
  destruct m as [| p | p]; [right; reflexivity | left | left]; simpl.
  - unfold binary_round. destruct (shl_align _ _ _) as [mz ez].
    apply (round_aux_opp false).
  - unfold binary_round. destruct (shl_align _ _ _) as [mz ez].
    rewrite (round_aux_opp false).
    destruct (binary_round_aux _ _ false _ _ _); simpl; rewrite ?negb_involutive; reflexivity.
Qed.

Lemma SFadd_comm (x y : spec_float) : SFadd prec emax x y = SFadd prec emax y x.
Proof.
  destruct x as [sx | sx | | sx mx ex], y as [sy | sy | | sy my ey]; try reflexivity;
    try (destruct sx, sy; reflexivity).
  simpl. rewrite (Z.min_comm ey ex), Z.add_comm. reflexivity.
Qed.

Lemma SFsub_swap (x y : spec_float) : opposite (SFsub prec emax x y) (SFsub prec emax y x).
Proof.
  destruct x as [sx | sx | | sx mx ex], y as [sy | sy | | sy my ey];
    try (left; reflexivity);
    try (destruct sx, sy; (left; reflexivity) || (right; split; eexists; reflexivity)).
  simpl. rewrite (Z.min_comm ey ex).
  set (a := cond_Zopp sx _). set (b := cond_Zopp sy _).
  replace (b - a)%Z with (- (a - b))%Z by lia.
  destruct (normalize_opp (a - b) (Z.min ex ey)) as [-> | ->]; [left; reflexivity |].
  right; split; exists false; reflexivity.
Qed.

Lemma SFdiv_opp (x h : spec_float) : SFdiv prec emax (SFopp x) h = SFopp (SFdiv prec emax x h).
Proof.
  destruct x as [sx | sx | | sx mx ex], h as [sh | sh | | sh mh eh]; simpl;
    try reflexivity; try (destruct sx, sh; reflexivity).
  destruct (SFdiv_core_binary _ _ _ _ _ _) as [[mz ez] lz].
  rewrite <- round_aux_opp. destruct sx, sh; reflexivity.
Qed.

Lemma SFmul_opp (c x : spec_float) : SFmul prec emax c (SFopp x) = SFopp (SFmul prec emax c x).
Proof.
  destruct c as [sc | sc | | sc mc ec], x as [sx | sx | | sx mx ex]; simpl;
    try reflexivity; try (destruct sc, sx; reflexivity).
  rewrite <- round_aux_opp. destruct sc, sx; reflexivity.
Qed.

Lemma opposite_div (u v h : spec_float) :
  opposite u v -> opposite (SFdiv prec emax u h) (SFdiv prec emax v h).
Proof.
  intros [-> | [[s ->] [s' ->]]]; [left; apply SFdiv_opp |].
  destruct h as [sh | sh | | sh mh eh]; simpl;
    try (left; reflexivity); right; split; eexists; reflexivity.
Qed.

Lemma opposite_mul (c u v : spec_float) :
  opposite u v -> opposite (SFmul prec emax c u) (SFmul prec emax c v).
Proof.
  intros [-> | [[s ->] [s' ->]]]; [left; apply SFmul_opp |].
  destruct c as [sc | sc | | sc mc ec]; simpl;
    try (left; reflexivity); right; split; eexists; reflexivity.
Qed.

Lemma SFopp_involutive (x : spec_float) : SFopp (SFopp x) = x.
Proof. destruct x; simpl; rewrite ?negb_involutive; reflexivity. Qed.

Lemma SFeqb_refl (x : spec_float) : x <> S754_nan -> SFeqb x x = true.
Proof.
  destruct x as [s | s | | s m e]; intros Hx; try (destruct s; reflexivity); [congruence |].
  unfold SFeqb, SFcompare. rewrite Z.compare_refl, Pos.compare_cont_refl.
  destruct s; reflexivity.
Qed.

Lemma opposite_eqb (a b : spec_float) :
  opposite a b -> SFeqb a (SFopp b) = true \/ (a = S754_nan /\ b = S754_nan).
Proof.
  intros [-> | [[s ->] [s' ->]]]; [| left; reflexivity].
  rewrite SFopp_involutive.
  destruct a as [s | s | | s m e]; try (left; apply SFeqb_refl; discriminate).
  right; split; reflexivity.
Qed.

Lemma binary64_add_comm (p q : float) : PrimFloat.add p q = PrimFloat.add q p.
Proof. apply Prim2SF_inj. rewrite !add_spec. apply SFadd_comm. Qed.

(** With the same factor and the same divisor, exchanging the terms of
    the difference gives the opposite float, compared as Python compares
    floats; unless both results are NaN. *)
Lemma binary64_opposite (c p q h : float) :
  PrimFloat.eqb (PrimFloat.mul c (PrimFloat.div (PrimFloat.sub p q) h))
                (PrimFloat.opp (PrimFloat.mul c (PrimFloat.div (PrimFloat.sub q p) h))) = true
  \/ (PrimFloat.eqb (PrimFloat.mul c (PrimFloat.div (PrimFloat.sub p q) h))
                    (PrimFloat.mul c (PrimFloat.div (PrimFloat.sub p q) h)) = false
      /\ PrimFloat.eqb (PrimFloat.mul c (PrimFloat.div (PrimFloat.sub q p) h))
                       (PrimFloat.mul c (PrimFloat.div (PrimFloat.sub q p) h)) = false).
Proof.
  rewrite !FloatAxioms.eqb_spec, opp_spec, !mul_spec, !div_spec, !sub_spec.
  pose proof (opposite_mul (Prim2SF c) _ _
                (opposite_div _ _ (Prim2SF h) (SFsub_swap (Prim2SF p) (Prim2SF q)))) as Ho.
  apply opposite_eqb in Ho as [Ho | [Ha Hb]]; [left; exact Ho |].
  right. unfold SF64mul, SF64div, SF64sub. rewrite Ha, Hb. split; reflexivity.
Qed.

(** The spread in binary64, spelled out: the first division, by 2, never
    raises. *)
Lemma binary64_spread_bps (x y : float) :
  spread_bps x y
  = if PrimFloat.eqb (PrimFloat.div (PrimFloat.add x y) 2) PrimFloat.zero
    then inl ZeroDivisionError
    else inr (PrimFloat.mul 10000
                (PrimFloat.div (PrimFloat.sub x y) (PrimFloat.div (PrimFloat.add x y) 2))).
Proof.
  unfold spread_bps, truediv. cbn [fis_zero fquot fadd fsub fmul binary64_float].
  change (of_int 2) with 2%float. change (of_int 10000) with 10000%float.
  change (PrimFloat.eqb 2 PrimFloat.zero) with false. cbn iota.
  rewrite result_inr_bind.
  destruct (PrimFloat.eqb (PrimFloat.div (PrimFloat.add x y) 2) PrimFloat.zero); reflexivity.
Qed.

Lemma binary64_spread_swap (x y : float) :
  match spread_bps x y, spread_bps y x with
  | inr a, inr b =>
      PrimFloat.eqb a (PrimFloat.opp b) = true
      \/ (PrimFloat.eqb a a = false /\ PrimFloat.eqb b b = false)
  | inl e, inl e' => e = e'
  | _, _ => False
  end.
Proof.
  rewrite !binary64_spread_bps, (binary64_add_comm y x).
  destruct (PrimFloat.eqb (PrimFloat.div (PrimFloat.add x y) 2) PrimFloat.zero);
    [reflexivity | apply binary64_opposite].
Qed.

(** One direction in binary64: with a rate above zero the first division
    does not raise, and the spread is computed when the middle of the two
    prices does not compare equal to zero. *)
Lemma binary64_side_quote (lu ku r : float) :
  PrimFloat.ltb PrimFloat.zero r = true ->
  PrimFloat.eqb (PrimFloat.div (PrimFloat.add (PrimFloat.div lu r) ku) 2) PrimFloat.zero = false ->
  side_quote lu ku r
  = inr (PrimFloat.div lu r,
         PrimFloat.mul 10000
           (PrimFloat.div (PrimFloat.sub (PrimFloat.div lu r) ku)
                          (PrimFloat.div (PrimFloat.add (PrimFloat.div lu r) ku) 2))).
Proof.
  intros Hr Hmid. unfold side_quote.
  rewrite (binary64_truediv lu r Hr), result_inr_bind, binary64_spread_bps, Hmid.
  reflexivity.
Qed.

End Signs.

Section ExactClaims.

Local Open Scope Q_scope.



(** C2. In a run whose settings load and whose two rates are fetched,
    [r1] (USD to THB) and [r2] (MYR to THB), with [r2] not comparing equal
    to zero, as every strictly positive rate does, the division of line 99
    returns [r1 / r2], and that quotient is the derived rate [main] goes
    on with: the rows and the alerts of the run are those of the loop over
    the coins run with [r1 / r2], [r1] and [r2]; every coin leaves a row,
    and every row carries [r1 / r2] in its USD/MYR column, beside [r1] and
    [r2]. This holds in any arithmetic, the quotient being that of the
    rationals in exact arithmetic and the rounded one in binary64. For the
    texts ["34.50"] and ["8.20"] the quotient is 34.50/8.20 in exact
    arithmetic, and within 1e-9 of it in binary64. *)
Theorem derived_rate {F : Type} `{PyFloat F} (env : Env F) (sheet : list (row F))
        (thr cd : F) (coins : list string) (tok chat : string) (r1 r2 : F) :
  load_settings (setting_values env) = inr (thr, cd, coins, tok, chat) ->
  value (get_xe_rate env "USD" "THB") = inr r1 ->
  value (get_xe_rate env "MYR" "THB") = inr r2 ->
  fis_zero r2 = false ->
  truediv r1 r2 = inr (fquot r1 r2)
  /\ rows (snd (run env sheet))
     = rows (snd (for_each coins (main_coin env (now env) thr (fquot r1 r2) r1 r2)
                           (start [])))
  /\ alerts (snd (run env sheet))
     = alerts (snd (for_each coins (main_coin env (now env) thr (fquot r1 r2) r1 r2)
                             (start [])))
  /\ (length coins <= length (rows (snd (run env sheet))))%nat
  /\ Forall (fun row => rates_of row = Some (fquot r1 r2, r1, r2)) (rows (snd (run env sheet)))
  /\ (forall q1 q2 : Q, 0 < q2 -> fis_zero q2 = false /\ fquot q1 q2 = q1 / q2)
  /\ (forall x1 x2 : float,
        PrimFloat.ltb PrimFloat.zero x2 = true ->
        fis_zero x2 = false /\ fquot x1 x2 = PrimFloat.div x1 x2)
  /\ (exists q : Q,
        (a ← float_of_string "34.50"; b ← float_of_string "8.20"; truediv a b) = inr q
        /\ q == 34.50 / 8.20
        /\ Qabs (q - 34.50 / 8.20) <= 1e-9)
  /\ (exists (x : float) (qx : Q),
        (a ← float_of_string "34.50"; b ← float_of_string "8.20"; truediv a b) = inr x
        /\ Binary64.to_Q x = Some qx
        /\ Qabs (qx - 34.50 / 8.20) <= 1e-9).
Proof.
  intros Hst H1 H2 Hnz.
  assert (Hdiv : truediv r1 r2 = inr (fquot r1 r2)) by (unfold truediv; rewrite Hnz; reflexivity).
  destruct (run_loop env sheet _ _ _ _ _ _ _ _ Hst H1 H2 Hdiv) as [Hrows Hal].
  split; [exact Hdiv |].
  split; [rewrite loop_from_start; exact Hrows |].
  split; [rewrite loop_from_start; exact Hal |].
  split; [rewrite Hrows; apply turns_rows_min |].
  split; [exact (run_rates env sheet r1 r2 _ H1 H2 Hdiv) |].
  split.
  { intros q1 q2 Hq. split; [| reflexivity].
    pose proof (Q_truediv q1 q2 Hq) as Hd. unfold truediv in Hd.
    destruct (fis_zero q2); [discriminate | reflexivity]. }
  split.
  { intros x1 x2 Hx. split; [exact (binary64_pos_nonzero x2 Hx) | reflexivity]. }
  split.
  - eexists. split; [vm_compute; reflexivity |].
    split; [reflexivity | apply Qle_bool_iff; vm_compute; reflexivity].
  - eexists. eexists. split; [vm_compute; reflexivity |].
    split; [vm_compute; reflexivity | apply Qle_bool_iff; vm_compute; reflexivity].
Qed.

End ExactClaims.

Lemma evaluate_in {F : Type} `{PyFloat F} (thr : F) (a o : alert F) :
  a ∈ evaluate thr o <-> a = o /\ fge (snd (fst (fst a))) thr = true.
Proof.
  destruct o as [[[[c sd] spr] n] k]. unfold evaluate.
  destruct (fge spr thr) eqn:Hge.
  - rewrite list_elem_of_singleton. split; [intros -> | intros [-> _]]; auto.
  - split; [intros Hin; inversion Hin |].
    intros [-> Hthr]. cbn [fst snd] in Hthr. congruence.
Qed.

(** C3. In a run whose settings give the threshold [thr], the alerts are
    the recorded observations that pass the test [spr >= thr] of the code,
    in order: an observation has its alert exactly when its spread is at
    least the threshold, each direction of each coin on its own, so at most
    two for each coin. The test is the order of the rationals in exact
    arithmetic and the comparison of floats in binary64. At threshold 200
    a spread of 200 alerts and one of 199.999 does not, and under a
    non-negative threshold a negative spread gives no alert, in both. *)
Theorem alert_iff_threshold {F : Type} `{PyFloat F} (env : Env F) (sheet : list (row F))
        (thr cd : F) (coins : list string) (tok chat : string) :
  load_settings (setting_values env) = inr (thr, cd, coins, tok, chat) ->
  alerts (snd (run env sheet))
  = flat_map (evaluate thr) (observations (rows (snd (run env sheet))))
  /\ (forall (c side : string) (spr n k : F),
        (c, side, spr, n, k) ∈ alerts (snd (run env sheet))
        <-> (c, side, spr, n, k) ∈ observations (rows (snd (run env sheet)))
            /\ fge spr thr = true)
  /\ length (alerts (snd (run env sheet))) <= 2 * length coins
  /\ (forall x y : Q, fge x y = true <-> (y <= x)%Q)
  /\ (forall x y : float, fge x y = PrimFloat.leb y x)
  /\ (forall (c side : string) (n k : Q),
        evaluate 200%Q (c, side, 200%Q, n, k) = [(c, side, 200%Q, n, k)]
        /\ evaluate 200%Q (c, side, 199.999%Q, n, k) = [])
  /\ (exists t200 s200 s199 : float,
        float_of_string "200" = inr t200
        /\ float_of_string "200.0" = inr s200
        /\ float_of_string "199.999" = inr s199
        /\ forall (c side : string) (n k : float),
            evaluate t200 (c, side, s200, n, k) = [(c, side, s200, n, k)]
            /\ evaluate t200 (c, side, s199, n, k) = [])
  /\ (forall (t s : Q) (c side : string) (n k : Q),
        (0 <= t)%Q -> (s < 0)%Q -> evaluate t (c, side, s, n, k) = [])
  /\ (forall (t s : float) (c side : string) (n k : float),
        PrimFloat.leb PrimFloat.zero t = true -> PrimFloat.ltb s PrimFloat.zero = true ->
        evaluate t (c, side, s, n, k) = []).
Proof.
  intros Hst. destruct (run_alerts env sheet thr cd coins tok chat Hst) as [Hal Hlen].
  split; [exact Hal |]. split.
  { intros c side spr n k. rewrite Hal at 1. rewrite list_elem_of_In, in_flat_map.
    split.
    - intros (o & Ho & Hin). apply list_elem_of_In, evaluate_in in Hin as [<- Hge].
      split; [apply list_elem_of_In; exact Ho | exact Hge].
    - intros [Ho Hge]. exists (c, side, spr, n, k).
      split; [apply list_elem_of_In; exact Ho |].
      apply list_elem_of_In, evaluate_in. split; [reflexivity | exact Hge]. }
  split; [exact Hlen |].
  split; [intros x y; apply Qle_bool_iff |].
  split; [reflexivity |].
  split; [intros; split; reflexivity |].
  split.
  { do 3 eexists. split; [vm_compute; reflexivity |].
    split; [vm_compute; reflexivity |]. split; [vm_compute; reflexivity |].
    intros c side n k. split; reflexivity. }
  split.
  - intros t s c side n k Ht Hs. unfold evaluate.
    change (fge s t) with (Qle_bool t s).
    destruct (Qle_bool t s) eqn:Hle; [| reflexivity].
    apply Qle_bool_iff in Hle. exfalso.
    apply (Qlt_irrefl 0%Q). apply Qle_lt_trans with s; [| exact Hs].
    apply Qle_trans with t; assumption.
  - intros t s c side n k Ht Hs. unfold evaluate.
    change (fge s t) with (PrimFloat.leb t s).
    rewrite (binary64_negative_below t s Ht Hs). reflexivity.
Qed.

(** ** The theorems at the sample world *)

Section Witnesses.

Local Open Scope Q_scope.




Lemma derived_rate_witness :
  truediv Edge.usd_thb64 Edge.myr_thb64 = inr (PrimFloat.div Edge.usd_thb64 Edge.myr_thb64)
  /\ rows (snd (run Edge.env64 []))
     = rows (snd (for_each ["BTC"; "XRP"; "ETH"]
                           (main_coin Edge.env64 (now Edge.env64) 200%float
                                      (PrimFloat.div Edge.usd_thb64 Edge.myr_thb64)
                                      Edge.usd_thb64 Edge.myr_thb64)
                           (start [])))
  /\ (length ["BTC"; "XRP"; "ETH"] <= length (rows (snd (run Edge.env64 []))))%nat
  /\ Forall (fun row => rates_of row
                        = Some (PrimFloat.div Edge.usd_thb64 Edge.myr_thb64,
                                Edge.usd_thb64, Edge.myr_thb64))
            (rows (snd (run Edge.env64 []))).
Proof.
  refine (let Hw := derived_rate Edge.env64 [] 200%float 10%float ["BTC"; "XRP"; "ETH"]
                      "tok" "42" Edge.usd_thb64 Edge.myr_thb64 _ _ _ _ in
          conj (proj1 Hw)
            (conj (proj1 (proj2 Hw))
               (conj (proj1 (proj2 (proj2 (proj2 Hw))))
                     (proj1 (proj2 (proj2 (proj2 (proj2 Hw))))))));
    vm_compute; reflexivity.
Defined.

Lemma alert_iff_threshold_witness :
  alerts (snd (run Sample.env []))
  = flat_map (evaluate 200) (observations (rows (snd (run Sample.env []))))
  /\ length (alerts (snd (run Sample.env []))) = 4%nat.
Proof.
  split; [| vm_compute; reflexivity].
  refine (proj1 (alert_iff_threshold Sample.env [] 200 10 ["BTC"; "XRP"; "ETH"] "tok" "42" _)).
  vm_compute; reflexivity.
Defined.

Lemma fx_failure_aborts_witness :
  exists e fx,
    fst (run Sample.env_no_rate [[Text "kept"]]) = inl e
    /\ (e = RuntimeError "XE parse failed for USD->THB"
        \/ e = RuntimeError "XE parse failed for MYR->THB"
        \/ load_settings (F := Q) (setting_values Sample.env_no_rate) = inl e)
    /\ rows (snd (run Sample.env_no_rate [[Text "kept"]])) = []
    /\ alerts (snd (run Sample.env_no_rate [[Text "kept"]])) = []
    /\ log_ws (snd (run Sample.env_no_rate [[Text "kept"]])) = [[Text "kept"]]
    /\ trace (snd (run Sample.env_no_rate [[Text "kept"]])) = [] ++ fx
    /\ Forall (fun ev => is_fx_call ev = true) fx.
Proof.
  apply (fx_failure_aborts Sample.env_no_rate [[Text "kept"]]).
  left; reflexivity.
Defined.

(** C4 as stated fails on an empty worksheet: the first rate cannot be
    parsed, the run raises, and yet the worksheet, empty before, holds a
    row after it, the header, appended before the first fetch. *)
Lemma fx_failure_header_appended :
  xe_unparsed Sample.env_no_rate "USD" "THB"
  /\ fst (run Sample.env_no_rate []) = inl (RuntimeError "XE parse failed for USD->THB")
  /\ log_ws (start (F := Q) []) = []
  /\ log_ws (snd (run Sample.env_no_rate [])) = [header]
  /\ trace (snd (run Sample.env_no_rate [])) = [AppendRow header; XeGet "USD" "THB"]
  /\ log_ws (snd (run Sample.env_no_rate [])) <> log_ws (start (F := Q) []).
Proof.
  split; [reflexivity |]. split; [vm_compute; reflexivity |]. split; [reflexivity |].
  split; [vm_compute; reflexivity |]. split; [vm_compute; reflexivity |].
  vm_compute. discriminate.
Qed.

Lemma one_failure_one_error_row_witness :
  map row_key (rows (snd (run Sample.env [])))
  = [("BTC", "Bid"); ("BTC", "Ask"); ("XRP", "ERR"); ("ETH", "Bid"); ("ETH", "Ask")]
  /\ length (rows (snd (run Sample.env []))) = 5%nat
  /\ rows (snd (run Sample.env [])) !! 2%nat
     = Some [Text "2026-01-01 00:00:00"; Text "ERR"; Text "XRP"; Text ""; Text "";
             Number ((69 # 2) / (41 # 5)); Number (69 # 2); Number (41 # 5);
             Text ""; Text ""; Text "Read timed out."]
  /\ log_ws (snd (run Sample.env [])) = [header] ++ rows (snd (run Sample.env [])).
Proof.
  apply (one_failure_one_error_row Sample.env [] 200 10 ["BTC"] ["ETH"] "XRP" "tok" "42"
                                   (69 # 2) (41 # 5) ((69 # 2) / (41 # 5))
                                   (Exn "ReadTimeout" "Read timed out.")).
  - vm_compute; reflexivity.
  - vm_compute; reflexivity.
  - vm_compute; reflexivity.
  - vm_compute; reflexivity.
  - left. vm_compute; reflexivity.
  - repeat constructor; vm_compute; reflexivity.
Defined.

Lemma error_record_witness :
  fst (main_coin Sample.env "t" 200 ((69 # 2) / (41 # 5)) (69 # 2) (41 # 5) "XRP" (start []))
  = inr tt
  /\ rows (snd (main_coin Sample.env "t" 200 ((69 # 2) / (41 # 5)) (69 # 2) (41 # 5) "XRP"
                          (start [])))
     = rows (snd (main_try Sample.env "t" 200 ((69 # 2) / (41 # 5)) (69 # 2) (41 # 5) "XRP"
                           (start [])))
       ++ [[Text "t"; Text "ERR"; Text "XRP"; Text ""; Text "";
            Number ((69 # 2) / (41 # 5)); Number (69 # 2); Number (41 # 5);
            Text ""; Text ""; Text "Read timed out."]]
  /\ alerts (snd (main_coin Sample.env "t" 200 ((69 # 2) / (41 # 5)) (69 # 2) (41 # 5) "XRP"
                            (start [])))
     = alerts (snd (main_try Sample.env "t" 200 ((69 # 2) / (41 # 5)) (69 # 2) (41 # 5) "XRP"
                             (start [])))
  /\ log_ws (snd (main_coin Sample.env "t" 200 ((69 # 2) / (41 # 5)) (69 # 2) (41 # 5) "XRP"
                            (start [])))
     = log_ws (start (F := Q) [])
  /\ forall z : Q, Text "" <> Number z.
Proof.
  apply (error_record Sample.env "t" 200 ((69 # 2) / (41 # 5)) (69 # 2) (41 # 5) "XRP"
                      (start []) (Exn "ReadTimeout" "Read timed out.")).
  vm_compute; reflexivity.
Defined.

Lemma cooldown_not_applied_witness :
  run (with_settings Sample.env (Sample.values_cooldown "45")) [] = run Sample.env []
  /\ (forall thr cd coins tok chat,
        load_settings (setting_values Sample.env) = inr (thr, cd, coins, tok, chat) -> cd = 10)
  /\ (settings_map (setting_values Sample.env) !! "COOLDOWN_MIN" = None ->
      float_of_string "10" = inr 10).
Proof.
  apply (cooldown_not_applied Sample.env (Sample.values_cooldown "45") [] 10 45);
    vm_compute; reflexivity.
Defined.

(** C8 as stated fails when the cell of [COOLDOWN_MIN] is left empty: the
    two Setting worksheets give the same dictionary apart from that entry,
    the quotes and rates are the same, and the run with ["10"] ends with
    five rows and four alerts while the run with the empty cell raises in
    [load_settings] and has none. *)
Lemma cooldown_unreadable_aborts :
  delete "COOLDOWN_MIN" (settings_map (Sample.values_cooldown ""))
  = delete "COOLDOWN_MIN" (settings_map (Sample.values_cooldown "10"))
  /\ fst (run (with_settings Sample.env (Sample.values_cooldown "10")) []) = inr tt
  /\ length (rows (snd (run (with_settings Sample.env (Sample.values_cooldown "10")) []))) = 5%nat
  /\ length (alerts (snd (run (with_settings Sample.env (Sample.values_cooldown "10")) []))) = 4%nat
  /\ fst (run (with_settings Sample.env (Sample.values_cooldown "")) [])
     = inl (ValueError "could not convert string to float: ''")
  /\ rows (snd (run (with_settings Sample.env (Sample.values_cooldown "")) [])) = []
  /\ alerts (snd (run (with_settings Sample.env (Sample.values_cooldown "")) [])) = []
  /\ run (with_settings Sample.env (Sample.values_cooldown "")) []
     <> run (with_settings Sample.env (Sample.values_cooldown "10")) [].
Proof.
  repeat split; try (vm_compute; reflexivity).
  intros Heq. apply (f_equal fst) in Heq. vm_compute in Heq. discriminate.
Qed.

Lemma no_credentials_no_post_witness :
  length (alerts (snd (run (with_settings Sample.env Sample.values_quiet) []))) = 4%nat
  /\ List.filter is_post (trace (snd (run (with_settings Sample.env Sample.values_quiet) [])))
     = []
  /\ log_ws (snd (run (with_settings Sample.env Sample.values_quiet) []))
     = [header] ++ rows (snd (run (with_settings Sample.env Sample.values_quiet) [])).
Proof.
  split; [vm_compute; reflexivity |].
  refine (let Hw := no_credentials_no_post (with_settings Sample.env Sample.values_quiet) [] _ in
          conj (proj1 Hw) (proj1 (proj2 Hw))).
  left. vm_compute; reflexivity.
Defined.

End Witnesses.

(** * Further properties of the code *)

(** ** The phases of a run *)

Section Phases.

Context {F : Type} `{PyFloat F}.

Lemma filter_all {A} (p : A -> bool) (l : list A) :
  Forall (fun x => p x = true) l -> List.filter p l = l.
Proof.
  induction 1 as [| x l Hx _ IH]; simpl; [reflexivity |]. rewrite Hx, IH. reflexivity.
Qed.

Lemma posts_are (p : event F -> bool) (l : list (event F)) :
  (forall tok chat text, p (TelegramPost tok chat text) = false) ->
  Forall (fun e => is_post e = true) l -> Forall (fun e => p e = false) l.
Proof.
  intros Hp Hl. eapply Forall_impl; [exact Hl |].
  intros [] Hpost; simpl in Hpost; try discriminate. apply Hp.
Qed.

Lemma turn_venue_calls (env : Env F) ts thr r r1 r2 c :
  trace (turn env ts thr r r1 r2 c) = venue_calls env c.
Proof.
  unfold turn, failed, venue_calls.
  destruct (value (kucoin_prices env c)) as [e | [kb ka]]; [reflexivity |].
  repeat match goal with
         | |- context [match ?x with inl _ => _ | inr _ => _ end] => destruct x
         | |- context [let '(_, _) := ?x in _] => destruct x
         end; reflexivity.
Qed.

Lemma turns_venue_calls (env : Env F) ts thr r r1 r2 coins :
  trace (turns env ts thr r r1 r2 coins) = flat_map (venue_calls env) coins.
Proof.
  rewrite turns_trace. induction coins as [| c coins IH]; simpl; [reflexivity |].
  rewrite turn_venue_calls, IH. reflexivity.
Qed.

Lemma venue_calls_are (env : Env F) (coins : list string) :
  Forall (fun e => is_venue_call e = true) (flat_map (venue_calls env) coins).
Proof.
  induction coins as [| c coins IH]; simpl; [constructor |].
  constructor; [reflexivity |]. apply Forall_app; split; [| exact IH].
  destruct (value (kucoin_prices env c)); repeat constructor.
Qed.

Lemma venue_calls_are_not (p : event F -> bool) (env : Env F) (coins : list string) :
  (forall c, p (KucoinGet c) = false) -> (forall c, p (LunoGet c) = false) ->
  Forall (fun e => p e = false) (flat_map (venue_calls env) coins).
Proof.
  intros Hk Hl. eapply Forall_impl; [apply venue_calls_are |].
  intros [] Hv; simpl in Hv; try discriminate; auto.
Qed.

(** A run whose settings load, whose two rates are read and whose
    derived rate is computed. *)
Lemma run_reached (env : Env F) (sheet : list (row F)) thr cd coins tok chat r1 r2 r :
  load_settings (setting_values env) = inr (thr, cd, coins, tok, chat) ->
  value (get_xe_rate env "USD" "THB") = inr r1 ->
  value (get_xe_rate env "MYR" "THB") = inr r2 ->
  truediv r1 r2 = inr r ->
  let d := turns env (now env) thr r r1 r2 coins in
  let n := if PyStr.truthy tok && PyStr.truthy chat
           then notify env tok chat r r1 r2 (now env) (alerts d) else (inr tt, []) in
  run env sheet
  = (fst n, {| log_ws := headed sheet ++ rows d;
               trace := header_calls sheet ++ fx_calls ++ flat_map (venue_calls env) coins
                        ++ [AppendRows (rows d)] ++ snd n;
               rows := rows d; alerts := alerts d |}).
Proof.
  intros Hst H1 H2 Hr. rewrite run_cases, Hst. unfold outcome. rewrite H1, H2, Hr.
  rewrite turns_venue_calls. reflexivity.
Qed.

Lemma run_posts (env : Env F) tok chat r r1 r2 ts (als : list (alert F)) :
  Forall (fun e => is_post e = true)
         (snd (if PyStr.truthy tok && PyStr.truthy chat
               then notify env tok chat r r1 r2 ts als else (inr tt, []))).
Proof.
  destruct (PyStr.truthy tok && PyStr.truthy chat); [apply notify_posts | constructor].
Qed.

Lemma one_batch_append (env : Env F) (sheet : list (row F))
      thr cd coins tok chat r1 r2 r :
  load_settings (setting_values env) = inr (thr, cd, coins, tok, chat) ->
  value (get_xe_rate env "USD" "THB") = inr r1 ->
  value (get_xe_rate env "MYR" "THB") = inr r2 ->
  truediv r1 r2 = inr r ->
  List.filter is_append_rows (trace (snd (run env sheet)))
  = [AppendRows (rows (snd (run env sheet)))].
Proof.
  intros Hst H1 H2 Hr.
  pose proof (run_reached env sheet _ _ _ _ _ _ _ _ Hst H1 H2 Hr) as Hrun.
  cbv zeta in Hrun. rewrite Hrun. cbn [snd trace rows].
  rewrite !List.filter_app.
  rewrite (filter_none is_append_rows (header_calls sheet))
    by (destruct sheet; repeat constructor).
  rewrite (filter_none is_append_rows fx_calls) by repeat constructor.
  rewrite (filter_none is_append_rows (flat_map _ _))
    by (apply venue_calls_are_not; reflexivity).
  rewrite (filter_none is_append_rows (snd _))
    by (apply posts_are; [reflexivity | apply run_posts]).
  reflexivity.
Qed.

(** X1. The rows of a run go to the worksheet in one batch: in a run that
    gets past the FX phase the calls are, in order, the header append (on
    an empty worksheet), the two rate fetches with the pause between
    them, venue calls, one [append_rows] carrying every row of the run
    (an empty list when no coin is configured), and then posts only. *)
Theorem rows_written_in_one_batch (env : Env F) (sheet : list (row F))
        (thr cd : F) (coins : list string) (tok chat : string) (r1 r2 r : F) :
  load_settings (setting_values env) = inr (thr, cd, coins, tok, chat) ->
  value (get_xe_rate env "USD" "THB") = inr r1 ->
  value (get_xe_rate env "MYR" "THB") = inr r2 ->
  truediv r1 r2 = inr r ->
  (exists venue posts,
      trace (snd (run env sheet))
      = match sheet with [] => [AppendRow header] | _ => [] end
        ++ [XeGet "USD" "THB"; Sleep 2; XeGet "MYR" "THB"]
        ++ venue ++ [AppendRows (rows (snd (run env sheet)))] ++ posts
      /\ Forall (fun e => is_venue_call e = true) venue
      /\ Forall (fun e => is_post e = true) posts)
  /\ List.filter is_append_rows (trace (snd (run env sheet)))
     = [AppendRows (rows (snd (run env sheet)))]
  /\ (coins = [] -> rows (snd (run env sheet)) = []).
Proof.
  intros Hst H1 H2 Hr.
  split; [| split; [exact (one_batch_append env sheet _ _ _ _ _ _ _ _ Hst H1 H2 Hr) |]].
  - pose proof (run_reached env sheet _ _ _ _ _ _ _ _ Hst H1 H2 Hr) as Hrun.
    cbv zeta in Hrun. rewrite Hrun. cbn [snd trace rows].
    do 2 eexists. split; [reflexivity |]. split; [apply venue_calls_are | apply run_posts].
  - intros ->. destruct (run_loop env sheet _ _ _ _ _ _ _ _ Hst H1 H2 Hr) as [-> _].
    reflexivity.
Qed.

(** X2. Every configured coin is asked of KuCoin once, in the order of the
    setting, and of Luno right after when KuCoin's quote was read: a coin
    that fails keeps no later coin from being fetched. *)
Theorem venues_asked_in_order (env : Env F) (sheet : list (row F))
        (thr cd : F) (coins : list string) (tok chat : string) (r1 r2 r : F) :
  load_settings (setting_values env) = inr (thr, cd, coins, tok, chat) ->
  value (get_xe_rate env "USD" "THB") = inr r1 ->
  value (get_xe_rate env "MYR" "THB") = inr r2 ->
  truediv r1 r2 = inr r ->
  List.filter is_venue_call (trace (snd (run env sheet)))
  = flat_map (fun coin => KucoinGet coin
                          :: match value (kucoin_prices env coin) with
                             | inl _ => []
                             | inr _ => [LunoGet coin]
                             end) coins.
Proof.
  intros Hst H1 H2 Hr.
  pose proof (run_reached env sheet _ _ _ _ _ _ _ _ Hst H1 H2 Hr) as Hrun.
  cbv zeta in Hrun. rewrite Hrun. cbn [snd trace].
  rewrite !List.filter_app.
  rewrite (filter_none is_venue_call (header_calls sheet))
    by (destruct sheet; repeat constructor).
  rewrite (filter_none is_venue_call fx_calls) by repeat constructor.
  rewrite (filter_all is_venue_call (flat_map _ _)) by apply venue_calls_are.
  rewrite (filter_none is_venue_call (snd _))
    by (apply posts_are; [reflexivity | apply run_posts]).
  cbn [List.filter is_venue_call app]. rewrite app_nil_r. reflexivity.
Qed.

(** X3. The FX calls of a run, whatever happens in it: none when the settings
    do not load, the first fetch alone when it raises, and otherwise the
    first fetch, the pause of two seconds and the second fetch, each once. *)
Theorem fx_fetches_and_pause (env : Env F) (sheet : list (row F)) :
  List.filter is_fx_call (trace (snd (run env sheet)))
  = match load_settings (setting_values env) with
    | inl _ => []
    | inr _ =>
        match value (get_xe_rate env "USD" "THB") with
        | inl _ => [XeGet "USD" "THB"]
        | inr _ => [XeGet "USD" "THB"; Sleep 2; XeGet "MYR" "THB"]
        end
    end.
Proof.
  assert (Hh : List.filter is_fx_call (header_calls sheet) = [])
    by (destruct sheet; reflexivity).
  rewrite run_cases. unfold outcome.
  destruct (load_settings (setting_values env)) as [e | [[[[thr cd] coins] tok] chat]].
  { exact Hh. }
  destruct (value (get_xe_rate env "USD" "THB")) as [e | r1].
  { cbn [snd trace extend calls]. rewrite List.filter_app, Hh. reflexivity. }
  destruct (value (get_xe_rate env "MYR" "THB")) as [e | r2].
  { cbn [snd trace extend calls]. rewrite List.filter_app, Hh. reflexivity. }
  destruct (truediv r1 r2) as [e | r].
  { cbn [snd trace extend calls]. rewrite List.filter_app, Hh. reflexivity. }
  cbn [snd trace]. rewrite !List.filter_app, Hh, turns_venue_calls.
  rewrite (filter_none is_fx_call (flat_map _ _))
    by (apply venue_calls_are_not; reflexivity).
  rewrite (filter_none is_fx_call (snd _))
    by (apply posts_are; [reflexivity | apply run_posts]).
  reflexivity.
Qed.

(** X4. A second rate that compares equal to zero: the division of line 99
    raises [ZeroDivisionError] out of [main], after both fetches and
    before any venue is asked; nothing but the header is appended. *)
Theorem zero_divisor_rate_aborts (env : Env F) (sheet : list (row F))
        (thr cd : F) (coins : list string) (tok chat : string) (r1 r2 : F) :
  load_settings (setting_values env) = inr (thr, cd, coins, tok, chat) ->
  value (get_xe_rate env "USD" "THB") = inr r1 ->
  value (get_xe_rate env "MYR" "THB") = inr r2 ->
  fis_zero r2 = true ->
  run env sheet
  = (inl (Exn "ZeroDivisionError" "float division by zero"),
     {| log_ws := match sheet with [] => [header] | _ => sheet end;
        trace := match sheet with [] => [AppendRow header] | _ => [] end
                 ++ [XeGet "USD" "THB"; Sleep 2; XeGet "MYR" "THB"];
        rows := []; alerts := [] |}).
Proof.
  intros Hst H1 H2 Hz. rewrite run_cases, Hst. unfold outcome. rewrite H1, H2.
  unfold truediv. rewrite Hz. unfold extend, calls. cbn [log_ws trace rows alerts].
  rewrite !app_nil_r. reflexivity.
Qed.

(** X5. A threshold cell that [float] does not read: [load_settings] raises
    [ValueError], whose text ends with [repr] of the stripped cell (in
    single quotes, or in double quotes when the cell has a single quote
    and no double one), whatever the other settings are; the run ends
    there, after the header check and before any call to the network. *)
Theorem unreadable_threshold_aborts (env : Env F) (sheet : list (row F)) (v : string) :
  settings_map (setting_values env) !! "ALERT_BPS" = Some v ->
  FloatLiteral.read v = None ->
  load_settings (F := F) (setting_values env)
  = inl (Exn "ValueError" ("could not convert string to float: " +:+ PyStr.repr v))
  /\ run env sheet
     = (inl (Exn "ValueError" ("could not convert string to float: " +:+ PyStr.repr v)),
        {| log_ws := match sheet with [] => [header] | _ => sheet end;
           trace := match sheet with [] => [AppendRow header] | _ => [] end;
           rows := []; alerts := [] |}).
Proof.
  intros Hv Hread.
  assert (Hst : load_settings (F := F) (setting_values env)
                = inl (ValueError ("could not convert string to float: " +:+ PyStr.repr v))).
  { rewrite load_settings_eq. cbn zeta. unfold dict_get at 1. rewrite Hv.
    change (default "200" (Some v)) with v. unfold float_of_string at 1. rewrite Hread. reflexivity. }
  split; [exact Hst |]. rewrite run_cases, Hst. reflexivity.
Qed.

End Phases.

(** ** The loop over the coins *)

Section Coins.

Context {F : Type} `{PyFloat F}.

Lemma turn_rows_of_coin (env : Env F) ts thr r r1 r2 c :
  Forall (fun row => fst (row_key row) = c /\ timestamp_of row = Some ts)
         (rows (turn env ts thr r r1 r2 c))
  /\ 1 <= length (rows (turn env ts thr r r1 r2 c)) <= 2.
Proof.
  unfold turn, failed.
  repeat match goal with
         | |- context [match ?x with inl _ => _ | inr _ => _ end] => destruct x
         | |- context [let '(_, _) := ?x in _] => destruct x
         end; cbn [rows app length]; (split; [repeat constructor | lia]).
Qed.

Lemma turns_rows_length (env : Env F) ts thr r r1 r2 coins :
  length coins <= length (rows (turns env ts thr r r1 r2 coins)) <= 2 * length coins.
Proof.
  rewrite turns_rows. induction coins as [| c coins IH]; simpl; [lia |].
  rewrite length_app. pose proof (proj2 (turn_rows_of_coin env ts thr r r1 r2 c)). lia.
Qed.

(** X6. In a run that gets past the FX phase every configured coin leaves one
    row or two, and every row is that of a configured coin: no coin is
    skipped, whatever the venues answer. *)
Theorem every_coin_recorded (env : Env F) (sheet : list (row F))
        (thr cd : F) (coins : list string) (tok chat : string) (r1 r2 r : F) :
  load_settings (setting_values env) = inr (thr, cd, coins, tok, chat) ->
  value (get_xe_rate env "USD" "THB") = inr r1 ->
  value (get_xe_rate env "MYR" "THB") = inr r2 ->
  truediv r1 r2 = inr r ->
  length coins <= length (rows (snd (run env sheet))) <= 2 * length coins
  /\ forall c, In c coins
               <-> exists row, In row (rows (snd (run env sheet))) /\ fst (row_key row) = c.
Proof.
  intros Hst H1 H2 Hr.
  destruct (run_loop env sheet _ _ _ _ _ _ _ _ Hst H1 H2 Hr) as [-> _].
  split; [apply turns_rows_length |].
  intros c. rewrite turns_rows. split.
  - intros Hc.
    destruct (turn_rows_of_coin env (now env) thr r r1 r2 c) as [Hall Hlen].
    destruct (rows (turn env (now env) thr r r1 r2 c)) as [| row rest] eqn:Hrows;
      [simpl in Hlen; lia |].
    exists row. split.
    + apply in_flat_map. exists c. split; [exact Hc |]. rewrite Hrows. left. reflexivity.
    + inversion Hall as [| ? ? [Hkey _] _]. exact Hkey.
  - intros (row & Hin & Hkey). apply in_flat_map in Hin as (c' & Hc' & Hin).
    destruct (turn_rows_of_coin env (now env) thr r r1 r2 c') as [Hall _].
    rewrite List.Forall_forall in Hall. destruct (Hall row Hin) as [Hkey' _].
    congruence.
Qed.

(** X7. The timestamp is taken once in a run: every row of the run carries
    it in its first cell. *)
Theorem one_timestamp_per_run (env : Env F) (sheet : list (row F)) :
  Forall (fun row => timestamp_of row = Some (now env)) (rows (snd (run env sheet))).
Proof.
  rewrite run_cases. unfold outcome.
  repeat match goal with
         | |- context [match ?x with inl _ => _ | inr _ => _ end] => destruct x
         | |- context [let '(_, _) := ?x in _] => destruct x
         end; cbn [snd rows extend calls app]; try constructor.
  rewrite turns_rows.
  match goal with |- Forall _ (flat_map _ ?l) => induction l as [| c coins IH] end;
    simpl; [constructor |].
  apply Forall_app; split; [| exact IH].
  eapply Forall_impl; [apply turn_rows_of_coin |]. intros row [_ Hts]. exact Hts.
Qed.

(** X8. The Ask direction can fail after the Bid direction was recorded: when
    the middle of Luno's normalized ask and KuCoin's bid compares equal to
    zero, the turn ends normally with the Bid row, its alert if it passes
    the threshold, and an error row for the same coin. *)
Theorem ask_failure_keeps_bid_row (env : Env F) (ts : string) (thr r r1 r2 : F)
        (coin : string) (s : State F) (kb ka lb la nb sb na : F) :
  value (kucoin_prices env coin) = inr (kb, ka) ->
  value (luno_prices_myr env coin) = inr (lb, la) ->
  truediv lb r = inr nb ->
  spread_bps nb ka = inr sb ->
  truediv la r = inr na ->
  fis_zero (fquot (fadd na kb) (of_int 2)) = true ->
  fst (main_coin env ts thr r r1 r2 coin s) = inr tt
  /\ rows (snd (main_coin env ts thr r r1 r2 coin s))
     = rows s
       ++ [[Text ts; Text "Bid"; Text coin; Number lb; Number ka;
            Number r; Number r1; Number r2; Number nb; Number sb; Text ""];
           [Text ts; Text "ERR"; Text coin; Text ""; Text "";
            Number r; Number r1; Number r2; Text ""; Text "";
            Text "float division by zero"]]
  /\ alerts (snd (main_coin env ts thr r r1 r2 coin s))
     = alerts s ++ (if fge sb thr then [(coin, "Bid", sb, nb, ka)] else []).
Proof.
  intros Hku Hlu Hnb Hsb Hna Hmid.
  assert (Hask : spread_bps na kb = inl ZeroDivisionError).
  { unfold spread_bps.
    destruct (truediv (fadd na kb) (of_int 2)) as [e | mid] eqn:Hm.
    - unfold truediv in Hm. destruct (fis_zero (of_int 2)); [| discriminate].
      injection Hm as <-. reflexivity.
    - unfold truediv in Hm. destruct (fis_zero (of_int 2)); [discriminate |].
      injection Hm as <-. rewrite result_inr_bind. unfold truediv. rewrite Hmid. reflexivity. }
  rewrite main_coin_run. unfold turn, side_quote.
  rewrite Hku, Hlu, Hnb, result_inr_bind, Hsb, result_inr_bind.
  rewrite Hna, result_inr_bind, Hask, result_inl_bind.
  cbn [mret result_ret failed fst snd rows alerts extend]. repeat split.
Qed.

(** X9. A derived rate that compares equal to zero (a first rate read as
    zero): no direction can be priced, and every coin leaves exactly one
    error row, carrying the error of its fetch or, when both venues
    answered, that of the division; there is no alert. *)
Theorem zero_derived_rate_all_errors (env : Env F) (sheet : list (row F))
        (thr cd : F) (coins : list string) (tok chat : string) (r1 r2 r : F) :
  load_settings (setting_values env) = inr (thr, cd, coins, tok, chat) ->
  value (get_xe_rate env "USD" "THB") = inr r1 ->
  value (get_xe_rate env "MYR" "THB") = inr r2 ->
  truediv r1 r2 = inr r ->
  fis_zero r = true ->
  fst (run env sheet) = inr tt
  /\ rows (snd (run env sheet))
     = map (fun coin =>
              [Text (now env); Text "ERR"; Text coin; Text ""; Text "";
               Number r; Number r1; Number r2; Text ""; Text "";
               Text (match value (kucoin_prices env coin) with
                     | inl e => str e
                     | inr _ =>
                         match value (luno_prices_myr env coin) with
                         | inl e => str e
                         | inr _ => "float division by zero"
                         end
                     end)]) coins
  /\ alerts (snd (run env sheet)) = [].
Proof.
  intros Hst H1 H2 Hr Hz.
  assert (Hturn : forall c,
             rows (turn env (now env) thr r r1 r2 c)
             = [[Text (now env); Text "ERR"; Text c; Text ""; Text "";
                 Number r; Number r1; Number r2; Text ""; Text "";
                 Text (match value (kucoin_prices env c) with
                       | inl e => str e
                       | inr _ =>
                           match value (luno_prices_myr env c) with
                           | inl e => str e
                           | inr _ => "float division by zero"
                           end
                       end)]]
             /\ alerts (turn env (now env) thr r r1 r2 c) = []).
  { intros c. unfold turn, side_quote, truediv. rewrite Hz.
    destruct (value (kucoin_prices env c)) as [e | [kb ka]]; [split; reflexivity |].
    destruct (value (luno_prices_myr env c)) as [e | [lb la]]; split; reflexivity. }
  pose proof (run_reached env sheet _ _ _ _ _ _ _ _ Hst H1 H2 Hr) as Hrun.
  cbv zeta in Hrun. rewrite Hrun. cbn [fst snd rows alerts]. clear Hrun Hst.
  assert (Hal : alerts (turns env (now env) thr r r1 r2 coins) = []).
  { rewrite turns_alerts. induction coins as [| c coins IH]; simpl; [reflexivity |].
    rewrite (proj2 (Hturn c)). exact IH. }
  split; [| split; [| exact Hal]].
  - rewrite Hal. destruct (PyStr.truthy tok && PyStr.truthy chat); reflexivity.
  - rewrite turns_rows. clear Hal.
    induction coins as [| c coins IH]; simpl; [reflexivity |].
    rewrite (proj1 (Hturn c)), IH. reflexivity.
Qed.

End Coins.

(** ** The notifications *)

Section Notifying.

Context {F : Type} `{PyFloat F}.

Lemma truthy_not_empty (s : string) : s <> "" -> PyStr.truthy s = true.
Proof. destruct s; [congruence | reflexivity]. Qed.

Lemma notify_all_posted (env : Env F) tok chat r r1 r2 ts (als : list (alert F)) :
  Forall (fun a => telegram_post env tok chat (alert_message r r1 r2 ts a) = inr tt) als ->
  notify env tok chat r r1 r2 ts als = (inr tt, map (post_of tok chat r r1 r2 ts) als).
Proof.
  induction 1 as [| a als Ha _ IH]; [reflexivity |].
  cbn [notify map]. rewrite Ha, IH. reflexivity.
Qed.

Lemma notify_stops (env : Env F) tok chat r r1 r2 ts (pre post : list (alert F)) a e :
  Forall (fun b => telegram_post env tok chat (alert_message r r1 r2 ts b) = inr tt) pre ->
  telegram_post env tok chat (alert_message r r1 r2 ts a) = inl e ->
  notify env tok chat r r1 r2 ts (pre ++ a :: post)
  = (inl e, map (post_of tok chat r r1 r2 ts) (pre ++ [a])).
Proof.
  intros Hpre Ha. induction Hpre as [| b pre Hb _ IH].
  - cbn [app notify map]. rewrite Ha. reflexivity.
  - cbn [app notify map]. rewrite Hb. cbn [app] in IH. rewrite IH. reflexivity.
Qed.

Lemma notify_raises (env : Env F) tok chat r r1 r2 ts (als : list (alert F)) :
  fst (notify env tok chat r r1 r2 ts als) = inr tt
  \/ exists a e, In a als
                 /\ telegram_post env tok chat (alert_message r r1 r2 ts a) = inl e
                 /\ fst (notify env tok chat r r1 r2 ts als) = inl e.
Proof.
  induction als as [| a als IH]; [left; reflexivity |].
  cbn [notify].
  destruct (telegram_post env tok chat (alert_message r r1 r2 ts a)) as [e | []] eqn:Ha.
  - right. exists a, e. repeat split; [left; reflexivity | exact Ha].
  - destruct (notify env tok chat r r1 r2 ts als) as [res posts]. cbn [fst] in *.
    destruct IH as [-> | (b & e & Hin & Hb & ->)]; [left; reflexivity |].
    right. exists b, e. repeat split; [right; exact Hin | exact Hb].
Qed.

(** X10. With a token and a chat id, and Telegram accepting the messages, a run
    posts one message for each alert, in the order of the alerts, to that
    chat; the posts are its last calls, made after the batch of rows was
    appended. *)
Theorem one_post_per_alert (env : Env F) (sheet : list (row F))
        (thr cd : F) (coins : list string) (tok chat : string) (r1 r2 r : F) :
  load_settings (setting_values env) = inr (thr, cd, coins, tok, chat) ->
  value (get_xe_rate env "USD" "THB") = inr r1 ->
  value (get_xe_rate env "MYR" "THB") = inr r2 ->
  truediv r1 r2 = inr r ->
  tok <> "" -> chat <> "" ->
  Forall (fun a => telegram_post env tok chat (alert_message r r1 r2 (now env) a) = inr tt)
         (alerts (snd (run env sheet))) ->
  fst (run env sheet) = inr tt
  /\ List.filter is_post (trace (snd (run env sheet)))
     = map (fun a => TelegramPost tok chat (alert_message r r1 r2 (now env) a))
           (alerts (snd (run env sheet)))
  /\ exists before,
      trace (snd (run env sheet))
      = before ++ AppendRows (rows (snd (run env sheet)))
               :: map (fun a => TelegramPost tok chat (alert_message r r1 r2 (now env) a))
                      (alerts (snd (run env sheet))).
Proof.
  intros Hst H1 H2 Hr Htok Hchat.
  pose proof (run_reached env sheet _ _ _ _ _ _ _ _ Hst H1 H2 Hr) as Hrun.
  cbv zeta in Hrun. rewrite Hrun. cbn [fst snd trace rows alerts].
  rewrite (truthy_not_empty tok Htok), (truthy_not_empty chat Hchat). cbn [andb].
  intros Hok. rewrite (notify_all_posted _ _ _ _ _ _ _ _ Hok). cbn [fst snd].
  split; [reflexivity |]. split.
  - rewrite !List.filter_app.
    rewrite (filter_none is_post (header_calls sheet)) by (destruct sheet; repeat constructor).
    rewrite (filter_none is_post fx_calls) by repeat constructor.
    rewrite (filter_none is_post (flat_map _ _)) by (apply venue_calls_are_not; reflexivity).
    cbn [List.filter is_post app]. apply filter_all.
    apply Forall_map. apply Forall_true. reflexivity.
  - exists (header_calls sheet ++ fx_calls ++ flat_map (venue_calls env) coins).
    rewrite <- !app_assoc. reflexivity.
Qed.

(** X11. A post that raises ends the run with its exception: the alerts after
    it are not posted, while the rows of the run are in the worksheet
    already. *)
Theorem failed_post_stops_the_rest (env : Env F) (sheet : list (row F))
        (thr cd : F) (coins : list string) (tok chat : string) (r1 r2 r : F)
        (pre post : list (alert F)) (a : alert F) (e : exn) :
  load_settings (setting_values env) = inr (thr, cd, coins, tok, chat) ->
  value (get_xe_rate env "USD" "THB") = inr r1 ->
  value (get_xe_rate env "MYR" "THB") = inr r2 ->
  truediv r1 r2 = inr r ->
  tok <> "" -> chat <> "" ->
  alerts (snd (run env sheet)) = pre ++ a :: post ->
  Forall (fun b => telegram_post env tok chat (alert_message r r1 r2 (now env) b) = inr tt)
         pre ->
  telegram_post env tok chat (alert_message r r1 r2 (now env) a) = inl e ->
  fst (run env sheet) = inl e
  /\ List.filter is_post (trace (snd (run env sheet)))
     = map (fun b => TelegramPost tok chat (alert_message r r1 r2 (now env) b)) (pre ++ [a])
  /\ log_ws (snd (run env sheet))
     = match sheet with [] => [header] | _ => sheet end ++ rows (snd (run env sheet))
  /\ List.filter is_append_rows (trace (snd (run env sheet)))
     = [AppendRows (rows (snd (run env sheet)))].
Proof.
  intros Hst H1 H2 Hr Htok Hchat.
  pose proof (one_batch_append env sheet _ _ _ _ _ _ _ _ Hst H1 H2 Hr) as Hbatch.
  pose proof (run_reached env sheet _ _ _ _ _ _ _ _ Hst H1 H2 Hr) as Hrun.
  cbv zeta in Hrun. rewrite Hrun in *. cbn [fst snd trace rows alerts log_ws] in *.
  rewrite (truthy_not_empty tok Htok), (truthy_not_empty chat Hchat) in *. cbn [andb] in *.
  intros Hal Hpre Ha. rewrite Hal in *.
  rewrite (notify_stops _ _ _ _ _ _ _ _ _ _ _ Hpre Ha) in *. cbn [fst snd] in *.
  split; [reflexivity |]. split; [| split; [reflexivity | exact Hbatch]].
  rewrite !List.filter_app.
  rewrite (filter_none is_post (header_calls sheet)) by (destruct sheet; repeat constructor).
  rewrite (filter_none is_post fx_calls) by repeat constructor.
  rewrite (filter_none is_post (flat_map _ _)) by (apply venue_calls_are_not; reflexivity).
  cbn [List.filter is_post app]. apply filter_all.
  apply Forall_map. apply Forall_true. reflexivity.
Qed.

(** X12. Once the settings are loaded and the derived rate is computed, nothing
    a venue answers makes the run raise: it ends normally, or with the
    exception of a Telegram post. *)
Theorem venue_errors_contained (env : Env F) (sheet : list (row F))
        (thr cd : F) (coins : list string) (tok chat : string) (r1 r2 r : F) :
  load_settings (setting_values env) = inr (thr, cd, coins, tok, chat) ->
  value (get_xe_rate env "USD" "THB") = inr r1 ->
  value (get_xe_rate env "MYR" "THB") = inr r2 ->
  truediv r1 r2 = inr r ->
  fst (run env sheet) = inr tt
  \/ exists a e,
      In a (alerts (snd (run env sheet)))
      /\ tok <> "" /\ chat <> ""
      /\ telegram_post env tok chat (alert_message r r1 r2 (now env) a) = inl e
      /\ fst (run env sheet) = inl e.
Proof.
  intros Hst H1 H2 Hr.
  pose proof (run_reached env sheet _ _ _ _ _ _ _ _ Hst H1 H2 Hr) as Hrun.
  cbv zeta in Hrun. rewrite Hrun. cbn [fst snd alerts].
  destruct tok as [| t0 tok]; [left; reflexivity |].
  destruct chat as [| c0 chat]; [left; reflexivity |].
  cbn [PyStr.truthy andb].
  destruct (notify_raises env (String t0 tok) (String c0 chat) r r1 r2 (now env)
              (alerts (turns env (now env) thr r r1 r2 coins)))
    as [-> | (a & e & Hin & Ha & ->)]; [left; reflexivity |].
  right. exists a, e. repeat split; try assumption; discriminate.
Qed.

End Notifying.

(** ** The three fetches *)

Section Fetches.

Context {F : Type} `{PyFloat F}.

Lemma kucoin_prices_value (env : Env F) (coin : string) :
  value (kucoin_prices env coin)
  = (j ← kucoin_get env coin;
     d ← getitem j "data"; b ← getitem d "bestBid"; bid ← float_of_json b;
     d ← getitem j "data"; a ← getitem d "bestAsk"; ask ← float_of_json a;
     mret (bid, ask)).
Proof.
  unfold value, kucoin_prices. rewrite bind_run. unfold emit. rewrite lift_bind_lift.
  reflexivity.
Qed.

Lemma luno_prices_myr_value (env : Env F) (coin : string) :
  value (luno_prices_myr env coin)
  = (j ← luno_get env coin;
     b ← getitem j "bid"; bid ← float_of_json b;
     a ← getitem j "ask"; ask ← float_of_json a;
     mret (bid, ask)).
Proof.
  unfold value, luno_prices_myr. rewrite bind_run. unfold emit. rewrite lift_bind_lift.
  reflexivity.
Qed.

(** X13. [get_xe_rate]: the first pattern wins. When it matches, its group is
    converted, whatever the second pattern would find; the second pattern
    is used when the first finds nothing; and when neither matches the
    function raises [RuntimeError], naming the pair. An exception of the
    request is raised as it is. In every case one request was made. *)
Theorem get_xe_rate_first_match (env : Env F) (from_curr to_curr : string) (s : State F) :
  (forall g other,
      xe_get env from_curr to_curr = inr {| labelled := Some g; faded_digits := other |} ->
      fst (get_xe_rate env from_curr to_curr s) = float_of_string g)
  /\ (forall g,
        xe_get env from_curr to_curr = inr {| labelled := None; faded_digits := Some g |} ->
        fst (get_xe_rate env from_curr to_curr s) = float_of_string g)
  /\ (xe_get env from_curr to_curr = inr {| labelled := None; faded_digits := None |} ->
      fst (get_xe_rate env from_curr to_curr s)
      = inl (Exn "RuntimeError" ("XE parse failed for " +:+ from_curr +:+ "->" +:+ to_curr)))
  /\ (forall e, xe_get env from_curr to_curr = inl e ->
                fst (get_xe_rate env from_curr to_curr s) = inl e)
  /\ snd (get_xe_rate env from_curr to_curr s)
     = {| log_ws := log_ws s; trace := trace s ++ [XeGet from_curr to_curr];
          rows := rows s; alerts := alerts s |}.
Proof.
  rewrite get_xe_rate_run. cbn [fst snd]. unfold value, get_xe_rate.
  rewrite bind_run. unfold emit. rewrite lift_bind_run.
  repeat split.
  - intros g other ->. reflexivity.
  - intros g ->. reflexivity.
  - intros ->. reflexivity.
  - intros e ->. reflexivity.
  - unfold extend, calls. cbn [log_ws trace rows alerts]. rewrite !app_nil_r. reflexivity.
Qed.

(** X14. [kucoin_prices] on a document that lacks a field: the subscripts are
    evaluated in the order of the source, so the error is that of the
    first missing one, a [KeyError] whose text is the quoted key, or a
    [TypeError] when ["data"] is null. In [main] the coin then leaves one
    error row with that text, and Luno is not asked for it. *)
Theorem kucoin_prices_missing_field (env : Env F) (coin : string) (d : gmap string (json F)) :
  kucoin_get env coin = inr (JDict d) ->
  (d !! "data" = None ->
   value (kucoin_prices env coin) = inl (Exn "KeyError" "'data'"))
  /\ (d !! "data" = Some JNull ->
      value (kucoin_prices env coin)
      = inl (Exn "TypeError" "'NoneType' object is not subscriptable"))
  /\ (forall dd, d !! "data" = Some (JDict dd) -> dd !! "bestBid" = None ->
                 value (kucoin_prices env coin) = inl (Exn "KeyError" "'bestBid'"))
  /\ (forall dd b bid,
        d !! "data" = Some (JDict dd) -> dd !! "bestBid" = Some b ->
        float_of_json b = inr bid -> dd !! "bestAsk" = None ->
        value (kucoin_prices env coin) = inl (Exn "KeyError" "'bestAsk'"))
  /\ forall (e : exn) (ts : string) (thr r r1 r2 : F) (s : State F),
      value (kucoin_prices env coin) = inl e ->
      main_coin env ts thr r r1 r2 coin s
      = (inr tt,
         {| log_ws := log_ws s; trace := trace s ++ [KucoinGet coin];
            rows := rows s ++ [[Text ts; Text "ERR"; Text coin; Text ""; Text "";
                                Number r; Number r1; Number r2; Text ""; Text "";
                                Text (str e)]];
            alerts := alerts s |}).
Proof.
  intros Hget. rewrite kucoin_prices_value, Hget, result_inr_bind. cbn [getitem].
  repeat split.
  - intros ->. reflexivity.
  - intros ->. reflexivity.
  - intros dd -> Hb. rewrite result_inr_bind. cbn [getitem]. rewrite Hb. reflexivity.
  - intros dd b bid -> Hb Hbid Ha. rewrite !result_inr_bind. cbn [getitem].
    rewrite Hb, result_inr_bind, Hbid, !result_inr_bind. cbn [getitem].
    rewrite Ha. reflexivity.
  - intros e ts thr r r1 r2 s He. rewrite main_coin_run. unfold turn.
    rewrite kucoin_prices_value, Hget, result_inr_bind. cbn [getitem]. rewrite He.
    unfold failed, extend, error_row. cbn [log_ws trace rows alerts app].
    rewrite !app_nil_r. reflexivity.
Qed.

(** X15. [luno_prices_myr]: the pair is [(float(j["bid"]), float(j["ask"]))]
    whatever else the document holds, numbers and numeric strings alike;
    the bid is read and converted first, so a document without ["bid"]
    raises [KeyError] for it whether or not it has ["ask"]. In [main] the
    error row of such a coin comes after both venue calls. *)
Theorem luno_prices_bid_then_ask (env : Env F) (coin : string) (d : gmap string (json F)) :
  luno_get env coin = inr (JDict d) ->
  (forall b a bid ask,
      d !! "bid" = Some b -> float_of_json b = inr bid ->
      d !! "ask" = Some a -> float_of_json a = inr ask ->
      value (luno_prices_myr env coin) = inr (bid, ask))
  /\ (d !! "bid" = None ->
      value (luno_prices_myr env coin) = inl (Exn "KeyError" "'bid'"))
  /\ (forall b e, d !! "bid" = Some b -> float_of_json b = inl e ->
                  value (luno_prices_myr env coin) = inl e)
  /\ (forall b bid, d !! "bid" = Some b -> float_of_json b = inr bid ->
                    d !! "ask" = None ->
                    value (luno_prices_myr env coin) = inl (Exn "KeyError" "'ask'"))
  /\ forall (e : exn) (q : F * F) (ts : string) (thr r r1 r2 : F) (s : State F),
      value (kucoin_prices env coin) = inr q ->
      value (luno_prices_myr env coin) = inl e ->
      main_coin env ts thr r r1 r2 coin s
      = (inr tt,
         {| log_ws := log_ws s; trace := trace s ++ [KucoinGet coin; LunoGet coin];
            rows := rows s ++ [[Text ts; Text "ERR"; Text coin; Text ""; Text "";
                                Number r; Number r1; Number r2; Text ""; Text "";
                                Text (str e)]];
            alerts := alerts s |}).
Proof.
  intros Hget. rewrite luno_prices_myr_value, Hget, result_inr_bind. cbn [getitem].
  repeat split.
  - intros b a bid ask -> Hbid -> Hask.
    rewrite result_inr_bind, Hbid, !result_inr_bind, Hask. reflexivity.
  - intros ->. reflexivity.
  - intros b e -> Hb. rewrite result_inr_bind, Hb. reflexivity.
  - intros b bid -> Hbid ->. rewrite result_inr_bind, Hbid. reflexivity.
  - intros e [kb ka] ts thr r r1 r2 s Hku He. rewrite main_coin_run. unfold turn.
    rewrite Hku, luno_prices_myr_value, Hget, result_inr_bind. cbn [getitem]. rewrite He.
    unfold failed, extend, error_row. cbn [log_ws trace rows alerts app].
    rewrite !app_nil_r. reflexivity.
Qed.

End Fetches.

(** ** The settings *)

Section Stripping.

Lemma is_space_upper_char (c : ascii) :
  PyStr.is_space (PyStr.upper_char c) = PyStr.is_space c.
Proof. destruct c as [[] [] [] [] [] [] [] []]; reflexivity. Qed.

Lemma upper_char_idem (c : ascii) :
  PyStr.upper_char (PyStr.upper_char c) = PyStr.upper_char c.
Proof. destruct c as [[] [] [] [] [] [] [] []]; reflexivity. Qed.

Lemma upper_idem (s : string) : PyStr.upper (PyStr.upper s) = PyStr.upper s.
Proof. induction s as [| c s IH]; simpl; [| rewrite upper_char_idem, IH]; reflexivity. Qed.

Lemma rstrip_cons (c : ascii) (s : string) :
  PyStr.is_space c = false -> PyStr.rstrip (String c s) = String c (PyStr.rstrip s).
Proof. intros Hc. cbn [PyStr.rstrip]. rewrite Hc. destruct (PyStr.rstrip s); reflexivity. Qed.

Lemma rstrip_step (c : ascii) (s : string) :
  PyStr.rstrip (String c s)
  = match PyStr.rstrip s with
    | EmptyString => if PyStr.is_space c then EmptyString else String c EmptyString
    | r => String c r
    end.
Proof. reflexivity. Qed.

Lemma rstrip_idem (s : string) : PyStr.rstrip (PyStr.rstrip s) = PyStr.rstrip s.
Proof.
  induction s as [| c s IH]; [reflexivity |].
  rewrite (rstrip_step c s). destruct (PyStr.rstrip s) as [| a r] eqn:Hr.
  - destruct (PyStr.is_space c) eqn:Hc; [reflexivity |].
    rewrite rstrip_step. cbn [PyStr.rstrip]. rewrite Hc. reflexivity.
  - rewrite rstrip_step, IH. reflexivity.
Qed.

Lemma lstrip_head (s : string) :
  PyStr.lstrip s = "" \/ exists c t, PyStr.lstrip s = String c t /\ PyStr.is_space c = false.
Proof.
  induction s as [| c s IH]; [left; reflexivity |].
  cbn [PyStr.lstrip]. destruct (PyStr.is_space c) eqn:Hc; [exact IH |].
  right. exists c, s. split; [reflexivity | exact Hc].
Qed.

Lemma strip_head (s : string) :
  PyStr.strip s = "" \/ exists c t, PyStr.strip s = String c t /\ PyStr.is_space c = false.
Proof.
  unfold PyStr.strip. destruct (lstrip_head s) as [-> | (c & t & -> & Hc)]; [left; reflexivity |].
  right. rewrite (rstrip_cons c t Hc). eauto.
Qed.

Lemma strip_idem (s : string) : PyStr.strip (PyStr.strip s) = PyStr.strip s.
Proof.
  destruct (strip_head s) as [-> | (c & t & Hs & Hc)]; [reflexivity |].
  unfold PyStr.strip at 1. rewrite Hs. cbn [PyStr.lstrip]. rewrite Hc, <- Hs.
  unfold PyStr.strip. apply rstrip_idem.
Qed.

Lemma lstrip_upper (s : string) : PyStr.lstrip (PyStr.upper s) = PyStr.upper (PyStr.lstrip s).
Proof.
  induction s as [| c s IH]; [reflexivity |].
  cbn [PyStr.upper PyStr.lstrip]. rewrite is_space_upper_char.
  destruct (PyStr.is_space c); [exact IH | reflexivity].
Qed.

Lemma rstrip_upper (s : string) : PyStr.rstrip (PyStr.upper s) = PyStr.upper (PyStr.rstrip s).
Proof.
  induction s as [| c s IH]; [reflexivity |].
  cbn [PyStr.upper]. rewrite !rstrip_step, IH, is_space_upper_char.
  destruct (PyStr.rstrip s); [destruct (PyStr.is_space c) |]; reflexivity.
Qed.

Lemma strip_upper (s : string) : PyStr.strip (PyStr.upper s) = PyStr.upper (PyStr.strip s).
Proof. unfold PyStr.strip. rewrite lstrip_upper, rstrip_upper. reflexivity. Qed.

Lemma truthy_empty (s : string) : PyStr.truthy s = false <-> s = "".
Proof. destruct s; simpl; split; congruence. Qed.

Lemma truthy_true (s : string) : PyStr.truthy s = true <-> s <> "".
Proof. destruct s; simpl; split; congruence. Qed.

Lemma upper_empty (s : string) : PyStr.upper s = "" <-> s = "".
Proof. destruct s; simpl; split; congruence. Qed.

End Stripping.

Section Settings.

Lemma settings_map_nil (k : string) : settings_map [] !! k = None.
Proof. apply lookup_empty. Qed.

Lemma settings_map_snoc (values : list (list string)) (r : list string) :
  settings_map (values ++ [r])
  = match r with
    | k :: v :: _ =>
        if PyStr.truthy (PyStr.strip k)
        then <[PyStr.strip k := PyStr.strip v]> (settings_map values)
        else settings_map values
    | _ => settings_map values
    end.
Proof. unfold settings_map. rewrite foldl_snoc. reflexivity. Qed.

Lemma settings_map_snoc_lookup (values : list (list string)) (r : list string) (k : string) :
  settings_map (values ++ [r]) !! k
  = match setting_row k r with
    | Some v => Some v
    | None => settings_map values !! k
    end.
Proof.
  rewrite settings_map_snoc. unfold setting_row.
  destruct r as [| k0 [| v0 rest]]; try reflexivity.
  destruct (PyStr.truthy (PyStr.strip k0)); [| reflexivity]. cbn [andb].
  destruct (String.eqb_spec (PyStr.strip k0) k) as [-> | Hne].
  - apply lookup_insert_eq.
  - apply lookup_insert_ne. exact Hne.
Qed.

Lemma setting_row_stripped (k v : string) (r : list string) :
  setting_row k r = Some v -> k <> "" /\ PyStr.strip k = k /\ PyStr.strip v = v.
Proof.
  unfold setting_row. destruct r as [| k0 [| v0 rest]]; try discriminate.
  destruct (PyStr.truthy (PyStr.strip k0)) eqn:Ht; [| discriminate]. cbn [andb].
  destruct (String.eqb_spec (PyStr.strip k0) k) as [<- | Hne]; [| discriminate].
  intros [= <-]. split; [apply truthy_true; exact Ht |].
  split; apply strip_idem.
Qed.

(** X16. The dictionary of [load_settings]: the value of a key is that of the
    last row that names it, and a key has no value when no row names it.
    A row names a key when it has two cells and its first cell is the key
    up to surrounding white space, and is not blank; its value is the
    second cell, stripped; further cells are not read. *)
Theorem last_setting_row_wins (values : list (list string)) (k : string) :
  (forall v,
      settings_map values !! k = Some v
      <-> exists before r after,
          values = before ++ r :: after
          /\ setting_row k r = Some v
          /\ Forall (fun r' => setting_row k r' = None) after)
  /\ (settings_map values !! k = None
      <-> Forall (fun r => setting_row k r = None) values).
Proof.
  induction values as [| r values [IHsome IHnone]] using rev_ind.
  - split.
    + intros v. split; [intros Hv; rewrite settings_map_nil in Hv; discriminate |].
      intros (before & r & after & Heq & _). destruct before; discriminate.
    + split; [constructor | intros _; apply settings_map_nil].
  - split.
    + intros v. rewrite settings_map_snoc_lookup.
      destruct (setting_row k r) as [v' |] eqn:Hrow.
      * split.
        -- intros [= ->]. exists values, r, []. repeat split; [exact Hrow | constructor].
        -- intros (before & r0 & after & Heq & Hr0 & Hafter).
           destruct after as [| x after _] using rev_ind.
           ++ apply app_inj_tail in Heq as [_ ->]. congruence.
           ++ rewrite app_comm_cons, app_assoc in Heq. apply app_inj_tail in Heq as [_ ->].
              apply Forall_app in Hafter as [_ Hx]. inversion Hx; congruence.
      * rewrite IHsome. split.
        -- intros (before & r0 & after & -> & Hr0 & Hafter).
           exists before, r0, (after ++ [r]). rewrite <- app_assoc. repeat split; [exact Hr0 |].
           apply Forall_app; split; [exact Hafter | repeat constructor; exact Hrow].
        -- intros (before & r0 & after & Heq & Hr0 & Hafter).
           destruct after as [| x after _] using rev_ind.
           ++ apply app_inj_tail in Heq as [_ ->]. congruence.
           ++ rewrite app_comm_cons, app_assoc in Heq. apply app_inj_tail in Heq as [-> ->].
              apply Forall_app in Hafter as [Hafter _]. exists before, r0, after. auto.
    + rewrite settings_map_snoc_lookup, Forall_app.
      destruct (setting_row k r) as [v' |] eqn:Hrow.
      * split; [discriminate |]. intros [_ Hr]. inversion Hr; congruence.
      * rewrite IHnone. split; [intros Hv; split; [exact Hv | repeat constructor; exact Hrow] |].
        intros [Hv _]. exact Hv.
Qed.

Lemma settings_map_stripped (values : list (list string)) (k v : string) :
  settings_map values !! k = Some v ->
  k <> "" /\ PyStr.strip k = k /\ PyStr.strip v = v.
Proof.
  induction values as [| r values IH] using rev_ind.
  - intros Hv. rewrite settings_map_nil in Hv. discriminate.
  - rewrite settings_map_snoc_lookup.
    destruct (setting_row k r) as [v' |] eqn:Hrow; [| exact IH].
    intros [= ->]. exact (setting_row_stripped k v r Hrow).
Qed.

(** X17. No key of the dictionary is empty, and keys and values carry no white
    space at either end, whatever the worksheet holds; so a key is found
    under its stripped name only. *)
Theorem settings_are_stripped (values : list (list string)) (k v : string) :
  settings_map values !! k = Some v ->
  k <> "" /\ PyStr.strip k = k /\ PyStr.strip v = v
  /\ forall k', PyStr.strip k' <> k' -> settings_map values !! k' = None.
Proof.
  intros Hv. destruct (settings_map_stripped values k v Hv) as (Hk & Hsk & Hsv).
  repeat split; try assumption.
  intros k' Hk'. destruct (settings_map values !! k') as [v' |] eqn:Hv'; [| reflexivity].
  destruct (settings_map_stripped values k' v' Hv') as (_ & Hs & _). contradiction.
Qed.

End Settings.

Section Loading.

Context {F : Type} `{PyFloat F}.

(** X18. The coins [load_settings] returns are the fields of the COINS value
    between commas that are not blank, stripped and in upper case: none is
    empty, none has white space at either end, none has a lower-case
    letter; the two Telegram settings are stripped too. *)
Theorem coins_are_normalised (values : list (list string)) (thr cd : F)
        (coins : list string) (tok chat : string) :
  load_settings values = inr (thr, cd, coins, tok, chat) ->
  Forall (fun c => c <> "" /\ PyStr.strip c = c /\ PyStr.upper c = c) coins
  /\ length coins
     <= length (PyStr.split "," (default "BTC,ETH" (settings_map values !! "COINS")))
  /\ PyStr.strip tok = tok /\ PyStr.strip chat = chat.
Proof.
  rewrite load_settings_eq. cbn zeta.
  destruct (float_of_string _) as [e | thr0]; [discriminate |].
  destruct (float_of_string _) as [e | cd0]; [discriminate |].
  intros [= _ _ <- <- <-]. split; [| split; [| split]].
  - apply Forall_map. apply List.Forall_forall. intros c Hc.
    apply List.filter_In in Hc as [_ Hc]. apply truthy_true in Hc.
    split; [| split].
    + intros Hu. exact (Hc (proj1 (upper_empty _) Hu)).
    + rewrite strip_upper, strip_idem. reflexivity.
    + apply upper_idem.
  - rewrite length_map. apply List.filter_length_le.
  - unfold dict_get. destruct (settings_map values !! "TELEGRAM_BOT_TOKEN") as [v |] eqn:Hv;
      [exact (proj2 (proj2 (settings_map_stripped values _ _ Hv))) | reflexivity].
  - unfold dict_get. destruct (settings_map values !! "TELEGRAM_CHAT_ID") as [v |] eqn:Hv;
      [exact (proj2 (proj2 (settings_map_stripped values _ _ Hv))) | reflexivity].
Qed.

(** X19. A key that no row names takes its default: 200 for the threshold, 10
    for the cooldown, BTC and ETH for the coins, the empty string for the
    two Telegram settings. *)
Theorem absent_settings_default (values : list (list string)) (thr cd : F)
        (coins : list string) (tok chat : string) :
  load_settings values = inr (thr, cd, coins, tok, chat) ->
  (settings_map values !! "ALERT_BPS" = None -> float_of_string "200" = inr thr)
  /\ (settings_map values !! "COOLDOWN_MIN" = None -> float_of_string "10" = inr cd)
  /\ (settings_map values !! "COINS" = None -> coins = ["BTC"; "ETH"])
  /\ (settings_map values !! "TELEGRAM_BOT_TOKEN" = None -> tok = "")
  /\ (settings_map values !! "TELEGRAM_CHAT_ID" = None -> chat = "")
  /\ float_of_string "200" = inr 200%Q
  /\ float_of_string "10" = inr 10%Q
  /\ float_of_string "200" = inr 200%float
  /\ float_of_string "10" = inr 10%float.
Proof.
  rewrite load_settings_eq. cbn zeta. unfold dict_get.
  destruct (float_of_string (default "200" _)) as [e | thr0] eqn:Hthr; [discriminate |].
  destruct (float_of_string (default "10" _)) as [e | cd0] eqn:Hcd; [discriminate |].
  intros [= <- <- <- <- <-].
  split; [intros Hn; rewrite Hn in Hthr; exact Hthr |].
  split; [intros Hn; rewrite Hn in Hcd; exact Hcd |].
  split; [intros ->; reflexivity |].
  split; [intros ->; reflexivity |].
  split; [intros ->; reflexivity |].
  repeat split; vm_compute; reflexivity.
Qed.

(** X20. A COINS cell that is present but holds no symbol (it is blank, or has
    commas and white space only) does not fall back to the default: the
    list of coins is empty. The run then asks no venue and appends an empty
    batch. *)
Theorem blank_coins_no_default (env : Env F) (sheet : list (row F)) (v : string)
        (thr cd : F) (coins : list string) (tok chat : string) (r1 r2 r : F) :
  settings_map (setting_values env) !! "COINS" = Some v ->
  Forall (fun field => PyStr.strip field = "") (PyStr.split "," v) ->
  load_settings (setting_values env) = inr (thr, cd, coins, tok, chat) ->
  value (get_xe_rate env "USD" "THB") = inr r1 ->
  value (get_xe_rate env "MYR" "THB") = inr r2 ->
  truediv r1 r2 = inr r ->
  coins = []
  /\ run env sheet
     = (inr tt,
        {| log_ws := match sheet with [] => [header] | _ => sheet end;
           trace := match sheet with [] => [AppendRow header] | _ => [] end
                    ++ [XeGet "USD" "THB"; Sleep 2; XeGet "MYR" "THB"; AppendRows []];
           rows := []; alerts := [] |}).
Proof.
  intros Hv Hblank Hst H1 H2 Hr.
  assert (Hcoins : coins = []).
  { rewrite load_settings_eq in Hst. cbn zeta in Hst.
    destruct (float_of_string _) as [e | thr0]; [discriminate |].
    destruct (float_of_string _) as [e | cd0]; [discriminate |].
    injection Hst as _ _ <- _ _. unfold dict_get. rewrite Hv.
    change (default "BTC,ETH" (Some v)) with v.
    rewrite (filter_none _ (PyStr.split "," v)); [reflexivity |].
    eapply Forall_impl; [exact Hblank |]. intros field ->. reflexivity. }
  split; [exact Hcoins |]. subst coins.
  pose proof (run_reached env sheet _ _ _ _ _ _ _ _ Hst H1 H2 Hr) as Hrun.
  cbv zeta in Hrun. rewrite Hrun. cbn [turns foldr start rows alerts flat_map].
  assert (Hn : (if PyStr.truthy tok && PyStr.truthy chat
                then notify env tok chat r r1 r2 (now env) [] else (inr tt, []))
               = (inr tt, [])) by (destruct (PyStr.truthy tok && PyStr.truthy chat); reflexivity).
  rewrite Hn. cbn [fst snd]. rewrite !app_nil_r. destruct sheet; reflexivity.
Qed.

End Loading.

(** ** Values that are not numbers *)

Section NotANumber.

Lemma binary64_nan_compare (t s : float) :
  PrimFloat.eqb t t = false ->
  PrimFloat.leb t s = false /\ PrimFloat.leb s t = false.
Proof.
  rewrite FloatAxioms.eqb_spec, !FloatAxioms.leb_spec. intros Hnan.
  assert (Ht : Prim2SF t = S754_nan).
  { destruct (Prim2SF t) eqn:Hp; try reflexivity;
      rewrite SFeqb_refl in Hnan by discriminate; discriminate. }
  rewrite Ht. split; [reflexivity |]. destruct (Prim2SF s); reflexivity.
Qed.

(** X21. In binary64 a threshold that is not a number (the setting ["nan"])
    silences a run: [spr >= alert_bps] is false for every spread, so there
    is no alert and no post, while the rows are recorded as usual. A spread
    that is not a number passes no threshold either. *)
Theorem nan_threshold_never_alerts (env : Env float) (sheet : list (row float))
        (thr cd : float) (coins : list string) (tok chat : string) :
  load_settings (setting_values env) = inr (thr, cd, coins, tok, chat) ->
  PrimFloat.eqb thr thr = false ->
  alerts (snd (run env sheet)) = []
  /\ List.filter is_post (trace (snd (run env sheet))) = []
  /\ log_ws (snd (run env sheet))
     = match sheet with [] => [header] | _ => sheet end ++ rows (snd (run env sheet))
  /\ (forall (t s n k : float) (c side : string),
        PrimFloat.eqb s s = false -> evaluate t (c, side, s, n, k) = [])
  /\ exists t : float, float_of_string "nan" = inr t /\ PrimFloat.eqb t t = false.
Proof.
  intros Hst Hnan.
  assert (Heval : forall a : alert float, evaluate thr a = []).
  { intros [[[[c side] s] n] k]. unfold evaluate.
    change (fge s thr) with (PrimFloat.leb thr s).
    rewrite (proj1 (binary64_nan_compare thr s Hnan)). reflexivity. }
  assert (Hal : alerts (snd (run env sheet)) = []).
  { rewrite (proj1 (run_alerts env sheet _ _ _ _ _ Hst)).
    induction (observations (rows (snd (run env sheet)))) as [| a l IH]; [reflexivity |].
    cbn [flat_map]. rewrite Heval. exact IH. }
  split; [exact Hal |]. split; [| split; [apply run_log_ws | split]].
  - revert Hal. rewrite run_cases, Hst. unfold outcome.
    assert (Hh : Forall (fun e : event float => is_post e = false) (header_calls sheet))
      by (destruct sheet; repeat constructor).
    destruct (value (get_xe_rate env "USD" "THB")) as [e | r1].
    { intros _. apply filter_none. cbn [snd trace extend calls].
      apply Forall_app; split; [exact Hh | repeat constructor]. }
    destruct (value (get_xe_rate env "MYR" "THB")) as [e | r2].
    { intros _. apply filter_none. cbn [snd trace extend calls].
      apply Forall_app; split; [exact Hh | repeat constructor]. }
    destruct (truediv r1 r2) as [e | r].
    { intros _. apply filter_none. cbn [snd trace extend calls].
      apply Forall_app; split; [exact Hh | repeat constructor]. }
    cbn [snd trace alerts]. intros ->. apply filter_none.
    apply Forall_app; split; [exact Hh |].
    apply Forall_app; split; [repeat constructor |].
    apply Forall_app; split; [apply turns_no_post |].
    destruct (PyStr.truthy tok && PyStr.truthy chat); repeat constructor.
  - intros t s n k c side Hs. unfold evaluate.
    change (fge s t) with (PrimFloat.leb t s).
    rewrite (proj2 (binary64_nan_compare s t Hs)). reflexivity.
  - eexists. split; vm_compute; reflexivity.
Qed.

End NotANumber.

(** ** The text of a rate *)

Section Groups.

Lemma digit_not_space (c : ascii) :
  Group.is_digit c = true -> FloatLiteral.is_space c = false.
Proof. destruct c as [[] [] [] [] [] [] [] []]; intros Hd; try discriminate Hd; reflexivity. Qed.

Lemma digit_val_digit (c : ascii) :
  Group.is_digit c = true -> exists d, FloatLiteral.digit_val c = Some d /\ (0 <= d)%Z.
Proof.
  unfold Group.is_digit, FloatLiteral.digit_val.
  destruct (_ && _)%bool; [| discriminate]. intros _. eexists. split; [reflexivity | lia].
Qed.

Lemma digit_head (c : ascii) (s : string) :
  Group.is_digit c = true ->
  FloatLiteral.sign (String c s) = (false, String c s)
  /\ String.eqb (PyStr.upper (String c s)) "INF" = false
  /\ String.eqb (PyStr.upper (String c s)) "INFINITY" = false
  /\ String.eqb (PyStr.upper (String c s)) "NAN" = false.
Proof.
  destruct c as [[] [] [] [] [] [] [] []]; intros Hd; try discriminate Hd;
    repeat split; reflexivity.
Qed.

Lemma decimal_step (c : ascii) (s : string) :
  Group.decimal (String c s)
  = Group.is_digit c
    && match s with
       | String c' s' =>
           if Ascii.eqb c' "." then PyStr.truthy s' && Group.all_digits s'
           else Group.decimal s
       | EmptyString => false
       end.
Proof.
  destruct s as [| c' s']; [reflexivity |].
  destruct c' as [[] [] [] [] [] [] [] []]; reflexivity.
Qed.

Lemma append_nil_l (s : string) : "" +:+ s = s.
Proof. reflexivity. Qed.

Lemma append_cons (c : ascii) (s t : string) : String c s +:+ t = String c (s +:+ t).
Proof. reflexivity. Qed.

Lemma append_nil_r (s : string) : s +:+ "" = s.
Proof. induction s as [| c s IH]; [reflexivity |]. rewrite append_cons, IH. reflexivity. Qed.

(** A group is digits, a point, digits, with a digit on each side. *)
Lemma decimal_shape (s : string) :
  Group.decimal s = true ->
  exists c1 ds1 c2 ds2,
    s = String c1 (ds1 +:+ String "." (String c2 ds2))
    /\ Group.is_digit c1 = true /\ Group.all_digits ds1 = true
    /\ Group.is_digit c2 = true /\ Group.all_digits ds2 = true.
Proof.
  induction s as [| c s IH]; [discriminate |].
  rewrite decimal_step. intros Hd. apply andb_prop in Hd as [Hc Hrest].
  destruct s as [| c' s']; [discriminate |].
  destruct (Ascii.eqb_spec c' ".") as [-> | Hne].
  - apply andb_prop in Hrest as [Hne Hds]. destruct s' as [| c2 ds2]; [discriminate |].
    cbn [Group.all_digits] in Hds. apply andb_prop in Hds as [Hc2 Hds2].
    exists c, "", c2, ds2. repeat split; assumption.
  - destruct (IH Hrest) as (c1 & ds1 & c2 & ds2 & Heq & Hc1 & Hds1 & Hc2 & Hds2).
    exists c, (String c1 ds1), c2, ds2. rewrite Heq. repeat split; try assumption.
    cbn [Group.all_digits]. rewrite Hc1, Hds1. reflexivity.
Qed.

Lemma float_rstrip_cons (c : ascii) (s : string) :
  FloatLiteral.is_space c = false ->
  FloatLiteral.rstrip (String c s) = String c (FloatLiteral.rstrip s).
Proof.
  intros Hc. cbn [FloatLiteral.rstrip]. rewrite Hc.
  destruct (FloatLiteral.rstrip s); reflexivity.
Qed.

Lemma rstrip_digits (s : string) : Group.all_digits s = true -> FloatLiteral.rstrip s = s.
Proof.
  induction s as [| c s IH]; [reflexivity |].
  cbn [Group.all_digits]. intros Hd. apply andb_prop in Hd as [Hc Hs].
  rewrite (float_rstrip_cons c s (digit_not_space c Hc)), (IH Hs). reflexivity.
Qed.

Lemma rstrip_group (ds1 ds2 : string) (c2 : ascii) :
  Group.all_digits ds1 = true -> Group.is_digit c2 = true -> Group.all_digits ds2 = true ->
  FloatLiteral.rstrip (ds1 +:+ String "." (String c2 ds2))
  = ds1 +:+ String "." (String c2 ds2).
Proof.
  intros Hds1 Hc2 Hds2. induction ds1 as [| c ds1 IH].
  - rewrite append_nil_l. rewrite (float_rstrip_cons "." _ eq_refl).
    rewrite (float_rstrip_cons c2 ds2 (digit_not_space c2 Hc2)), (rstrip_digits ds2 Hds2).
    reflexivity.
  - cbn [Group.all_digits] in Hds1. apply andb_prop in Hds1 as [Hc Hds1].
    rewrite append_cons, (float_rstrip_cons c _ (digit_not_space c Hc)), (IH Hds1).
    reflexivity.
Qed.

Lemma digitpart_tail_digits (ds rest : string) :
  Group.all_digits ds = true ->
  rest = "" \/ (exists t, rest = String "." t) ->
  forall v n, (0 <= v)%Z ->
    exists v' n', (0 <= v')%Z
                  /\ FloatLiteral.digitpart_tail v n (ds +:+ rest) = (v', n', rest).
Proof.
  intros Hds Hrest. induction ds as [| c ds IH]; intros v n Hv.
  - exists v, n. split; [exact Hv |]. rewrite append_nil_l.
    destruct Hrest as [-> | [t ->]]; reflexivity.
  - cbn [Group.all_digits] in Hds. apply andb_prop in Hds as [Hc Hds].
    destruct (digit_val_digit c Hc) as (d & Hd & Hd0).
    rewrite append_cons. cbn [FloatLiteral.digitpart_tail]. rewrite Hd.
    apply (IH Hds). lia.
Qed.

(** [float] reads a group as a decimal without sign or exponent. *)
Lemma read_group (g : string) :
  Group.decimal g = true ->
  exists v k, (0 <= v)%Z /\ FloatLiteral.read g = Some (FloatLiteral.Num false v k).
Proof.
  intros Hg. destruct (decimal_shape g Hg) as (c1 & ds1 & c2 & ds2 & -> & Hc1 & Hds1 & Hc2 & Hds2).
  assert (Hstrip : FloatLiteral.strip (String c1 (ds1 +:+ String "." (String c2 ds2)))
                   = String c1 (ds1 +:+ String "." (String c2 ds2))).
  { unfold FloatLiteral.strip. cbn [FloatLiteral.lstrip]. rewrite (digit_not_space c1 Hc1).
    rewrite (float_rstrip_cons c1 _ (digit_not_space c1 Hc1)), (rstrip_group ds1 ds2 c2); auto. }
  destruct (digit_head c1 (ds1 +:+ String "." (String c2 ds2)) Hc1) as (Hsign & Hinf & Hinfty & Hnan).
  destruct (digit_val_digit c1 Hc1) as (d1 & Hd1 & Hd10).
  destruct (digit_val_digit c2 Hc2) as (d2 & Hd2 & Hd20).
  destruct (digitpart_tail_digits ds1 (String "." (String c2 ds2)) Hds1
              (or_intror (ex_intro _ _ eq_refl)) (10 * 0 + d1)%Z 1%Z ltac:(lia))
    as (v1 & n1 & Hv1 & Htail1).
  destruct (digitpart_tail_digits ds2 "" Hds2 (or_introl eq_refl) (10 * v1 + d2)%Z 1%Z ltac:(lia))
    as (v2 & n2 & Hv2 & Htail2).
  rewrite append_nil_r in Htail2.
  exists v2, (0 - n2)%Z. split; [exact Hv2 |].
  unfold FloatLiteral.read. rewrite Hstrip, Hsign, Hinf, Hinfty, Hnan. cbn [orb].
  unfold FloatLiteral.number.
  cbn [FloatLiteral.digitpart]. rewrite Hd1, Htail1.
  cbn [FloatLiteral.digitpart]. rewrite Hd2, Htail2.
  reflexivity.
Qed.

(** X22. The text a search of [get_xe_rate] captures is always read by
    [float]: a rate fetch whose page matches one of the two patterns
    returns a number, which is not negative, and raises no [ValueError].
    In binary64 the text is read too. *)
Theorem matched_rate_is_read (env : Env Q) (from_curr to_curr : string)
        (page : xe_page) (g : string) :
  xe_get env from_curr to_curr = inr page ->
  labelled page = Some g \/ (labelled page = None /\ faded_digits page = Some g) ->
  Group.decimal g = true ->
  (exists q : Q, value (get_xe_rate env from_curr to_curr) = inr q /\ (0 <= q)%Q)
  /\ exists x : float, float_of_string g = inr x.
Proof.
  intros Hget Hgroup Hg. destruct (read_group g Hg) as (v & k & Hv & Hread).
  split.
  - exists (Qred (inject_Z v * Qpower (10 # 1) k)). split.
    + unfold value, get_xe_rate. rewrite bind_run. unfold emit.
      rewrite lift_bind_run, Hget.
      destruct Hgroup as [-> | [-> ->]]; unfold lift, float_of_string; rewrite Hread;
        reflexivity.
    + rewrite Qred_correct. apply Qmult_le_0_compat.
      * change 0%Q with (inject_Z 0). rewrite <- Zle_Qle. exact Hv.
      * apply Qpower.Qpower_0_le. discriminate.
  - eexists. unfold float_of_string. rewrite Hread. reflexivity.
Qed.

End Groups.

(** ** Run after run *)

Section Again.

Context {F : Type} `{PyFloat F}.

Lemma run_after_header (env : Env F) (sheet sheet' : list (row F)) :
  fst (run env sheet) = fst (run env sheet')
  /\ rows (snd (run env sheet)) = rows (snd (run env sheet'))
  /\ alerts (snd (run env sheet)) = alerts (snd (run env sheet'))
  /\ exists rest, trace (snd (run env sheet)) = header_calls sheet ++ rest
                  /\ trace (snd (run env sheet')) = header_calls sheet' ++ rest.
Proof.
  rewrite !run_cases. unfold outcome.
  destruct (load_settings (setting_values env)) as [e | [[[[thr cd] coins] tok] chat]].
  { repeat split. exists []. rewrite !app_nil_r. split; reflexivity. }
  destruct (value (get_xe_rate env "USD" "THB")) as [e | r1].
  { repeat split. eexists. split; reflexivity. }
  destruct (value (get_xe_rate env "MYR" "THB")) as [e | r2].
  { repeat split. eexists. split; reflexivity. }
  destruct (truediv r1 r2) as [e | r].
  { repeat split. eexists. split; reflexivity. }
  repeat split. eexists. split; reflexivity.
Qed.

(** X23. A run does not read the rows of the worksheet: its outcome, its rows,
    its alerts and its calls after the header check are the same on any
    two worksheets. Nothing is compared with earlier rows, so a second run
    in the same world appends the same rows again, after those of the
    first, and posts the same alerts again. *)
Theorem rerun_appends_again (env : Env F) (sheet sheet' : list (row F)) :
  fst (run env sheet) = fst (run env sheet')
  /\ rows (snd (run env sheet)) = rows (snd (run env sheet'))
  /\ alerts (snd (run env sheet)) = alerts (snd (run env sheet'))
  /\ List.filter (fun e => negb (is_append_row e)) (trace (snd (run env sheet)))
     = List.filter (fun e => negb (is_append_row e)) (trace (snd (run env sheet')))
  /\ log_ws (snd (run env (log_ws (snd (run env sheet)))))
     = match sheet with [] => [header] | _ => sheet end
       ++ rows (snd (run env sheet)) ++ rows (snd (run env sheet)).
Proof.
  destruct (run_after_header env sheet sheet') as (Hres & Hrows & Hal & rest & Ht & Ht').
  split; [exact Hres |]. split; [exact Hrows |]. split; [exact Hal |]. split.
  - rewrite Ht, Ht', !List.filter_app.
    assert (Hh : forall sh : list (row F),
               List.filter (fun e => negb (is_append_row e)) (header_calls sh) = [])
      by (intros [| ? ?]; reflexivity).
    rewrite !Hh. reflexivity.
  - rewrite run_log_ws.
    destruct (run_after_header env (log_ws (snd (run env sheet))) sheet) as (_ & -> & _).
    destruct (run_log_ws_not_empty env sheet) as (r0 & rs0 & Hne). rewrite Hne.
    cbn [headed]. rewrite <- Hne, run_log_ws, <- app_assoc. reflexivity.
Qed.

End Again.

(** ** These properties at the sample worlds *)

Section Instances.

Local Open Scope Q_scope.

Lemma rows_written_in_one_batch_witness :
  List.filter is_append_rows (trace (snd (run Sample.env [])))
  = [AppendRows (rows (snd (run Sample.env [])))].
Proof.
  refine (proj1 (proj2 (rows_written_in_one_batch Sample.env [] 200 10 ["BTC"; "XRP"; "ETH"]
                          "tok" "42" (69 # 2) (41 # 5) ((69 # 2) / (41 # 5)) _ _ _ _)));
    vm_compute; reflexivity.
Defined.

Lemma venues_asked_in_order_witness :
  List.filter is_venue_call (trace (snd (run Sample.env [])))
  = flat_map (fun coin => KucoinGet coin
                          :: match value (kucoin_prices Sample.env coin) with
                             | inl _ => []
                             | inr _ => [LunoGet coin]
                             end) ["BTC"; "XRP"; "ETH"].
Proof.
  apply (venues_asked_in_order Sample.env [] 200 10 ["BTC"; "XRP"; "ETH"] "tok" "42"
                               (69 # 2) (41 # 5) ((69 # 2) / (41 # 5)));
    vm_compute; reflexivity.
Defined.

Lemma zero_divisor_rate_aborts_witness :
  run (Edge.with_rates "34.50" "0.00") [[Text "kept"]]
  = (inl (Exn "ZeroDivisionError" "float division by zero"),
     {| log_ws := [[Text "kept"]];
        trace := [] ++ [XeGet "USD" "THB"; Sleep 2; XeGet "MYR" "THB"];
        rows := []; alerts := [] |}).
Proof.
  apply (zero_divisor_rate_aborts (Edge.with_rates "34.50" "0.00") [[Text "kept"]] 200 10
                                  ["BTC"; "XRP"; "ETH"] "tok" "42" (69 # 2) 0);
    vm_compute; reflexivity.
Defined.

Lemma unreadable_threshold_aborts_witness :
  (load_settings (F := Q) Edge.values_bad_threshold
   = inl (Exn "ValueError" ("could not convert string to float: " +:+ PyStr.repr "2oo"))
   /\ run (with_settings Sample.env Edge.values_bad_threshold) []
      = (inl (Exn "ValueError" ("could not convert string to float: " +:+ PyStr.repr "2oo")),
         {| log_ws := [header]; trace := [AppendRow header]; rows := []; alerts := [] |}))
  /\ (load_settings (F := float) Edge.values_quoted_threshold
      = inl (Exn "ValueError"
                 ("could not convert string to float: " +:+ PyStr.repr "it's"))
      /\ run (with_settings Edge.env_nan Edge.values_quoted_threshold) [[Text "kept"]]
         = (inl (Exn "ValueError"
                     ("could not convert string to float: " +:+ PyStr.repr "it's")),
            {| log_ws := [[Text "kept"]]; trace := []; rows := []; alerts := [] |}))
  /\ "could not convert string to float: " +:+ PyStr.repr "2oo"
     = "could not convert string to float: '2oo'"
  /\ PyStr.repr "it's" = String PyStr.dquote ("it's" +:+ String PyStr.dquote "").
Proof.
  split; [| split; [| split; vm_compute; reflexivity]].
  - apply (unreadable_threshold_aborts (with_settings Sample.env Edge.values_bad_threshold) []
                                       "2oo");
      vm_compute; reflexivity.
  - apply (unreadable_threshold_aborts (with_settings Edge.env_nan Edge.values_quoted_threshold)
                                       [[Text "kept"]] "it's");
      vm_compute; reflexivity.
Defined.

Lemma every_coin_recorded_witness :
  (3 <= length (rows (snd (run Sample.env []))) <= 2 * 3)%nat
  /\ forall c, In c ["BTC"; "XRP"; "ETH"]
               <-> exists row, In row (rows (snd (run Sample.env [])))
                               /\ fst (row_key row) = c.
Proof.
  apply (every_coin_recorded Sample.env [] 200 10 ["BTC"; "XRP"; "ETH"] "tok" "42"
                             (69 # 2) (41 # 5) ((69 # 2) / (41 # 5)));
    vm_compute; reflexivity.
Defined.

Lemma ask_failure_keeps_bid_row_witness :
  let r := (69 # 2) / (41 # 5) in
  let nb := 280000 / r in
  let sb := 10000 * ((nb - 65000) / ((nb + 65000) / 2)) in
  fst (main_coin Edge.env_zero_ask "t" 200 r (69 # 2) (41 # 5) "BTC" (start [])) = inr tt
  /\ rows (snd (main_coin Edge.env_zero_ask "t" 200 r (69 # 2) (41 # 5) "BTC" (start [])))
     = rows (start [])
       ++ [[Text "t"; Text "Bid"; Text "BTC"; Number 280000; Number 65000;
            Number r; Number (69 # 2); Number (41 # 5); Number nb; Number sb; Text ""];
           [Text "t"; Text "ERR"; Text "BTC"; Text ""; Text "";
            Number r; Number (69 # 2); Number (41 # 5); Text ""; Text "";
            Text "float division by zero"]]
  /\ alerts (snd (main_coin Edge.env_zero_ask "t" 200 r (69 # 2) (41 # 5) "BTC" (start [])))
     = alerts (start []) ++ (if fge sb 200 then [("BTC", "Bid", sb, nb, 65000)] else []).
Proof.
  apply (ask_failure_keeps_bid_row Edge.env_zero_ask "t" 200 ((69 # 2) / (41 # 5)) (69 # 2)
                                   (41 # 5) "BTC" (start []) 0 65000 280000 0
                                   (280000 / ((69 # 2) / (41 # 5)))
                                   (10000 * ((280000 / ((69 # 2) / (41 # 5)) - 65000)
                                             / ((280000 / ((69 # 2) / (41 # 5)) + 65000) / 2)))
                                   (0 / ((69 # 2) / (41 # 5))));
    vm_compute; reflexivity.
Defined.

Lemma zero_derived_rate_all_errors_witness :
  fst (run (Edge.with_rates "0.00" "8.20") []) = inr tt
  /\ map error_of (rows (snd (run (Edge.with_rates "0.00" "8.20") [])))
     = [Some "float division by zero"; Some "Read timed out."; Some "float division by zero"]
  /\ alerts (snd (run (Edge.with_rates "0.00" "8.20") [])) = [].
Proof.
  unshelve refine (let Hw := zero_derived_rate_all_errors (Edge.with_rates "0.00" "8.20") [] 200 10
                      ["BTC"; "XRP"; "ETH"] "tok" "42" 0 (41 # 5) (0 / (41 # 5)) _ _ _ _ _ in
          conj (proj1 Hw) (conj _ (proj2 (proj2 Hw))));
    vm_compute; reflexivity.
Defined.

Lemma one_post_per_alert_witness :
  fst (run Sample.env []) = inr tt
  /\ List.filter is_post (trace (snd (run Sample.env [])))
     = map (fun a => TelegramPost "tok" "42"
                       (alert_message ((69 # 2) / (41 # 5)) (69 # 2) (41 # 5)
                                      (now Sample.env) a))
           (alerts (snd (run Sample.env []))).
Proof.
  refine (let Hw := one_post_per_alert Sample.env [] 200 10 ["BTC"; "XRP"; "ETH"] "tok" "42"
                      (69 # 2) (41 # 5) ((69 # 2) / (41 # 5)) _ _ _ _ _ _ _ in
          conj (proj1 Hw) (proj1 (proj2 Hw)));
    try discriminate; try (vm_compute; reflexivity).
  vm_compute. repeat constructor.
Defined.

Lemma failed_post_stops_the_rest_witness :
  fst (run Edge.env_post_fails []) = inl (Exn "ConnectionError" "Connection aborted.")
  /\ length (alerts (snd (run Edge.env_post_fails []))) = 4%nat
  /\ length (List.filter is_post (trace (snd (run Edge.env_post_fails [])))) = 3%nat
  /\ log_ws (snd (run Edge.env_post_fails []))
     = [header] ++ rows (snd (run Edge.env_post_fails [])).
Proof.
  unshelve refine (let Hw := failed_post_stops_the_rest Edge.env_post_fails [] 200 10
                      ["BTC"; "XRP"; "ETH"] "tok" "42" (69 # 2) (41 # 5) ((69 # 2) / (41 # 5))
                      (firstn 2 (alerts (snd (run Edge.env_post_fails []))))
                      (skipn 3 (alerts (snd (run Edge.env_post_fails []))))
                      (nth 2 (alerts (snd (run Edge.env_post_fails []))) ("", "", 0, 0, 0))
                      (Exn "ConnectionError" "Connection aborted.") _ _ _ _ _ _ _ _ _ in
          conj (proj1 Hw) (conj _ (conj _ (proj1 (proj2 (proj2 Hw))))));
    try discriminate; try (vm_compute; reflexivity).
  vm_compute. repeat constructor.
Defined.

Lemma venue_errors_contained_witness :
  fst (run Sample.env []) = inr tt
  \/ exists a e,
      In a (alerts (snd (run Sample.env [])))
      /\ "tok" <> "" /\ "42" <> ""
      /\ telegram_post Sample.env "tok" "42"
           (alert_message ((69 # 2) / (41 # 5)) (69 # 2) (41 # 5) (now Sample.env) a) = inl e
      /\ fst (run Sample.env []) = inl e.
Proof.
  apply (venue_errors_contained Sample.env [] 200 10 ["BTC"; "XRP"; "ETH"] "tok" "42"
                                (69 # 2) (41 # 5) ((69 # 2) / (41 # 5)));
    vm_compute; reflexivity.
Defined.

Lemma kucoin_prices_missing_field_witness :
  value (kucoin_prices Edge.env_no_data "BTC") = inl (Exn "KeyError" "'data'")
  /\ main_coin Edge.env_no_data "t" 200 1 2 3 "BTC" (start [])
     = (inr tt,
        {| log_ws := []; trace := [] ++ [KucoinGet "BTC"];
           rows := [] ++ [[Text "t"; Text "ERR"; Text "BTC"; Text ""; Text "";
                           Number 1; Number 2; Number 3; Text ""; Text "";
                           Text "'data'"]];
           alerts := [] |}).
Proof.
  refine (let Hw := kucoin_prices_missing_field Edge.env_no_data "BTC"
                      (<["code" := JStr "400100"]> {[ "msg" := JStr "symbol not exists" ]})
                      eq_refl in
          conj (proj1 Hw _)
               (proj2 (proj2 (proj2 (proj2 Hw))) (Exn "KeyError" "'data'") "t" 200 1 2 3
                      (start []) _));
    vm_compute; reflexivity.
Defined.

Lemma luno_prices_bid_then_ask_witness :
  value (luno_prices_myr Edge.env_no_ask "BTC") = inl (Exn "KeyError" "'ask'").
Proof.
  refine (proj1 (proj2 (proj2 (proj2 (luno_prices_bid_then_ask Edge.env_no_ask "BTC"
                                        {[ "bid" := JNum 280000 ]} eq_refl))))
                (JNum 280000) 280000 _ _ _); vm_compute; reflexivity.
Defined.

Lemma settings_are_stripped_witness :
  "TELEGRAM_CHAT_ID" <> "" /\ PyStr.strip "TELEGRAM_CHAT_ID" = "TELEGRAM_CHAT_ID"
  /\ PyStr.strip "42" = "42"
  /\ forall k', PyStr.strip k' <> k' -> settings_map (setting_values Sample.env) !! k' = None.
Proof.
  apply (settings_are_stripped (setting_values Sample.env) "TELEGRAM_CHAT_ID" "42").
  vm_compute; reflexivity.
Defined.

Lemma coins_are_normalised_witness :
  Forall (fun c => c <> "" /\ PyStr.strip c = c /\ PyStr.upper c = c) ["BTC"; "XRP"; "ETH"]
  /\ (length ["BTC"; "XRP"; "ETH"]
      <= length (PyStr.split "," (default "BTC,ETH"
                                    (settings_map (setting_values Sample.env) !! "COINS"))))%nat
  /\ PyStr.strip "tok" = "tok" /\ PyStr.strip "42" = "42".
Proof.
  apply (coins_are_normalised (F := Q) (setting_values Sample.env) 200 10
                              ["BTC"; "XRP"; "ETH"] "tok" "42").
  vm_compute; reflexivity.
Defined.

Lemma absent_settings_default_witness :
  (settings_map [["ALERT_BPS"; "150"]; ["telegram_chat_id"; "42"]] !! "COOLDOWN_MIN" = None ->
   float_of_string "10" = inr 10)
  /\ (settings_map [["ALERT_BPS"; "150"]; ["telegram_chat_id"; "42"]] !! "COINS" = None ->
      ["BTC"; "ETH"] = ["BTC"; "ETH"])
  /\ (settings_map [["ALERT_BPS"; "150"]; ["telegram_chat_id"; "42"]] !! "TELEGRAM_CHAT_ID"
      = None -> "" = "").
Proof.
  refine (let Hw := absent_settings_default (F := Q)
                      [["ALERT_BPS"; "150"]; ["telegram_chat_id"; "42"]]
                      150 10 ["BTC"; "ETH"] "" "" _ in
          conj (proj1 (proj2 Hw))
               (conj (proj1 (proj2 (proj2 Hw)))
                     (proj1 (proj2 (proj2 (proj2 (proj2 Hw)))))));
    vm_compute; reflexivity.
Defined.

Lemma blank_coins_no_default_witness :
  [] = ([] : list string)
  /\ run (with_settings Sample.env Edge.values_blank_coins) []
     = (inr tt,
        {| log_ws := [header];
           trace := [AppendRow header]
                    ++ [XeGet "USD" "THB"; Sleep 2; XeGet "MYR" "THB"; AppendRows []];
           rows := []; alerts := [] |}).
Proof.
  apply (blank_coins_no_default (with_settings Sample.env Edge.values_blank_coins) [] ","
                                200 10 [] "" "" (69 # 2) (41 # 5) ((69 # 2) / (41 # 5)));
    try (vm_compute; reflexivity).
  vm_compute. repeat constructor.
Defined.

Lemma nan_threshold_never_alerts_witness :
  alerts (snd (run Edge.env_nan [])) = []
  /\ List.filter is_post (trace (snd (run Edge.env_nan []))) = []
  /\ length (rows (snd (run Edge.env_nan []))) = 2%nat.
Proof.
  unshelve refine (let Hw := nan_threshold_never_alerts Edge.env_nan [] nan 10%float ["BTC"]
                      "tok" "42" _ _ in
          conj (proj1 Hw) (conj (proj1 (proj2 Hw)) _));
    vm_compute; reflexivity.
Defined.

Lemma matched_rate_is_read_witness :
  (exists q : Q, value (get_xe_rate (Edge.with_rates "34.50" "8.20") "USD" "THB") = inr q
                 /\ 0 <= q)
  /\ exists x : float, float_of_string "34.50" = inr x.
Proof.
  apply (matched_rate_is_read (Edge.with_rates "34.50" "8.20") "USD" "THB"
                              {| labelled := Some "34.50"; faded_digits := Some "1.00" |}
                              "34.50");
    [reflexivity | left; reflexivity | reflexivity].
Defined.

End Instances.
